(** * Array validation of pyvista: [pyvista/core/validation/validate.py]

    A shallow embedding of [validate_array], its specialised variants,
    [validate_axes] and [validate_transform4x4], with the properties the
    specification states about them.

    Conventions of the embedding.
    - A Python exception is a value of [exn]; a function that may raise
      returns [result A].  Error messages (and the [name] that only feeds
      them) carry no behaviour and are not represented.
    - A numpy array is a record of its dtype, its shape and its elements in
      row-major (C) order.  float64 is Rocq's primitive binary64 [float], so
      the arithmetic of [validate_axes] is IEEE-754 arithmetic; int64 is [Z]
      (wrap-around on overflow is not represented).
    - Aliasing ([copy], [as_any], read-only views) is not represented: the
      embedding is of the values computed. *)

From Stdlib Require Import ZArith List Bool String Floats Uint63 Lia.
From stdpp Require Import gmap strings list.

Set Warnings "-register-all,-inexact-float".
Local Open Scope Z_scope.

(** ** Exceptions and the error monad *)

Inductive exn := TypeError | ValueError.

Inductive result (A : Type) :=
| Ok (a : A)
| Err (e : exn).
Arguments Ok {A} a.
Arguments Err {A} e.

Definition bind {A B : Type} (m : result A) (k : A -> result B) : result B :=
  match m with
  | Ok a => k a
  | Err e => Err e
  end.

Notation "'let*' x ':=' m 'in' k" := (bind m (fun x => k))
  (at level 10, x name, m at level 100, k at level 200).
Notation "'let*' ' p ':=' m 'in' k" := (bind m (fun x => match x with p => k end))
  (at level 10, p pattern, m at level 100, k at level 200).
Notation "m ';;' k" := (bind m (fun _ => k))
  (at level 100, k at level 200, right associativity).

(** [if cond: raise e] *)
Definition raise_if (cond : bool) (e : exn) : result unit :=
  if cond then Err e else Ok tt.

(** [if guard: check] for an optional check. *)
Definition when (guard : bool) (check : result unit) : result unit :=
  if guard then check else Ok tt.

Definition is_not_None {A : Type} (opt : option A) : bool :=
  match opt with
  | Some _ => true
  | None => false
  end.

(** [if opt is not None: check(opt)] *)
Definition when_some {A : Type} (opt : option A) (check : A -> result unit) : result unit :=
  match opt with
  | Some v => check v
  | None => Ok tt
  end.

(** [try: body except ValueError: raise TypeError] *)
Definition except_ValueError_raise_TypeError {A : Type} (body : result A) : result A :=
  match body with
  | Err ValueError => Err TypeError
  | r => r
  end.

(** ** Numbers

    The scalars numpy stores: booleans, integers, floats and (when realness
    is not required) complex numbers. *)

Inductive dtype := Bool_ | Int64 | Float64 | Complex128.

Inductive num :=
| NBool (b : bool)
| NInt (z : Z)
| NFloat (f : float)
| NComplex (re im : float).

Definition dtype_eqb (a b : dtype) : bool :=
  match a, b with
  | Bool_, Bool_ | Int64, Int64 | Float64, Float64 | Complex128, Complex128 => true
  | _, _ => false
  end.

Definition dtype_rank (d : dtype) : nat :=
  match d with Bool_ => 0 | Int64 => 1 | Float64 => 2 | Complex128 => 3 end%nat.

(** numpy's type promotion on the four kinds. *)
Definition promote (a b : dtype) : dtype :=
  if (dtype_rank a <? dtype_rank b)%nat then b else a.

Definition kind (x : num) : dtype :=
  match x with
  | NBool _ => Bool_
  | NInt _ => Int64
  | NFloat _ => Float64
  | NComplex _ _ => Complex128
  end.

Definition int64_min : Z := - 2 ^ 63.

(** The integer a 64-bit two's complement word holds: int64 arithmetic
    wraps around. *)
Definition wrap_int64 (z : Z) : Z := (z + 2 ^ 63) mod 2 ^ 64 - 2 ^ 63.

(** A natural number to float64: exact below 2^53, rounded to nearest
    (ties to even) above.  The machine integer the conversion goes
    through has 63 bits; a greater number is cut to 62 bits, the last of
    them set when a bit that was cut off is (which rounds the same way),
    and scaled back. *)
Definition Z_to_float_abs (m : Z) : float :=
  if m <? 2 ^ 63 then PrimFloat.of_uint63 (Uint63.of_Z m)
  else
    let k := Z.log2 m - 61 in
    let q := Z.shiftr m k in
    let sticky := if Z.shiftl q k =? m then 0 else 1 in
    Z.ldexp (PrimFloat.of_uint63 (Uint63.of_Z (Z.lor q sticky))) k.

(** An integer to float64. *)
Definition Z_to_float (z : Z) : float :=
  if z <? 0 then PrimFloat.opp (Z_to_float_abs (- z)) else Z_to_float_abs z.

(** float64 to int64: truncation toward zero; NaN, infinities and values
    out of range give the minimum (what the conversion yields on x86-64). *)
Definition float_to_Z (f : float) : Z :=
  match Prim2SF f with
  | S754_zero _ => 0
  | S754_finite s m e =>
      let v := Z.shiftl (Zpos m) e in
      if 2 ^ 63 <=? v then int64_min else if s then - v else v
  | _ => int64_min
  end.

(** [np.floor] on float64. *)
Definition float_floor (f : float) : float :=
  match Prim2SF f with
  | S754_finite s m e =>
      if 0 <=? e then f
      else
        let q := Z.shiftl (Zpos m) e in
        if s then
          if Z.shiftl q (- e) =? Zpos m then f else PrimFloat.opp (Z_to_float (q + 1))
        else Z_to_float q
  | _ => f
  end.

Definition re_part (x : num) : float :=
  match x with
  | NBool b => Z_to_float (Z.b2z b)
  | NInt z => Z_to_float z
  | NFloat f => f
  | NComplex re _ => re
  end.

Definition im_part (x : num) : float :=
  match x with
  | NComplex _ im => im
  | _ => 0%float
  end.

Definition is_complex (x : num) : bool :=
  match x with NComplex _ _ => true | _ => false end.

(** The integer behind a boolean or integer scalar. *)
Definition as_Z (x : num) : option Z :=
  match x with
  | NBool b => Some (Z.b2z b)
  | NInt z => Some z
  | _ => None
  end.

Definition float_nonzero (f : float) : bool := negb (PrimFloat.eqb f 0%float).

(** The conversion of one element to the dtype of the array numpy builds
    from it.  [Int64] stands for numpy's 64-bit integers: an integer from
    2^63 on, which numpy stores as uint64, is kept as it is. *)
Definition astype1 (d : dtype) (x : num) : num :=
  match d with
  | Bool_ =>
      NBool match x with
            | NBool b => b
            | NInt z => negb (z =? 0)
            | NFloat f => float_nonzero f
            | NComplex re im => float_nonzero re || float_nonzero im
            end
  | Int64 =>
      NInt match x with
           | NBool b => Z.b2z b
           | NInt z => z
           | NFloat f => float_to_Z f
           | NComplex re _ => float_to_Z re
           end
  | Float64 => NFloat (re_part x)
  | Complex128 => NComplex (re_part x) (im_part x)
  end.

(** Comparisons with numpy's promotion: integers compare as integers,
    everything else as float64; complex numbers compare lexicographically
    (real part first), as numpy's comparison loops do. *)
Definition num_ltb (a b : num) : bool :=
  match as_Z a, as_Z b with
  | Some x, Some y => x <? y
  | _, _ =>
      if is_complex a || is_complex b then
        (PrimFloat.ltb (re_part a) (re_part b)
           && negb (PrimFloat.is_nan (im_part a)) && negb (PrimFloat.is_nan (im_part b)))
        || (PrimFloat.eqb (re_part a) (re_part b) && PrimFloat.ltb (im_part a) (im_part b))
      else PrimFloat.ltb (re_part a) (re_part b)
  end.

Definition num_leb (a b : num) : bool :=
  match as_Z a, as_Z b with
  | Some x, Some y => x <=? y
  | _, _ =>
      if is_complex a || is_complex b then
        (PrimFloat.ltb (re_part a) (re_part b)
           && negb (PrimFloat.is_nan (im_part a)) && negb (PrimFloat.is_nan (im_part b)))
        || (PrimFloat.eqb (re_part a) (re_part b) && PrimFloat.leb (im_part a) (im_part b))
      else PrimFloat.leb (re_part a) (re_part b)
  end.

Definition num_eqb (a b : num) : bool :=
  match as_Z a, as_Z b with
  | Some x, Some y => x =? y
  | _, _ =>
      PrimFloat.eqb (re_part a) (re_part b) && PrimFloat.eqb (im_part a) (im_part b)
  end.

(** [np.isfinite] on one element. *)
Definition num_isfinite (x : num) : bool :=
  match x with
  | NBool _ | NInt _ => true
  | NFloat f => PrimFloat.is_finite f
  | NComplex re im => PrimFloat.is_finite re && PrimFloat.is_finite im
  end.

(** Arithmetic with promotion.  On two booleans numpy's [*] is conjunction
    and [+] is disjunction; [-] is refused there (see [np_cross]).  On
    integers the result is the int64 one: it wraps around. *)
Definition num_mul (a b : num) : num :=
  match a, b with
  | NBool x, NBool y => NBool (x && y)
  | _, _ =>
      match as_Z a, as_Z b with
      | Some x, Some y => NInt (wrap_int64 (x * y))
      | _, _ =>
          if is_complex a || is_complex b then
            NComplex (re_part a * re_part b - im_part a * im_part b)%float
                     (re_part a * im_part b + im_part a * re_part b)%float
          else NFloat (re_part a * re_part b)%float
      end
  end.

Definition num_add (a b : num) : num :=
  match a, b with
  | NBool x, NBool y => NBool (x || y)
  | _, _ =>
      match as_Z a, as_Z b with
      | Some x, Some y => NInt (wrap_int64 (x + y))
      | _, _ =>
          if is_complex a || is_complex b then
            NComplex (re_part a + re_part b)%float (im_part a + im_part b)%float
          else NFloat (re_part a + re_part b)%float
      end
  end.

Definition num_sub (a b : num) : num :=
  match as_Z a, as_Z b with
  | Some x, Some y => NInt (wrap_int64 (x - y))
  | _, _ =>
      if is_complex a || is_complex b then
        NComplex (re_part a - re_part b)%float (im_part a - im_part b)%float
      else NFloat (re_part a - re_part b)%float
  end.

Definition num_neg (a : num) : num :=
  match a with
  | NBool b => NBool b
  | NInt z => NInt (wrap_int64 (- z))
  | NFloat f => NFloat (- f)%float
  | NComplex re im => NComplex (- re)%float (- im)%float
  end.

(** ** Arrays *)

Record ndarray := mk_ndarray {
  dtype_of : dtype;
  shape : list nat;
  data : list num      (* row-major *)
}.

(** Number of elements of an array of shape [s]. *)
Definition shape_size (s : list nat) : nat := fold_right Nat.mul 1%nat s.

Definition ndim (a : ndarray) : nat := length (shape a).

(** [len(a)] of an array with at least one dimension. *)
Definition first_dim (a : ndarray) : option nat := head (shape a).

(** An array whose element list fits its shape and its dtype. *)
Definition well_formed (a : ndarray) : Prop :=
  length (data a) = shape_size (shape a)
  /\ Forall (fun x => kind x = dtype_of a) (data a).

(** [ndarray.astype] on one element: into int64 an integer wraps around,
    so that an integer from 2^63 on becomes negative. *)
Definition astype1_wrapping (d : dtype) (x : num) : num :=
  match d, x with
  | Int64, NInt z => NInt (wrap_int64 z)
  | _, _ => astype1 d x
  end.

Definition astype (d : dtype) (a : ndarray) : ndarray :=
  mk_ndarray d (shape a) (map (astype1_wrapping d) (data a)).

(** [n] consecutive blocks of [k] elements. *)
Fixpoint chunks {A : Type} (k n : nat) (l : list A) : list (list A) :=
  match n with
  | O => []
  | S n' => firstn k l :: chunks k n' (skipn k l)
  end.

(** [a[i]] for an array with at least one dimension. *)
Definition row (a : ndarray) (i : nat) : ndarray :=
  let inner := tail (shape a) in
  mk_ndarray (dtype_of a) inner
             (firstn (shape_size inner) (skipn (i * shape_size inner) (data a))).

(** ** Shapes as Python writes them

    [ShapeLike] is an [int] or a tuple of [int]; note that [(-1)] is the
    integer [-1], not a tuple. *)

Inductive shape_like :=
| ShInt (n : Z)
| ShTuple (dims : list Z).

(** [must_have_shape]: one shape or a list of alternatives. *)
Inductive shape_arg :=
| OneShape (s : shape_like)
| ShapeList (ss : list shape_like).

Definition dims_of (s : shape_like) : list Z :=
  match s with
  | ShInt n => [n]
  | ShTuple l => l
  end.

Fixpoint list_eqb {A B : Type} (eqb : A -> B -> bool) (l : list A) (m : list B) : bool :=
  match l, m with
  | [], [] => true
  | x :: l', y :: m' => eqb x y && list_eqb eqb l' m'
  | _, _ => false
  end.

(** [a.shape == t]: a tuple never equals an [int]. *)
Definition shape_eqb (s : list nat) (t : shape_like) : bool :=
  match t with
  | ShInt _ => false
  | ShTuple l => list_eqb (fun d p => Z.of_nat d =? p) s l
  end.

(** ** numpy: reshape and broadcast_to *)

Definition count_unknown (l : list Z) : nat :=
  length (List.filter (fun d => d =? -1) l).
Definition known_size (l : list Z) : Z :=
  fold_right Z.mul 1 (List.filter (fun d => negb (d =? -1)) l).

(** The shape [reshape] resolves [t] to for an array of [n] elements. *)
Definition resolve_shape (n : nat) (t : shape_like) : result (list nat) :=
  let l := dims_of t in
  if existsb (fun d => d <? -1) l then Err ValueError
  else
    match count_unknown l with
    | O => if known_size l =? Z.of_nat n then Ok (map Z.to_nat l) else Err ValueError
    | S O =>
        let k := known_size l in
        if (k =? 0) || negb (Z.of_nat n mod k =? 0) then Err ValueError
        else Ok (map (fun d => if d =? -1 then Z.to_nat (Z.of_nat n / k) else Z.to_nat d) l)
    | _ => Err ValueError
    end.

(** [a.reshape(t)] *)
Definition np_reshape (a : ndarray) (t : shape_like) : result ndarray :=
  let* s := resolve_shape (length (data a)) t in
  Ok (mk_ndarray (dtype_of a) s (data a)).

(** Elements of the broadcast of a block of shape [s] to shape [t], for
    [s] and [t] of one length and compatible. *)
Fixpoint broadcast_data (s t : list nat) (d : list num) : list num :=
  match s, t with
  | sd :: s', td :: t' =>
      let blocks := map (broadcast_data s' t') (chunks (shape_size s') sd d) in
      if (sd =? td)%nat then concat blocks
      else concat (repeat (concat blocks) td)
  | _, _ => d
  end.

Definition broadcastable (s t : list nat) : bool :=
  list_eqb (fun sd td => (sd =? td)%nat || (sd =? 1)%nat) s t.

(** [np.broadcast_to(a, t)] *)
Definition np_broadcast_to (a : ndarray) (t : shape_like) : result ndarray :=
  let l := dims_of t in
  if existsb (fun d => d <? 0) l then Err ValueError
  else
    let tn := map Z.to_nat l in
    if (length tn <? ndim a)%nat then Err ValueError
    else
      let s := repeat 1%nat (length tn - ndim a) ++ shape a in
      if broadcastable s tn
      then Ok (mk_ndarray (dtype_of a) tn (broadcast_data s tn (data a)))
      else Err ValueError.

(** [a.tolist()] shaped by [s]: nested lists, a bare scalar for [s = ()]. *)
Inductive pytree :=
| TNum (x : num)
| TList (l : list pytree)
| TTuple (l : list pytree).

Fixpoint nest (mk : list pytree -> pytree) (s : list nat) (d : list num) : pytree :=
  match s with
  | [] => match d with x :: _ => TNum x | [] => mk [] end
  | n :: s' => mk (map (nest mk s') (chunks (shape_size s') n d))
  end.

Definition tolist (a : ndarray) : pytree := nest TList (shape a) (data a).

Definition nat_list_eqb (s t : list nat) : bool := list_eqb Nat.eqb s t.

(** ** Input values

    What a caller may pass as [array]: a number, a (nested) list or tuple,
    an [ndarray], or some other object (a string, [None], ...). *)

Inductive pyobj :=
| PyNum (x : num)
| PyOther
| PySeq (xs : list pyobj)
| PyArray (a : ndarray).

(** What numpy's array constructor finds in an object: the common dtype
    of the elements seen ([None]: no element seen yet), whether every leaf
    is a number, the shape, and the elements. *)
Record found := mk_found {
  f_dtype : option dtype;
  f_numeric : bool;
  f_shape : list nat;
  f_data : list num
}.

Definition promote_opt (a b : option dtype) : option dtype :=
  match a, b with
  | Some x, Some y => Some (promote x y)
  | Some x, None | None, Some x => Some x
  | None, None => None
  end.

(** Stacking the items of a sequence: they must have one shape. *)
Definition stack (parts : list found) : result found :=
  match parts with
  | [] => Ok (mk_found None true [0%nat] [])
  | p :: _ =>
      if forallb (fun q => nat_list_eqb (f_shape q) (f_shape p)) parts
      then Ok (mk_found (fold_right promote_opt None (map f_dtype parts))
                        (forallb f_numeric parts)
                        (length parts :: f_shape p)
                        (concat (map f_data parts)))
      else Err ValueError
  end.

Fixpoint discover (x : pyobj) : result found :=
  match x with
  | PyNum v => Ok (mk_found (Some (kind v)) true [] [v])
  | PyOther => Ok (mk_found None false [] [])
  | PyArray a => Ok (mk_found (Some (dtype_of a)) true (shape a) (data a))
  | PySeq xs =>
      let* parts :=
        (fix each (l : list pyobj) : result (list found) :=
           match l with
           | [] => Ok []
           | y :: l' => let* p := discover y in let* ps := each l' in Ok (p :: ps)
           end) xs in
      stack parts
  end.

(** Modelled from the spec: [_cast_to_numpy] of
    [pyvista/core/validation/_cast_array.py], which is not among the
    sources.  Section 4.1: nested sequences of uniform depth with numeric
    leaves become a canonical array; ragged nesting is rejected (as numpy
    does, with [ValueError]); [TypeError] when an element is not numeric,
    or when realness is required and the data is complex.  An [ndarray] is
    used as it is. *)
Definition _cast_to_numpy (arr : pyobj) (as_any copy must_be_real : bool) : result ndarray :=
  match arr with
  | PyArray a =>
      raise_if (must_be_real && dtype_eqb (dtype_of a) Complex128) TypeError;;
      Ok a
  | _ =>
      let* f := discover arr in
      raise_if (negb (f_numeric f)) TypeError;;
      let d := match f_dtype f with Some d => d | None => Float64 end in
      raise_if (must_be_real && dtype_eqb d Complex128) TypeError;;
      Ok (mk_ndarray d (f_shape f) (map (astype1 d) (f_data f)))
  end.

(** ** The checkers of [pyvista/core/validation/check.py]

    That module is not among the sources: each checker is modelled from the
    table of section 4.2 of the specification, which gives its contract and
    the exception it raises. *)

(** The dtype arguments numpy accepts: a concrete dtype (Python's [bool],
    [int] and [float] name [Bool_], [Int64] and [Float64]) or one of the
    abstract classes of numpy's scalar hierarchy. *)
Inductive dtype_like :=
| DT (d : dtype)
| DTInteger           (* np.integer *)
| DTFloating          (* np.floating *)
| DTComplexFloating   (* np.complexfloating *)
| DTInexact           (* np.inexact *)
| DTNumber.           (* np.number *)

Definition dtype_like_eqb (a b : dtype_like) : bool :=
  match a, b with
  | DT x, DT y => dtype_eqb x y
  | DTInteger, DTInteger | DTFloating, DTFloating
  | DTComplexFloating, DTComplexFloating | DTInexact, DTInexact
  | DTNumber, DTNumber => true
  | _, _ => false
  end.

(** The classes above a dtype argument in numpy's hierarchy, itself first. *)
Definition ancestors (t : dtype_like) : list dtype_like :=
  match t with
  | DT Bool_ => [t]
  | DT Int64 => [t; DTInteger; DTNumber]
  | DT Float64 => [t; DTFloating; DTInexact; DTNumber]
  | DT Complex128 => [t; DTComplexFloating; DTInexact; DTNumber]
  | DTInteger => [t; DTNumber]
  | DTFloating => [t; DTInexact; DTNumber]
  | DTComplexFloating => [t; DTInexact; DTNumber]
  | DTInexact => [t; DTNumber]
  | DTNumber => [t]
  end.

(** [np.issubdtype(t, base)] *)
Definition issubdtype (t base : dtype_like) : bool :=
  existsb (dtype_like_eqb base) (ancestors t).

(** Modelled from the spec: [check_subdtype] (section 4.2, row
    dtype/subtype: the dtype must be a subtype of one of the declared
    families; a type checker, so [TypeError]). *)
Definition check_subdtype (t : dtype_like) (bases : list dtype_like) : result unit :=
  raise_if (negb (existsb (issubdtype t) bases)) TypeError.

Definition dim_matches (d : nat) (p : Z) : bool := (p =? -1) || (p =? Z.of_nat d).

Definition shape_matches (s : list nat) (p : shape_like) : bool :=
  list_eqb dim_matches s (dims_of p).

Definition alternatives (arg : shape_arg) : list shape_like :=
  match arg with
  | OneShape s => [s]
  | ShapeList ss => ss
  end.

(** Modelled from the spec: [check_shape] (section 4.2, row shape: the
    shape must equal one of the declared patterns, a wildcard dimension
    [-1] matching any size; [ValueError]). *)
Definition check_shape (a : ndarray) (arg : shape_arg) : result unit :=
  raise_if (negb (existsb (shape_matches (shape a)) (alternatives arg))) ValueError.

(** [len(arr)] as [check_length] takes it: of a sequence its number of
    items, of an array its first dimension, and 1 for a scalar when
    scalars are allowed. *)
Definition py_len (arr : pyobj) (allow_scalar : bool) : result nat :=
  match arr with
  | PySeq xs => Ok (length xs)
  | PyArray a =>
      match shape a with
      | n :: _ => Ok n
      | [] => if allow_scalar then Ok 1%nat else Err TypeError
      end
  | PyNum _ => if allow_scalar then Ok 1%nat else Err TypeError
  | PyOther => Err TypeError
  end.

(** Modelled from the spec: [check_length] (section 4.2, row length: the
    size along the governing, that is the first, axis must equal an exact
    value, or lie within the declared bounds; scalars may be treated as
    length 1; [ValueError]).  It takes any array-like. *)
Definition check_length (arr : pyobj) (exact_length : option (list Z))
    (min_length max_length : option Z) (allow_scalar : bool) : result unit :=
  let* n := py_len arr allow_scalar in
  when_some exact_length
    (fun lengths => raise_if (negb (existsb (Z.eqb (Z.of_nat n)) lengths)) ValueError);;
  when_some min_length (fun m => raise_if (Z.of_nat n <? m) ValueError);;
  when_some max_length (fun m => raise_if (m <? Z.of_nat n) ValueError).

(** Modelled from the spec: [check_nonnegative] (all elements >= 0). *)
Definition check_nonnegative (a : ndarray) : result unit :=
  raise_if (negb (forallb (num_leb (NInt 0)) (data a))) ValueError.

(** Modelled from the spec: [check_finite] (no element is infinite or
    not-a-number). *)
Definition check_finite (a : ndarray) : result unit :=
  raise_if (negb (forallb num_isfinite (data a))) ValueError.

Definition num_floor (x : num) : num :=
  match x with
  | NFloat f => NFloat (float_floor f)
  | _ => x
  end.

(** Modelled from the spec: [check_integer] (every element equals its own
    floor).  numpy has no floor of a complex number: [TypeError]. *)
Definition check_integer (a : ndarray) (strict : bool) : result unit :=
  if strict then check_subdtype (DT (dtype_of a)) [DTInteger]
  else
    raise_if (dtype_eqb (dtype_of a) Complex128) TypeError;;
    raise_if (negb (forallb (fun x => num_eqb x (num_floor x)) (data a))) ValueError.

(** Modelled from the spec: [check_range] (all elements lie within
    [[lower, upper]], each bound strict on request; [ValueError]). *)
Definition check_range (a : ndarray) (rng : num * num) (strict_lower strict_upper : bool)
    : result unit :=
  let above x := if strict_lower then num_ltb (fst rng) x else num_leb (fst rng) x in
  let below x := if strict_upper then num_ltb x (snd rng) else num_leb x (snd rng) in
  raise_if (negb (forallb above (data a))) ValueError;;
  raise_if (negb (forallb below (data a))) ValueError.

(** The elements along [axis], one list per position of the other axes. *)
Definition lanes (s : list nat) (axis : nat) (d : list num) : list (list num) :=
  let outer := shape_size (firstn axis s) in
  let n := nth axis s 0%nat in
  let inner := shape_size (skipn (S axis) s) in
  flat_map (fun o =>
    map (fun i =>
      map (fun j => nth (o * n * inner + j * inner + i) d (NInt 0)) (seq 0 n))
      (seq 0 inner))
    (seq 0 outer).

Fixpoint pairwise (rel : num -> num -> bool) (l : list num) : bool :=
  match l with
  | x :: ((y :: _) as l') => rel x y && pairwise rel l'
  | _ => true
  end.

Definition order (ascending strict : bool) (x y : num) : bool :=
  match ascending, strict with
  | true, false => num_leb x y
  | true, true => num_ltb x y
  | false, false => num_leb y x
  | false, true => num_ltb y x
  end.

(** Modelled from the spec: [check_sorted] (section 4.2, row sorted: the
    elements along the declared axis are monotonic per the sortedness spec,
    strict forbids ties; defaults ascending, non-strict, last axis).  An
    axis out of bounds is numpy's [AxisError], a [ValueError]. *)
Definition check_sorted (a : ndarray) (ascending strict : bool) (axis : Z) : result unit :=
  let n := Z.of_nat (ndim a) in
  if n =? 0 then Ok tt
  else
    raise_if ((axis <? - n) || (n <=? axis)) ValueError;;
    let ax := Z.to_nat (if axis <? 0 then axis + n else axis) in
    raise_if (negb (forallb (pairwise (order ascending strict))
                            (lanes (shape a) ax (data a)))) ValueError.

(** Modelled from the spec: [_cast_to_tuple] of [_cast_array.py] (section
    4.4: the array is unwrapped recursively into nested tuples, a
    0-dimensional array into a bare scalar). *)
Definition _cast_to_tuple (a : ndarray) : pytree := nest TTuple (shape a) (data a).

(** ** [validate_array] *)

(** [must_be_sorted]: a [bool], or a [dict] of keyword arguments for
    [check_sorted] (a key that is absent is [None] here). *)
Inductive sorted_arg :=
| SortedBool (b : bool)
| SortedDict (ascending strict : option bool) (axis : option Z).

(** Python's truth value of the argument: an empty [dict] is false. *)
Definition sorted_truthy (s : sorted_arg) : bool :=
  match s with
  | SortedBool b => b
  | SortedDict None None None => false
  | SortedDict _ _ _ => true
  end.

(** The keyword arguments of [validate_array]. *)
Record config := mk_config {
  must_have_shape : option shape_arg;
  must_have_dtype : option (list dtype_like);
  must_have_length : option (list Z);
  must_have_min_length : option Z;
  must_have_max_length : option Z;
  must_be_nonnegative : bool;
  must_be_finite : bool;
  must_be_real : bool;
  must_be_integer : bool;
  must_be_sorted : sorted_arg;
  must_be_in_range : option (num * num);
  strict_lower_bound : bool;
  strict_upper_bound : bool;
  reshape_to : option shape_like;
  broadcast_to : option shape_like;
  dtype_out : option dtype_like;
  as_any : bool;
  copy : bool;
  to_list : bool;
  to_tuple : bool
}.

(** The defaults of the signature. *)
Definition default_config : config :=
  {| must_have_shape := None; must_have_dtype := None; must_have_length := None;
     must_have_min_length := None; must_have_max_length := None;
     must_be_nonnegative := false; must_be_finite := false; must_be_real := true;
     must_be_integer := false; must_be_sorted := SortedBool false;
     must_be_in_range := None; strict_lower_bound := false; strict_upper_bound := false;
     reshape_to := None; broadcast_to := None; dtype_out := None;
     as_any := true; copy := false; to_list := false; to_tuple := false |}.

(** What [validate_array] returns: an [ndarray], or nested lists or tuples. *)
Inductive output :=
| OutArray (a : ndarray)
| OutNested (t : pytree).

(** [np.dtype(t)]: an abstract class names its default concrete dtype. *)
Definition np_dtype (t : dtype_like) : dtype :=
  match t with
  | DT d => d
  | DTInteger => Int64
  | DTComplexFloating => Complex128
  | DTFloating | DTInexact | DTNumber => Float64
  end.

Definition validate_array (array : pyobj) (c : config) : result output :=
  let* array_out := _cast_to_numpy array (as_any c) (copy c) (must_be_real c) in
  when_some (must_have_dtype c)
    (fun dtypes => check_subdtype (DT (dtype_of array_out)) dtypes);;
  (* Check shape *)
  when_some (must_have_shape c) (fun shp => check_shape array_out shp);;
  (* Do reshape _after_ checking shape to prevent unexpected reshaping *)
  let* array_out :=
    match reshape_to c with
    | Some target =>
        if negb (shape_eqb (shape array_out) target)
        then np_reshape array_out target else Ok array_out
    | None => Ok array_out
    end in
  let* array_out :=
    match broadcast_to c with
    | Some target =>
        if negb (shape_eqb (shape array_out) target)
        then np_broadcast_to array_out target else Ok array_out
    | None => Ok array_out
    end in
  (* Check length _after_ reshaping otherwise length may be wrong *)
  when (is_not_None (must_have_length c)
        || is_not_None (must_have_min_length c)
        || is_not_None (must_have_max_length c))
       (check_length array (must_have_length c) (must_have_min_length c)
                     (must_have_max_length c) true);;
  (* Check data values *)
  when (must_be_nonnegative c) (check_nonnegative array_out);;
  when (must_be_finite c) (check_finite array_out);;
  when (must_be_integer c) (check_integer array_out false);;
  when_some (must_be_in_range c)
    (fun rng => check_range array_out rng (strict_lower_bound c) (strict_upper_bound c));;
  when (sorted_truthy (must_be_sorted c))
       match must_be_sorted c with
       | SortedDict ascending strict axis =>
           check_sorted array_out (default true ascending) (default false strict)
                        (default (-1) axis)
       | SortedBool _ => check_sorted array_out true false (-1)
       end;;
  (* Process output *)
  let array_out :=
    match dtype_out c with
    | Some t => astype (np_dtype t) array_out
    | None => array_out
    end in
  if to_tuple c then Ok (OutNested (_cast_to_tuple array_out))
  else if to_list c then Ok (OutNested (tolist array_out))
  else Ok (OutArray array_out).

(** ** Keyword arguments

    The specialised validators take [**kwargs]: a [dict] from parameter
    names to Python values, which they edit and pass on. *)

Inductive pyval :=
| VNone
| VBool (b : bool)
| VInt (z : Z)
| VFloat (f : float)
| VStr (s : string)
| VTuple (l : list pyval)
| VList (l : list pyval)
| VDict (d : list (string * pyval))
| VType (t : dtype_like).

Definition as_num (v : pyval) : option num :=
  match v with
  | VBool b => Some (NBool b)
  | VInt z => Some (NInt z)
  | VFloat f => Some (NFloat f)
  | _ => None
  end.

(** Python's [a == b]: numbers compare by value across [bool], [int] and
    [float]; a tuple never equals a list; dicts compare by their items. *)
Fixpoint py_eqb (a b : pyval) : bool :=
  let fix all_eqb (l m : list pyval) : bool :=
    match l, m with
    | [], [] => true
    | x :: l', y :: m' => py_eqb x y && all_eqb l' m'
    | _, _ => false
    end in
  match a, b with
  | VNone, VNone => true
  | VBool _, _ | VInt _, _ | VFloat _, _ =>
      match as_num a, as_num b with
      | Some x, Some y => num_eqb x y
      | _, _ => false
      end
  | VStr s, VStr t => String.eqb s t
  | VTuple l, VTuple m => all_eqb l m
  | VList l, VList m => all_eqb l m
  | VDict d, VDict e =>
      (length d =? length e)%nat
      && (fix items (d : list (string * pyval)) : bool :=
            match d with
            | [] => true
            | (k, v) :: d' =>
                (fix find (e : list (string * pyval)) : bool :=
                   match e with
                   | [] => false
                   | (k', v') :: e' => if String.eqb k k' then py_eqb v v' else find e'
                   end) e
                && items d'
            end) d
  | VType s, VType t => dtype_like_eqb s t
  | _, _ => false
  end.

(** Python's truth value. *)
Definition py_truthy (v : pyval) : bool :=
  match v with
  | VNone => false
  | VBool b => b
  | VInt z => negb (z =? 0)
  | VFloat f => float_nonzero f
  | VStr s => negb (String.eqb s "")
  | VTuple l | VList l => negb (Nat.eqb (length l) 0)
  | VDict d => negb (Nat.eqb (length d) 0)
  | VType _ => true
  end.

(** [kwargs.setdefault(key, value)] *)
Definition setdefault (key : string) (value : pyval) (kwargs : gmap string pyval)
    : gmap string pyval :=
  match kwargs !! key with
  | Some _ => kwargs
  | None => <[key := value]> kwargs
  end.

(** [kwargs.pop(key, default)]: the value and the remaining dict. *)
Definition pop (key : string) (dflt : pyval) (kwargs : gmap string pyval)
    : pyval * gmap string pyval :=
  (default dflt (kwargs !! key), delete key kwargs).

(** Set a kwarg and raise ValueError if not set to its default value. *)
Definition _set_default_kwarg_mandatory (kwargs : gmap string pyval) (key : string)
    (dflt : pyval) : result (gmap string pyval) :=
  let '(val, kwargs) := pop key dflt kwargs in
  raise_if (negb (py_eqb val dflt)) ValueError;;
  Ok (<[key := dflt]> kwargs).

(** *** Binding [**kwargs] to the parameters of [validate_array]

    The call [validate_array(array, **kwargs)] raises [TypeError] on a name
    that is no parameter.  The parameters are read at the types the
    signature documents; a value of another type is answered [TypeError]
    here (the source leaves it to the checkers and to numpy). *)

Definition parameters : list string :=
  ["must_have_shape"; "must_have_dtype"; "must_have_length"; "must_have_min_length";
   "must_have_max_length"; "must_be_nonnegative"; "must_be_finite"; "must_be_real";
   "must_be_integer"; "must_be_sorted"; "must_be_in_range"; "strict_lower_bound";
   "strict_upper_bound"; "reshape_to"; "broadcast_to"; "dtype_out"; "as_any"; "copy";
   "to_list"; "to_tuple"; "name"]%string.

Fixpoint traverse {A B : Type} (f : A -> result B) (l : list A) : result (list B) :=
  match l with
  | [] => Ok []
  | x :: l' => let* y := f x in let* ys := traverse f l' in Ok (y :: ys)
  end.

Definition read_int (v : pyval) : result Z :=
  match v with
  | VInt z => Ok z
  | _ => Err TypeError
  end.

Definition read_shape_like (v : pyval) : result shape_like :=
  match v with
  | VInt z => Ok (ShInt z)
  | VTuple l => let* dims := traverse read_int l in Ok (ShTuple dims)
  | _ => Err TypeError
  end.

Definition read_shape_arg (v : pyval) : result shape_arg :=
  match v with
  | VList l => let* ss := traverse read_shape_like l in Ok (ShapeList ss)
  | _ => let* s := read_shape_like v in Ok (OneShape s)
  end.

Definition read_dtype (v : pyval) : result dtype_like :=
  match v with
  | VType t => Ok t
  | _ => Err TypeError
  end.

Definition read_dtypes (v : pyval) : result (list dtype_like) :=
  match v with
  | VTuple l | VList l => traverse read_dtype l
  | _ => let* t := read_dtype v in Ok [t]
  end.

Definition read_lengths (v : pyval) : result (list Z) :=
  match v with
  | VTuple l | VList l => traverse read_int l
  | _ => let* z := read_int v in Ok [z]
  end.

Definition read_number (v : pyval) : result num :=
  match as_num v with
  | Some x => Ok x
  | None => Err TypeError
  end.

Definition read_range (v : pyval) : result (num * num) :=
  match v with
  | VTuple l | VList l =>
      let* xs := traverse read_number l in
      match xs with
      | [lo; hi] => Ok (lo, hi)
      | _ => Err ValueError
      end
  | _ => Err TypeError
  end.

Definition read_sorted (v : pyval) : result sorted_arg :=
  match v with
  | VDict d =>
      let key k := snd <$> List.find (fun kv => String.eqb (fst kv) k) d in
      raise_if (negb (forallb (fun kv => existsb (String.eqb (fst kv))
                                           ["ascending"; "strict"; "axis"]%string) d))
               TypeError;;
      let* axis := match key "axis"%string with
                   | Some a => let* z := read_int a in Ok (Some z)
                   | None => Ok None
                   end in
      Ok (SortedDict (py_truthy <$> key "ascending"%string)
                     (py_truthy <$> key "strict"%string) axis)
  | _ => Ok (SortedBool (py_truthy v))
  end.

(** A parameter that may be [None]. *)
Definition optional {A : Type} (read : pyval -> result A) (v : pyval) : result (option A) :=
  match v with
  | VNone => Ok None
  | _ => let* x := read v in Ok (Some x)
  end.

(** The argument given under [key], or the signature's default. *)
Definition arg {A : Type} (kwargs : gmap string pyval) (key : string)
    (read : pyval -> result A) (dflt : A) : result A :=
  match kwargs !! key with
  | Some v => read v
  | None => Ok dflt
  end.

Definition flag (v : pyval) : result bool := Ok (py_truthy v).

Definition bind_kwargs (kwargs : gmap string pyval) : result config :=
  let d := default_config in
  raise_if (negb (forallb (fun kv => existsb (String.eqb (fst kv)) parameters)
                          (map_to_list kwargs))) TypeError;;
  let* shp := arg kwargs "must_have_shape" (optional read_shape_arg) (must_have_shape d) in
  let* dty := arg kwargs "must_have_dtype" (optional read_dtypes) (must_have_dtype d) in
  let* len := arg kwargs "must_have_length" (optional read_lengths) (must_have_length d) in
  let* lmin := arg kwargs "must_have_min_length" (optional read_int) (must_have_min_length d) in
  let* lmax := arg kwargs "must_have_max_length" (optional read_int) (must_have_max_length d) in
  let* nonneg := arg kwargs "must_be_nonnegative" flag (must_be_nonnegative d) in
  let* finite := arg kwargs "must_be_finite" flag (must_be_finite d) in
  let* real := arg kwargs "must_be_real" flag (must_be_real d) in
  let* integer := arg kwargs "must_be_integer" flag (must_be_integer d) in
  let* sorted := arg kwargs "must_be_sorted" read_sorted (must_be_sorted d) in
  let* rng := arg kwargs "must_be_in_range" (optional read_range) (must_be_in_range d) in
  let* slb := arg kwargs "strict_lower_bound" flag (strict_lower_bound d) in
  let* sub := arg kwargs "strict_upper_bound" flag (strict_upper_bound d) in
  let* rsh := arg kwargs "reshape_to" (optional read_shape_like) (reshape_to d) in
  let* bct := arg kwargs "broadcast_to" (optional read_shape_like) (broadcast_to d) in
  let* dto := arg kwargs "dtype_out" (optional read_dtype) (dtype_out d) in
  let* any := arg kwargs "as_any" flag (as_any d) in
  let* cpy := arg kwargs "copy" flag (copy d) in
  let* tol := arg kwargs "to_list" flag (to_list d) in
  let* tot := arg kwargs "to_tuple" flag (to_tuple d) in
  Ok (mk_config shp dty len lmin lmax nonneg finite real integer sorted rng slb sub
                rsh bct dto any cpy tol tot).

(** [validate_array(array, **kwargs)] *)
Definition validate_array_kw (array : pyobj) (kwargs : gmap string pyval) : result output :=
  let* c := bind_kwargs kwargs in
  validate_array array c.

(** ** The specialised validators *)

Definition ints (l : list Z) : list pyval := map VInt l.

Definition validate_number (num : pyobj) (reshape : bool) (kwargs : gmap string pyval)
    : result output :=
  let kwargs := setdefault "name" (VStr "Number") kwargs in
  let kwargs := setdefault "to_list" (VBool true) kwargs in
  let kwargs := setdefault "must_be_finite" (VBool true) kwargs in
  let kwargs := setdefault "must_be_real" (VBool true) kwargs in
  let* '(shp, kwargs) :=
    if reshape then
      let* kwargs := _set_default_kwarg_mandatory kwargs "reshape_to" (VTuple []) in
      Ok (VList [VTuple []; VTuple (ints [1])], kwargs)
    else Ok (VTuple [], kwargs) in
  let* kwargs := _set_default_kwarg_mandatory kwargs "must_have_shape" shp in
  validate_array_kw num kwargs.

Definition validate_data_range (rng : pyobj) (kwargs : gmap string pyval) : result output :=
  let kwargs := setdefault "name" (VStr "Data Range") kwargs in
  let* kwargs := _set_default_kwarg_mandatory kwargs "must_have_shape" (VInt 2) in
  let* kwargs := _set_default_kwarg_mandatory kwargs "must_be_sorted" (VBool true) in
  let kwargs :=
    match kwargs !! "to_list" with
    | None => setdefault "to_tuple" (VBool true) kwargs
    | Some _ => kwargs
    end in
  validate_array_kw rng kwargs.

Definition validate_arrayNx3 (array : pyobj) (reshape : bool) (kwargs : gmap string pyval)
    : result output :=
  let* '(shp, kwargs) :=
    if reshape then
      let* kwargs :=
        _set_default_kwarg_mandatory kwargs "reshape_to" (VTuple (ints [-1; 3])) in
      Ok (VList [VInt 3; VTuple (ints [-1; 3])], kwargs)
    else Ok (VTuple (ints [-1; 3]), kwargs) in
  let* kwargs := _set_default_kwarg_mandatory kwargs "must_have_shape" shp in
  validate_array_kw array kwargs.

Definition validate_arrayN (array : pyobj) (reshape : bool) (kwargs : gmap string pyval)
    : result output :=
  let* '(shp, kwargs) :=
    if reshape then
      let* kwargs := _set_default_kwarg_mandatory kwargs "reshape_to" (VInt (-1)) in
      Ok (VList [VTuple []; VInt (-1); VTuple (ints [1; -1]); VTuple (ints [-1; 1])],
          kwargs)
    else Ok (VInt (-1), kwargs) in
  let* kwargs := _set_default_kwarg_mandatory kwargs "must_have_shape" shp in
  validate_array_kw array kwargs.

Definition validate_arrayN_uintlike (array : pyobj) (reshape : bool)
    (kwargs : gmap string pyval) : result output :=
  (* Set default dtype out but allow overriding as long as the dtype
     is also integral *)
  let kwargs := setdefault "dtype_out" (VType (DT Int64)) kwargs in
  let dtype_out := default VNone (kwargs !! "dtype_out") in
  when (negb (py_eqb dtype_out (VType (DT Int64))))
       (let* t := read_dtype dtype_out in check_subdtype t [DTInteger]);;
  let* kwargs := _set_default_kwarg_mandatory kwargs "must_be_integer" (VBool true) in
  let* kwargs := _set_default_kwarg_mandatory kwargs "must_be_nonnegative" (VBool true) in
  validate_arrayN array reshape kwargs.

Definition validate_array3 (array : pyobj) (reshape broadcast : bool)
    (kwargs : gmap string pyval) : result output :=
  let shp := [VTuple (ints [3])] in
  let* '(shp, kwargs) :=
    if reshape then
      let* kwargs := _set_default_kwarg_mandatory kwargs "reshape_to" (VInt (-1)) in
      Ok (shp ++ [VTuple (ints [1; 3]); VTuple (ints [3; 1])], kwargs)
    else Ok (shp, kwargs) in
  let* '(shp, kwargs) :=
    if broadcast then
      let* kwargs := _set_default_kwarg_mandatory kwargs "broadcast_to" (VTuple (ints [3])) in
      (* allow 0D scalars and 1D 1-element vectors *)
      Ok (shp ++ [VTuple []; VTuple (ints [1])], kwargs)
    else Ok (shp, kwargs) in
  let* kwargs := _set_default_kwarg_mandatory kwargs "must_have_shape" (VList shp) in
  validate_array_kw array kwargs.

(** ** numpy: the vector operations of [validate_axes]

    The arrays of [validate_axes] are real ([must_be_real] holds of every
    array it validates), so the float64 operations below read an element
    through [re_part]. *)

Definition rtol : float := 1e-5.
Definition atol : float := 1e-8.

(** [np.isclose(x, y)] on one pair, with the default tolerances:
    [|x - y| <= atol + rtol * |y|] on finite values, equality otherwise. *)
Definition np_isclose (x y : num) : bool :=
  let a := re_part x in
  let b := re_part y in
  if PrimFloat.is_finite a && PrimFloat.is_finite b
  then PrimFloat.leb (PrimFloat.abs (a - b)) (atol + rtol * PrimFloat.abs b)
  else PrimFloat.eqb a b.

(** [np.allclose(a, b)] for two arrays of one shape. *)
Definition np_allclose (a b : ndarray) : bool := list_eqb np_isclose (data a) (data b).

(** [-a] *)
Definition np_negative (a : ndarray) : ndarray :=
  mk_ndarray (dtype_of a) (shape a) (map num_neg (data a)).

(** [np.cross(a, b)] of two vectors of three elements.  numpy refuses to
    subtract booleans: [TypeError]. *)
Definition np_cross (a b : ndarray) : result ndarray :=
  match shape a, data a, shape b, data b with
  | [3%nat], [a0; a1; a2], [3%nat], [b0; b1; b2] =>
      let d := promote (dtype_of a) (dtype_of b) in
      raise_if (dtype_eqb d Bool_) TypeError;;
      Ok (mk_ndarray d [3%nat]
            [num_sub (num_mul a1 b2) (num_mul a2 b1);
             num_sub (num_mul a2 b0) (num_mul a0 b2);
             num_sub (num_mul a0 b1) (num_mul a1 b0)])
  | _, _, _, _ => Err ValueError
  end.

(** The sum of a list of terms, accumulated from the left. *)
Definition sum_from (zero : num) (terms : list num) : num :=
  match terms with
  | [] => zero
  | t :: terms' => fold_left num_add terms' t
  end.

(** [np.dot(a, b)] of two vectors, the products accumulated in order. *)
Definition np_dot (a b : ndarray) : result num :=
  match shape a, shape b with
  | [n], [m] =>
      raise_if (negb (n =? m)%nat) ValueError;;
      Ok (sum_from (astype1 (promote (dtype_of a) (dtype_of b)) (NInt 0))
                   (zip_with num_mul (data a) (data b)))
  | _, _ => Err ValueError
  end.

(** [np.atleast_2d(a)] *)
Definition np_atleast_2d (a : ndarray) : ndarray :=
  match shape a with
  | [] => mk_ndarray (dtype_of a) [1; 1]%nat (data a)
  | [n] => mk_ndarray (dtype_of a) [1%nat; n] (data a)
  | _ => a
  end.

(** [np.vstack(tup)]: the arrays, made two-dimensional, one below the
    other; they must agree on every axis but the first. *)
Definition np_vstack (tup : list ndarray) : result ndarray :=
  match map np_atleast_2d tup with
  | [] => Err ValueError
  | (a :: _) as arrs =>
      raise_if (negb (forallb (fun b => nat_list_eqb (tail (shape b)) (tail (shape a))) arrs))
               ValueError;;
      let d := fold_right promote Bool_ (map dtype_of arrs) in
      Ok (mk_ndarray d
            (fold_right Nat.add 0%nat (map (fun b => hd 0%nat (shape b)) arrs)
               :: tail (shape a))
            (concat (map (fun b => map (astype1 d) (data b)) arrs)))
  end.

(** The rows of a two-dimensional array. *)
Definition rows (a : ndarray) : list (list num) :=
  match shape a with
  | [r; c] => chunks c r (data a)
  | _ => []
  end.

(** [np.linalg.norm(a, axis=1)] of a two-dimensional array: per row, the
    square root of the sum of the squares. *)
Definition np_linalg_norm_axis1 (a : ndarray) : ndarray :=
  mk_ndarray Float64 [hd 0%nat (shape a)]
    (map (fun r =>
            NFloat (PrimFloat.sqrt
                      (re_part (sum_from (NFloat 0)
                                  (map (fun x => NFloat (re_part x * re_part x)) r)))))
         (rows a)).

(** The shape two shapes broadcast to. *)
Definition broadcast_shapes (s t : list nat) : result (list nat) :=
  let n := Nat.max (length s) (length t) in
  let s' := repeat 1%nat (n - length s) ++ s in
  let t' := repeat 1%nat (n - length t) ++ t in
  if list_eqb (fun x y => (x =? y)%nat || (x =? 1)%nat || (y =? 1)%nat) s' t'
  then Ok (zip_with (fun x y => if (x =? 1)%nat then y else x) s' t')
  else Err ValueError.

Definition nat_shape (s : list nat) : shape_like := ShTuple (map Z.of_nat s).

(** [a / b] (true division, in float64) *)
Definition np_true_divide (a b : ndarray) : result ndarray :=
  let* s := broadcast_shapes (shape a) (shape b) in
  let* a' := np_broadcast_to a (nat_shape s) in
  let* b' := np_broadcast_to b (nat_shape s) in
  Ok (mk_ndarray Float64 s
        (zip_with (fun x y => NFloat (re_part x / re_part y)) (data a') (data b'))).

(** Modelled from the spec: [check_contains] of [check.py] is not among
    the sources and the specification does not describe it; by its use an
    item outside the container is a [ValueError]. *)
Definition check_contains (item : string) (container : list string) : result unit :=
  raise_if (negb (existsb (String.eqb item) container)) ValueError.

(** [validate_array] returns an [ndarray] unless [to_list] or [to_tuple]
    is set, which [validate_axes] and the transform validators never do. *)
Definition as_ndarray (o : output) : result ndarray :=
  match o with
  | OutArray a => Ok a
  | OutNested _ => Err TypeError
  end.

(** ** [validate_axes] *)

Definition validate_axes (axes : list pyobj) (normalize must_be_orthogonal : bool)
    (must_have_orientation : option string) (name : string) : result ndarray :=
  when_some must_have_orientation
    (fun o => check_contains o ["right"; "left"]%string);;
  (* Validate number of args *)
  let num_args := length axes in
  raise_if (negb (existsb (Nat.eqb num_args) [1; 2; 3]%nat)) ValueError;;
  (* Validate axes array *)
  let vector_name i := {[ "name"%string := VStr (name ++ " Vector[" ++ i ++ "]") ]} in
  let* '(vector0, vector1, vector2) :=
    match axes with
    | [a] =>
        let* out :=
          validate_array a
            {| default_config with
               must_have_shape := Some (ShapeList [ShTuple [2; 3]; ShTuple [3; 3]]);
               dtype_out := Some DTFloating |} in
        let* axes_array := as_ndarray out in
        Ok (row axes_array 0, row axes_array 1,
            if bool_decide (first_dim axes_array = Some 3%nat)
            then Some (row axes_array 2) else None)
    | a0 :: a1 :: rest =>
        let* o0 := validate_array3 a0 true false (vector_name "0"%string) in
        let* vector0 := as_ndarray o0 in
        let* o1 := validate_array3 a1 true false (vector_name "1"%string) in
        let* vector1 := as_ndarray o1 in
        match rest with
        | a2 :: _ =>
            let* o2 := validate_array3 a2 true false (vector_name "2"%string) in
            let* vector2 := as_ndarray o2 in
            Ok (vector0, vector1, Some vector2)
        | [] => Ok (vector0, vector1, None)
        end
    | [] => Err ValueError
    end in
  let* vector2 :=
    match vector2 with
    | Some v => Ok v
    | None =>
        match must_have_orientation with
        | None => Err ValueError
        | Some o =>
            if String.eqb o "right" then np_cross vector0 vector1
            else np_cross vector1 vector0
        end
    end in
  let* axes_array := np_vstack [vector0; vector1; vector2] in
  check_finite axes_array;;
  let* dot01 := np_dot (row axes_array 0) (row axes_array 1) in
  (if np_isclose dot01 (NInt 1) then Err ValueError
   else
     let* dot02 := np_dot (row axes_array 0) (row axes_array 2) in
     raise_if (np_isclose dot02 (NInt 1)) ValueError);;
  raise_if (existsb (forallb (fun x => np_isclose x (NFloat 0))) (rows axes_array))
           ValueError;;
  (* Check orthogonality and orientation using cross products
     Normalize axes first since norm values are needed for cross product calc *)
  let* norms := np_reshape (np_linalg_norm_axis1 axes_array) (ShTuple [3; 1]) in
  let* axes_norm := np_true_divide axes_array norms in
  let* cross_0_1 := np_cross (row axes_norm 0) (row axes_norm 1) in
  let* cross_1_2 := np_cross (row axes_norm 1) (row axes_norm 2) in
  raise_if
    (must_be_orthogonal
     && negb ((np_allclose cross_0_1 (row axes_norm 2)
               || np_allclose cross_0_1 (np_negative (row axes_norm 2)))
              && (np_allclose cross_1_2 (row axes_norm 0)
                  || np_allclose cross_1_2 (np_negative (row axes_norm 0)))))
    ValueError;;
  match must_have_orientation with
  | Some o =>
      when (negb (String.eqb o ""))
        (let* dot := np_dot cross_0_1 (row axes_norm 2) in
         raise_if (String.eqb o "right" && num_ltb dot (NInt 0)) ValueError;;
         raise_if (String.eqb o "left" && num_ltb (NInt 0) dot) ValueError)
  | None => Ok tt
  end;;
  if normalize then Ok axes_norm else Ok axes_array.

(** ** The transform validators *)

(** What a caller may pass as [transform]: one of vtk's matrix objects,
    read element by element through [GetElement(i, j)], a [vtkTransform]
    (given by the matrix its [GetMatrix()] returns), or anything else. *)
Inductive transform_like :=
| VtkMatrix4x4 (GetElement : nat -> nat -> float)
| VtkMatrix3x3 (GetElement : nat -> nat -> float)
| VtkTransform (GetMatrix : nat -> nat -> float)
| NotVtk (x : pyobj).

(** [np.zeros(shape)] and [np.eye(n)] *)
Definition np_zeros (r c : nat) : ndarray :=
  mk_ndarray Float64 [r; c] (repeat (NFloat 0) (r * c)).

Definition np_eye (n : nat) : ndarray :=
  mk_ndarray Float64 [n; n]
    (flat_map (fun i => map (fun j => NFloat (if (i =? j)%nat then 1 else 0)) (seq 0 n))
              (seq 0 n)).

(** [itertools.product(range(r), range(c))] *)
Definition product_range (r c : nat) : list (nat * nat) :=
  flat_map (fun i => map (fun j => (i, j)) (seq 0 c)) (seq 0 r).

(** [array[i, j] = x] on a two-dimensional array, the element cast to the
    array's dtype. *)
Definition setitem2 (array : ndarray) (i j : nat) (x : num) : ndarray :=
  let c := nth 1 (shape array) 0%nat in
  mk_ndarray (dtype_of array) (shape array)
             (<[(i * c + j)%nat := astype1 (dtype_of array) x]> (data array)).

(** [array[i, j]] of a two-dimensional array. *)
Definition getitem2 (array : ndarray) (i j : nat) : num :=
  nth (i * nth 1 (shape array) 0 + j)%nat (data array) (NFloat 0).

(** Convert a vtk matrix to an array. *)
Definition _array_from_vtkmatrix (GetElement : nat -> nat -> float) (r c : nat) : ndarray :=
  fold_left (fun array '(i, j) => setitem2 array i j (NFloat (GetElement i j)))
            (product_range r c) (np_zeros r c).

(** [array[:3, :3] = source] for a [source] of shape (3, 3). *)
Definition set_top_left_3x3 (array source : ndarray) : ndarray :=
  fold_left (fun array '(i, j) => setitem2 array i j (getitem2 source i j))
            (product_range 3 3) array.

(** Modelled from the spec: [check_string] of [check.py] (a type checker:
    [TypeError] unless the value is a string, which a [name] is here). *)
Definition check_string (name : string) : result unit := Ok tt.

Definition validate_transform4x4 (transform : transform_like) (name : string)
    : result ndarray :=
  check_string name;;
  let array := np_eye 4 in  (* initialize *)
  match transform with
  | VtkMatrix4x4 m => Ok (_array_from_vtkmatrix m 4 4)
  | VtkMatrix3x3 m => Ok (set_top_left_3x3 array (_array_from_vtkmatrix m 3 3))
  | VtkTransform m => Ok (_array_from_vtkmatrix m 4 4)
  | NotVtk x =>
      except_ValueError_raise_TypeError
        (let* out :=
           validate_array x
             {| default_config with
                must_have_shape := Some (ShapeList [ShTuple [3; 3]; ShTuple [4; 4]]);
                must_be_finite := true |} in
         let* valid_array := as_ndarray out in
         if shape_eqb (shape valid_array) (ShTuple [3; 3])
         then Ok (set_top_left_3x3 array valid_array)
         else Ok valid_array)
  end.

(** The object itself, as [validate_array] receives it: a vtk object is
    no number and no sequence. *)
Definition as_pyobj (transform : transform_like) : pyobj :=
  match transform with
  | NotVtk x => x
  | _ => PyOther
  end.

Definition validate_transform3x3 (transform : transform_like) (name : string)
    : result ndarray :=
  check_string name;;
  let array := np_eye 3 in  (* initialize *)
  match transform with
  | VtkMatrix3x3 m => Ok (set_top_left_3x3 array (_array_from_vtkmatrix m 3 3))
  | _ =>
      except_ValueError_raise_TypeError
        (let* out :=
           validate_array (as_pyobj transform)
             {| default_config with must_have_shape := Some (OneShape (ShTuple [3; 3])) |} in
         as_ndarray out)
  end.

(** * Properties *)

(** ** Vocabulary of the statements *)

Definition py_ints (l : list Z) : pyobj := PySeq (map (fun z => PyNum (NInt z)) l).

Definition int_array (s : list nat) (l : list Z) : ndarray :=
  mk_ndarray Int64 s (map NInt l).

Definition float_array (s : list nat) (l : list float) : ndarray :=
  mk_ndarray Float64 s (map NFloat l).

(** The array [validate_array] works on for an input: its cast. *)
Definition cast_of (array : pyobj) (c : config) : result ndarray :=
  _cast_to_numpy array (as_any c) (copy c) (must_be_real c).

(** The dtype constraint of [c] holds of [a]. *)
Definition dtype_accepted (c : config) (a : ndarray) : Prop :=
  when_some (must_have_dtype c) (fun dtypes => check_subdtype (DT (dtype_of a)) dtypes)
  = Ok tt.

(** The stages of [validate_array] after the shape check, named so that
    statements can speak of them one at a time
    ([validate_array_stages] below shows they compose to the function). *)
Definition reshape_stage (c : config) (array_out : ndarray) : result ndarray :=
  match reshape_to c with
  | Some target =>
      if negb (shape_eqb (shape array_out) target)
      then np_reshape array_out target else Ok array_out
  | None => Ok array_out
  end.

Definition broadcast_stage (c : config) (array_out : ndarray) : result ndarray :=
  match broadcast_to c with
  | Some target =>
      if negb (shape_eqb (shape array_out) target)
      then np_broadcast_to array_out target else Ok array_out
  | None => Ok array_out
  end.

(** The length check as the source calls it, for the object [arr] it is
    handed. *)
Definition length_stage (c : config) (arr : pyobj) : result unit :=
  when (is_not_None (must_have_length c)
        || is_not_None (must_have_min_length c)
        || is_not_None (must_have_max_length c))
       (check_length arr (must_have_length c) (must_have_min_length c)
                     (must_have_max_length c) true).

Definition sorted_stage (c : config) (array_out : ndarray) : result unit :=
  when (sorted_truthy (must_be_sorted c))
       match must_be_sorted c with
       | SortedDict ascending strict axis =>
           check_sorted array_out (default true ascending) (default false strict)
                        (default (-1) axis)
       | SortedBool _ => check_sorted array_out true false (-1)
       end.

Definition value_stage (c : config) (array_out : ndarray) : result unit :=
  when (must_be_nonnegative c) (check_nonnegative array_out);;
  when (must_be_finite c) (check_finite array_out);;
  when (must_be_integer c) (check_integer array_out false);;
  when_some (must_be_in_range c)
    (fun rng => check_range array_out rng (strict_lower_bound c) (strict_upper_bound c));;
  sorted_stage c array_out.

Definition cast_stage (c : config) (array_out : ndarray) : ndarray :=
  match dtype_out c with
  | Some t => astype (np_dtype t) array_out
  | None => array_out
  end.

Definition output_stage (c : config) (array_out : ndarray) : output :=
  if to_tuple c then OutNested (_cast_to_tuple array_out)
  else if to_list c then OutNested (tolist array_out)
  else OutArray array_out.

(** [reshape_to=(-1)] with [must_have_length=n]. *)
Definition flatten_with_length (n : nat) : config :=
  {| default_config with
     reshape_to := Some (ShInt (-1));
     must_have_length := Some [Z.of_nat n] |}.

(** [must_be_in_range=[0, 10]] with the two strictness flags. *)
Definition range_0_10 (strict_lower strict_upper : bool) : config :=
  {| default_config with
     must_be_in_range := Some (NInt 0, NInt 10);
     strict_lower_bound := strict_lower;
     strict_upper_bound := strict_upper |}.

(** The values equal to 0, and to 10, that an array can hold. *)
Definition is_zero (x : num) : Prop :=
  In x [NBool false; NInt 0; NFloat 0; NFloat (-0)].

Definition is_ten (x : num) : Prop := In x [NInt 10; NFloat 10].

(** [validate_array] up to its last step: the validated, transformed and
    cast array, before the output form is chosen. *)
Definition validated_array (array : pyobj) (c : config) : result ndarray :=
  let* a := cast_of array c in
  when_some (must_have_dtype c) (fun dtypes => check_subdtype (DT (dtype_of a)) dtypes);;
  when_some (must_have_shape c) (fun shp => check_shape a shp);;
  let* a := reshape_stage c a in
  let* a := broadcast_stage c a in
  length_stage c array;;
  value_stage c a;;
  Ok (cast_stage c a).

(** A nested tuple: a scalar, or a tuple of nested tuples; no list at any
    depth. *)
Fixpoint nested_tuple (t : pytree) : bool :=
  match t with
  | TNum _ => true
  | TTuple l => forallb nested_tuple l
  | TList _ => false
  end.

(** The configuration [validate_array3] builds with its defaults
    ([reshape=True], [broadcast=False]) and no further keyword. *)
Definition array3_config : config :=
  {| default_config with
     must_have_shape := Some (ShapeList [ShTuple [3]; ShTuple [1; 3]; ShTuple [3; 1]]);
     reshape_to := Some (ShInt (-1)) |}.

(** The specialised validators, each with the flags of its signature. *)
Inductive validator :=
| Number (reshape : bool)
| DataRange
| ArrayNx3 (reshape : bool)
| ArrayN (reshape : bool)
| ArrayN_uintlike (reshape : bool)
| Array3 (reshape broadcast : bool).

Definition call (v : validator) (array : pyobj) (kwargs : gmap string pyval)
    : result output :=
  match v with
  | Number reshape => validate_number array reshape kwargs
  | DataRange => validate_data_range array kwargs
  | ArrayNx3 reshape => validate_arrayNx3 array reshape kwargs
  | ArrayN reshape => validate_arrayN array reshape kwargs
  | ArrayN_uintlike reshape => validate_arrayN_uintlike array reshape kwargs
  | Array3 reshape broadcast => validate_array3 array reshape broadcast kwargs
  end.

Definition array3_shapes (reshape broadcast : bool) : list pyval :=
  [VTuple (ints [3])]
  ++ (if reshape then [VTuple (ints [1; 3]); VTuple (ints [3; 1])] else [])
  ++ (if broadcast then [VTuple []; VTuple (ints [1])] else []).

Definition arrayN_locked (reshape : bool) : list (string * pyval) :=
  if reshape
  then [("reshape_to", VInt (-1));
        ("must_have_shape",
         VList [VTuple []; VInt (-1); VTuple (ints [1; -1]); VTuple (ints [-1; 1])])]
  else [("must_have_shape", VInt (-1))].

(** The locked parameters of each validator, with the value each is
    locked to: the calls of [_set_default_kwarg_mandatory] it makes. *)
Definition locked (v : validator) : list (string * pyval) :=
  match v with
  | Number true =>
      [("reshape_to", VTuple []);
       ("must_have_shape", VList [VTuple []; VTuple (ints [1])])]
  | Number false => [("must_have_shape", VTuple [])]
  | DataRange => [("must_have_shape", VInt 2); ("must_be_sorted", VBool true)]
  | ArrayNx3 true =>
      [("reshape_to", VTuple (ints [-1; 3]));
       ("must_have_shape", VList [VInt 3; VTuple (ints [-1; 3])])]
  | ArrayNx3 false => [("must_have_shape", VTuple (ints [-1; 3]))]
  | ArrayN reshape => arrayN_locked reshape
  | ArrayN_uintlike reshape =>
      ([("must_be_integer", VBool true); ("must_be_nonnegative", VBool true)]
       ++ arrayN_locked reshape)%list
  | Array3 reshape broadcast =>
      ((if reshape then [("reshape_to", VInt (-1))] else [])
       ++ (if broadcast then [("broadcast_to", VTuple (ints [3]))] else [])
       ++ [("must_have_shape", VList (array3_shapes reshape broadcast))])%list
  end%string.

(** What [validate_arrayN_uintlike] asks of [dtype_out] before it comes to
    its locked parameters; the other validators ask nothing. *)
Definition dtype_out_accepted (v : validator) (kwargs : gmap string pyval) : Prop :=
  match v with
  | ArrayN_uintlike _ =>
      match kwargs !! "dtype_out"%string with
      | None => True
      | Some t =>
          when (negb (py_eqb t (VType (DT Int64))))
               (let* t := read_dtype t in check_subdtype t [DTInteger]) = Ok tt
      end
  | _ => True
  end.

(** A 3x3 array embedded into the top-left block of the 4x4 identity, in
    the words of the specification: the element at (i, j) is the array's,
    as a float, where i, j < 3, and the identity's elsewhere. *)
Definition embedded_in_identity (a : ndarray) : ndarray :=
  mk_ndarray Float64 [4; 4]%nat
    (flat_map (fun i =>
       map (fun j =>
              if (i <? 3)%nat && (j <? 3)%nat then astype1 Float64 (getitem2 a i j)
              else NFloat (if (i =? j)%nat then 1 else 0))
           (seq 0 4))
       (seq 0 4)).

(** The input is array-like of shape [s]: it casts to an array of that
    shape. *)
Definition array_like_of_shape (x : pyobj) (s : list nat) : Prop :=
  exists a, cast_of x default_config = Ok a /\ shape a = s.

(** The array satisfies the constraints [c] declares: realness, dtype,
    shape, length and the value checks. *)
Definition real_accepted (c : config) (a : ndarray) : Prop :=
  must_be_real c && dtype_eqb (dtype_of a) Complex128 = false.

Definition satisfies (c : config) (a : ndarray) : Prop :=
  real_accepted c a
  /\ dtype_accepted c a
  /\ when_some (must_have_shape c) (fun shp => check_shape a shp) = Ok tt
  /\ length_stage c (PyArray a) = Ok tt
  /\ value_stage c a = Ok tt.

(** The array already has the shape and the dtype the transforms [c]
    declares lead to. *)
Definition has_shape (t : option shape_like) (a : ndarray) : Prop :=
  match t with
  | Some t => dims_of t = map Z.of_nat (shape a)
  | None => True
  end.

(** The array already has a shape that the target of [reshape_to] stands
    for: every dimension of the target is the array's, or is -1, which
    stands for any size; there is at most one -1, and beside it no
    dimension of size 0 (numpy cannot tell the size -1 stands for then). *)
Definition fits_reshape (t : option shape_like) (a : ndarray) : Prop :=
  match t with
  | Some t =>
      shape_matches (shape a) t = true
      /\ (count_unknown (dims_of t) = 0%nat
          \/ count_unknown (dims_of t) = 1%nat /\ known_size (dims_of t) <> 0)
  | None => True
  end.

(** An int64 value, where the element is an integer. *)
Definition int64_valued (x : num) : Prop :=
  match x with
  | NInt z => int64_min <= z < 2 ^ 63
  | _ => True
  end.

(** The array already has the dtype [t]; for int64 its integers are int64
    values, which a uint64 array's need not be. *)
Definition has_dtype (t : option dtype_like) (a : ndarray) : Prop :=
  match t with
  | Some t => np_dtype t = dtype_of a /\ Forall int64_valued (data a)
  | None => True
  end.

Definition already_transformed (c : config) (a : ndarray) : Prop :=
  fits_reshape (reshape_to c) a
  /\ has_shape (broadcast_to c) a
  /\ has_dtype (dtype_out c) a.

(** A row matrix that is to be flattened. *)
Definition row_matrix_config : config :=
  {| default_config with
     must_have_shape := Some (OneShape (ShTuple [1; 3]));
     reshape_to := Some (ShTuple [3]) |}.

(** Rows of three, whatever their number: the configuration of
    [validate_arrayNx3(array, reshape=True)]. *)
Definition rows_of_three_config : config :=
  {| default_config with
     must_have_shape := Some (ShapeList [ShInt 3; ShTuple [-1; 3]]);
     reshape_to := Some (ShTuple [-1; 3]) |}.

(** A configuration with a constraint of every kind, met by [[1, 2, 3]]. *)
Definition sorted_triple_config : config :=
  {| default_config with
     must_have_shape := Some (OneShape (ShInt 3));
     must_have_dtype := Some [DTInteger];
     must_have_length := Some [3];
     must_have_min_length := Some 1;
     must_be_nonnegative := true;
     must_be_finite := true;
     must_be_integer := true;
     must_be_sorted := SortedDict None (Some true) None;
     must_be_in_range := Some (NInt 0, NInt 10);
     reshape_to := Some (ShTuple [3]);
     broadcast_to := Some (ShInt 3);
     dtype_out := Some (DT Int64) |}.

(** The configuration of [validate_transform4x4]. *)
Definition transform4x4_config : config :=
  {| default_config with
     must_have_shape := Some (ShapeList [ShTuple [3; 3]; ShTuple [4; 4]]);
     must_be_finite := true |}.

(** One vector argument of [validate_axes], validated. *)
Definition validate_vector (a : pyobj) : result ndarray :=
  let* out := validate_array a array3_config in
  as_ndarray out.

(** What [validate_axes] does once it has stacked the three vectors. *)
Definition frame_checks (axes_array : ndarray) (normalize must_be_orthogonal : bool)
    (must_have_orientation : option string) : result ndarray :=
  check_finite axes_array;;
  let* dot01 := np_dot (row axes_array 0) (row axes_array 1) in
  (if np_isclose dot01 (NInt 1) then Err ValueError
   else
     let* dot02 := np_dot (row axes_array 0) (row axes_array 2) in
     raise_if (np_isclose dot02 (NInt 1)) ValueError);;
  raise_if (existsb (forallb (fun x => np_isclose x (NFloat 0))) (rows axes_array))
           ValueError;;
  let* norms := np_reshape (np_linalg_norm_axis1 axes_array) (ShTuple [3; 1]) in
  let* axes_norm := np_true_divide axes_array norms in
  let* cross_0_1 := np_cross (row axes_norm 0) (row axes_norm 1) in
  let* cross_1_2 := np_cross (row axes_norm 1) (row axes_norm 2) in
  raise_if
    (must_be_orthogonal
     && negb ((np_allclose cross_0_1 (row axes_norm 2)
               || np_allclose cross_0_1 (np_negative (row axes_norm 2)))
              && (np_allclose cross_1_2 (row axes_norm 0)
                  || np_allclose cross_1_2 (np_negative (row axes_norm 0)))))
    ValueError;;
  match must_have_orientation with
  | Some o =>
      when (negb (String.eqb o ""))
        (let* dot := np_dot cross_0_1 (row axes_norm 2) in
         raise_if (String.eqb o "right" && num_ltb dot (NInt 0)) ValueError;;
         raise_if (String.eqb o "left" && num_ltb (NInt 0) dot) ValueError)
  | None => Ok tt
  end;;
  if normalize then Ok axes_norm else Ok axes_array.

(** The configuration [validate_transform3x3] calls [validate_array]
    with. *)
Definition transform3x3_config : config :=
  {| default_config with must_have_shape := Some (OneShape (ShTuple [3; 3])) |}.

(** The configuration [validate_axes] validates a single array argument
    with. *)
Definition axes_array_config : config :=
  {| default_config with
     must_have_shape := Some (ShapeList [ShTuple [2; 3]; ShTuple [3; 3]]);
     dtype_out := Some DTFloating |}.

(** An input whose arrays, at any depth, are well formed. *)
Fixpoint wf_input (x : pyobj) : Prop :=
  match x with
  | PyArray a => well_formed a
  | PySeq xs =>
      (fix all (l : list pyobj) : Prop :=
         match l with
         | [] => True
         | y :: l' => wf_input y /\ all l'
         end) xs
  | _ => True
  end.

(** The configuration each specialised validator hands to
    [validate_array] when it is called with no keyword of the caller's. *)
Definition arrayN_config (reshape : bool) : config :=
  if reshape
  then {| default_config with
          must_have_shape :=
            Some (ShapeList [ShTuple []; ShInt (-1); ShTuple [1; -1]; ShTuple [-1; 1]]);
          reshape_to := Some (ShInt (-1)) |}
  else {| default_config with must_have_shape := Some (OneShape (ShInt (-1))) |}.

Definition default_call_config (v : validator) : config :=
  match v with
  | Number true =>
      {| default_config with
         must_have_shape := Some (ShapeList [ShTuple []; ShTuple [1]]);
         reshape_to := Some (ShTuple []);
         must_be_finite := true; to_list := true |}
  | Number false =>
      {| default_config with
         must_have_shape := Some (OneShape (ShTuple []));
         must_be_finite := true; to_list := true |}
  | DataRange =>
      {| default_config with
         must_have_shape := Some (OneShape (ShInt 2));
         must_be_sorted := SortedBool true; to_tuple := true |}
  | ArrayNx3 true =>
      {| default_config with
         must_have_shape := Some (ShapeList [ShInt 3; ShTuple [-1; 3]]);
         reshape_to := Some (ShTuple [-1; 3]) |}
  | ArrayNx3 false =>
      {| default_config with must_have_shape := Some (OneShape (ShTuple [-1; 3])) |}
  | ArrayN reshape => arrayN_config reshape
  | ArrayN_uintlike reshape =>
      let c := arrayN_config reshape in
      {| c with
         must_be_integer := true; must_be_nonnegative := true;
         dtype_out := Some (DT Int64) |}
  | Array3 reshape broadcast =>
      {| default_config with
         must_have_shape :=
           Some (ShapeList
                   ([ShTuple [3]]
                    ++ (if reshape then [ShTuple [1; 3]; ShTuple [3; 1]] else [])
                    ++ (if broadcast then [ShTuple []; ShTuple [1]] else [])));
         reshape_to := if reshape then Some (ShInt (-1)) else None;
         broadcast_to := if broadcast then Some (ShTuple [3]) else None |}
  end.

(** The rows of a two-dimensional array, each as an array argument of its
    own. *)
Definition row_arrays (m : ndarray) : list pyobj :=
  map (fun i => PyArray (row m i)) (seq 0 (hd 0%nat (shape m))).

(** ** The error monad *)

Lemma bind_eq_Ok {A B : Type} (m : result A) (k : A -> result B) (b : B) :
  bind m k = Ok b -> exists a, m = Ok a /\ k a = Ok b.
Proof. destruct m as [a|e]; simpl; [eauto | discriminate]. Qed.

(** ** Shapes *)

(** A pattern without wildcard matches its own shape only. *)
Lemma shape_matches_fixed (s t : list nat) :
  shape_matches s (ShTuple (map Z.of_nat t)) = true <-> s = t.
Proof.
  unfold shape_matches; simpl. revert t.
  induction s as [|d s IH]; intros [|p t]; simpl; split; try congruence.
  - intros [Hd Hs]%andb_true_iff. apply IH in Hs. subst.
    unfold dim_matches in Hd. apply orb_true_iff in Hd as [Hd|Hd].
    + apply Z.eqb_eq in Hd. lia.
    + apply Z.eqb_eq in Hd. apply Nat2Z.inj in Hd. now subst.
  - intros [= -> ->]. apply andb_true_iff. split; [|now apply IH].
    unfold dim_matches. rewrite Z.eqb_refl. apply orb_true_r.
Qed.

(** ** Order of the shape check and the transforms *)

(** [validate_array] up to and including the shape check: a cast array
    whose shape matches none of the declared patterns is refused with
    [ValueError] whatever else is declared. *)
Lemma validate_array_shape_mismatch (array : pyobj) (c : config) (a : ndarray)
    (shp : shape_arg) :
  cast_of array c = Ok a ->
  dtype_accepted c a ->
  must_have_shape c = Some shp ->
  existsb (shape_matches (shape a)) (alternatives shp) = false ->
  validate_array array c = Err ValueError.
Proof.
  unfold cast_of, dtype_accepted. intros Hcast Hdtype Hshp Hno.
  unfold validate_array. rewrite Hcast; simpl. rewrite Hdtype; simpl.
  rewrite Hshp; simpl. unfold check_shape. now rewrite Hno.
Qed.

(** C4.  The shape constraint is checked on the shape the input has
    before any transform: an input of shape (3,) with
    [must_have_shape=(1, 3)] is refused with [ValueError], also when
    [reshape_to=(1, 3)] (or anything else) is declared. *)
Theorem shape_check_precedes_reshape (array : pyobj) (c : config) (a : ndarray) :
  cast_of array c = Ok a ->
  shape a = [3%nat] ->
  dtype_accepted c a ->
  must_have_shape c = Some (OneShape (ShTuple [1; 3])) ->
  validate_array array c = Err ValueError.
Proof.
  intros Hcast Hshape Hdtype Hshp.
  apply (validate_array_shape_mismatch array c a _ Hcast Hdtype Hshp).
  now rewrite Hshape.
Qed.

(** The instance of the specification: [[1, 2, 3]] with
    [must_have_shape=(1, 3)] and [reshape_to=(1, 3)]. *)
Lemma shape_check_precedes_reshape_witness :
  validate_array (py_ints [1; 2; 3])
    {| default_config with
       must_have_shape := Some (OneShape (ShTuple [1; 3]));
       reshape_to := Some (ShTuple [1; 3]) |}
  = Err ValueError.
Proof.
  apply (shape_check_precedes_reshape _ _ (int_array [3%nat] [1; 2; 3]));
    reflexivity.
Defined.

(** Without the shape constraint the same reshape goes through. *)
Example reshape_alone_accepts :
  validate_array (py_ints [1; 2; 3])
    {| default_config with reshape_to := Some (ShTuple [1; 3]) |}
  = Ok (OutArray (int_array [1; 3]%nat [1; 2; 3])).
Proof. reflexivity. Qed.

(** ** [validate_array] as a sequence of stages *)

Lemma bind_assoc {A B C : Type} (m : result A) (k : A -> result B) (h : B -> result C) :
  bind (bind m k) h = bind m (fun a => bind (k a) h).
Proof. destruct m; reflexivity. Qed.

Lemma validate_array_stages (array : pyobj) (c : config) :
  validate_array array c =
  let* a := cast_of array c in
  when_some (must_have_dtype c) (fun dtypes => check_subdtype (DT (dtype_of a)) dtypes);;
  when_some (must_have_shape c) (fun shp => check_shape a shp);;
  let* a := reshape_stage c a in
  let* a := broadcast_stage c a in
  length_stage c array;;
  value_stage c a;;
  Ok (output_stage c (cast_stage c a)).
Proof.
  unfold validate_array, cast_of.
  destruct (_cast_to_numpy _ _ _ _) as [a|]; [simpl|reflexivity].
  destruct (when_some (must_have_dtype c) _); [simpl|reflexivity].
  destruct (when_some (must_have_shape c) _); [simpl|reflexivity].
  fold (reshape_stage c a). destruct (reshape_stage c a) as [ar|]; [simpl|reflexivity].
  fold (broadcast_stage c ar). destruct (broadcast_stage c ar) as [ab|]; [simpl|reflexivity].
  fold (length_stage c array). destruct (length_stage c array); [simpl|reflexivity].
  unfold value_stage. rewrite !bind_assoc.
  fold (sorted_stage c ab). unfold output_stage, cast_stage.
  repeat match goal with
         | |- bind ?m _ = bind ?m _ => destruct m; [simpl|reflexivity]
         end.
  destruct (to_tuple c), (to_list c); reflexivity.
Qed.

(** ** The length check *)

Lemma resolve_shape_flatten (n : nat) : resolve_shape n (ShInt (-1)) = Ok [n].
Proof.
  unfold resolve_shape; simpl.
  rewrite Z.mod_1_r, Z.div_1_r, Nat2Z.id. reflexivity.
Qed.

Lemma cast_ndarray (a : ndarray) (as_any copy : bool) :
  dtype_of a <> Complex128 -> _cast_to_numpy (PyArray a) as_any copy true = Ok a.
Proof.
  intros Hreal. simpl. destruct (dtype_of a); simpl; congruence.
Qed.

Lemma np_reshape_flatten (a : ndarray) :
  np_reshape a (ShInt (-1)) = Ok (mk_ndarray (dtype_of a) [length (data a)] (data a)).
Proof. unfold np_reshape. now rewrite resolve_shape_flatten. Qed.

(** C1 (as the code behaves).  [check_length] is handed the raw [array],
    not [array_out]: for every real array of shape (1, N) with N <> 1 and
    [reshape_to=(-1)], a declared exact length of N is refused, although
    the reshaped array has shape (N,) and the same check accepts it. *)
Theorem length_checked_on_raw_input (a : ndarray) (N : nat) :
  well_formed a ->
  shape a = [1%nat; N] ->
  dtype_of a <> Complex128 ->
  N <> 1%nat ->
  validate_array (PyArray a) (flatten_with_length N) = Err ValueError
  /\ exists array_out,
       reshape_stage (flatten_with_length N) a = Ok array_out
       /\ shape array_out = [N]
       /\ length_stage (flatten_with_length N) (PyArray array_out) = Ok tt.
Proof.
  intros [Hlen _] Hshape Hreal HN.
  assert (Hdata : length (data a) = N).
  { rewrite Hlen, Hshape. simpl. lia. }
  assert (Hreshape : reshape_stage (flatten_with_length N) a
                     = Ok (mk_ndarray (dtype_of a) [N] (data a))).
  { unfold reshape_stage; cbn. rewrite np_reshape_flatten. now rewrite Hdata. }
  split.
  - rewrite validate_array_stages. unfold cast_of; cbn [must_be_real flatten_with_length
      default_config]. rewrite cast_ndarray by assumption.
    cbn [bind]. cbn [must_have_dtype must_have_shape flatten_with_length default_config
                     when_some bind]. rewrite Hreshape. cbn [bind].
    unfold broadcast_stage; cbn [broadcast_to flatten_with_length default_config bind].
    unfold length_stage, check_length; cbn -[Z.of_nat Z.eqb]. rewrite Hshape.
    cbn -[Z.of_nat Z.eqb].
    assert (E : (Z.of_nat 1 =? Z.of_nat N) = false) by (apply Z.eqb_neq; lia).
    now rewrite E.
  - eexists. split; [exact Hreshape|]. split; [reflexivity|].
    unfold length_stage, check_length; cbn -[Z.of_nat Z.eqb].
    now rewrite Z.eqb_refl.
Qed.

(** The instance [[[1, 2, 3]]], as an array of shape (1, 3). *)
Lemma length_checked_on_raw_input_witness :
  validate_array (PyArray (int_array [1; 3]%nat [1; 2; 3])) (flatten_with_length 3)
  = Err ValueError.
Proof.
  apply (length_checked_on_raw_input (int_array [1; 3]%nat [1; 2; 3]) 3).
  - split; [reflexivity | repeat constructor].
  - reflexivity.
  - discriminate.
  - lia.
Defined.

(** The same input as a nested list, and through [validate_arrayN], whose
    documentation promises that shape (1, N) is reshaped to (N,). *)
Example length_of_nested_list :
  validate_array (PySeq [py_ints [1; 2; 3]]) (flatten_with_length 3) = Err ValueError
  /\ validate_array (PySeq [py_ints [1; 2; 3]]) (flatten_with_length 1)
     = Ok (OutArray (int_array [3%nat] [1; 2; 3]))
  /\ validate_arrayN (PySeq [py_ints [1; 2; 3]]) true {[ "must_have_length" := VInt 3 ]}
     = Err ValueError.
Proof. repeat split; vm_compute; reflexivity. Qed.


(** ** The range check at its bounds *)

Lemma forallb_true_of {A : Type} (P : A -> Prop) (f : A -> bool) (l : list A) :
  (forall x, P x -> f x = true) -> Forall P l -> forallb f l = true.
Proof.
  intros HP Hl. induction Hl as [|x l Hx _ IH]; simpl; [reflexivity|].
  now rewrite (HP x Hx), IH.
Qed.

Lemma forallb_false_of {A : Type} (P : A -> Prop) (f : A -> bool) (l : list A) :
  (forall x, P x -> f x = false) -> Exists P l -> forallb f l = false.
Proof.
  intros HP Hl. induction Hl as [x l Hx|x l _ IH]; simpl.
  - now rewrite (HP x Hx).
  - rewrite IH. apply andb_false_r.
Qed.

Lemma zero_within_0_10 (x : num) :
  is_zero x ->
  num_leb (NInt 0) x = true /\ num_leb x (NInt 10) = true /\ num_ltb (NInt 0) x = false.
Proof.
  unfold is_zero; simpl. intros H.
  repeat (destruct H as [<-|H]; [repeat split; vm_compute; reflexivity|]).
  contradiction.
Qed.

Lemma ten_within_0_10 (x : num) :
  is_ten x ->
  num_leb (NInt 0) x = true /\ num_leb x (NInt 10) = true /\ num_ltb x (NInt 10) = false.
Proof.
  unfold is_ten; simpl. intros H.
  repeat (destruct H as [<-|H]; [repeat split; vm_compute; reflexivity|]).
  contradiction.
Qed.

(** [validate_array] with nothing declared but the range. *)
Lemma validate_array_range_only (array : pyobj) (a : ndarray) (sl su : bool) :
  cast_of array (range_0_10 sl su) = Ok a ->
  validate_array array (range_0_10 sl su) =
  (check_range a (NInt 0, NInt 10) sl su;; Ok (OutArray a)).
Proof.
  intros Hcast. rewrite validate_array_stages, Hcast. cbn.
  destruct (check_range a _ sl su) as [[]|]; reflexivity.
Qed.

(** C5.  With [must_be_in_range=[0, 10]] an array of values equal to 0
    or to 10 is accepted under the default, inclusive bounds and returned
    as it is; an array holding a value equal to 0 is refused with
    [ValueError] under [strict_lower_bound=True], and one holding a value
    equal to 10 under [strict_upper_bound=True]. *)
Theorem range_bounds_inclusive_unless_strict (array : pyobj) (a : ndarray) :
  cast_of array (range_0_10 false false) = Ok a ->
  (Forall (fun x => is_zero x \/ is_ten x) (data a) ->
   validate_array array (range_0_10 false false) = Ok (OutArray a))
  /\ (Exists is_zero (data a) ->
      validate_array array (range_0_10 true false) = Err ValueError)
  /\ (Exists is_ten (data a) ->
      validate_array array (range_0_10 false true) = Err ValueError).
Proof.
  intros Hcast. repeat split; intros Hdata.
  - rewrite (validate_array_range_only array a false false Hcast).
    unfold check_range; cbn [fst snd].
    assert (Hlo : forallb (fun x => num_leb (NInt 0) x) (data a) = true).
    { apply (forallb_true_of _ _ _ (fun x Hx =>
        match Hx with
        | or_introl H => proj1 (zero_within_0_10 x H)
        | or_intror H => proj1 (ten_within_0_10 x H)
        end) Hdata). }
    assert (Hhi : forallb (fun x => num_leb x (NInt 10)) (data a) = true).
    { apply (forallb_true_of _ _ _ (fun x Hx =>
        match Hx with
        | or_introl H => proj1 (proj2 (zero_within_0_10 x H))
        | or_intror H => proj1 (proj2 (ten_within_0_10 x H))
        end) Hdata). }
    now rewrite Hlo, Hhi.
  - rewrite (validate_array_range_only array a true false Hcast).
    unfold check_range; cbn [fst snd].
    assert (Hlo : forallb (fun x => num_ltb (NInt 0) x) (data a) = false).
    { apply (forallb_false_of _ _ _
               (fun x H => proj2 (proj2 (zero_within_0_10 x H))) Hdata). }
    now rewrite Hlo.
  - rewrite (validate_array_range_only array a false true Hcast).
    unfold check_range; cbn [fst snd].
    assert (Hhi : forallb (fun x => num_ltb x (NInt 10)) (data a) = false).
    { apply (forallb_false_of _ _ _
               (fun x H => proj2 (proj2 (ten_within_0_10 x H))) Hdata). }
    rewrite Hhi. clear Hhi.
    destruct (forallb (fun x => num_leb (NInt 0) x) (data a)); reflexivity.
Qed.

(** The instance [[0, 10]]. *)
Lemma range_bounds_inclusive_unless_strict_witness :
  validate_array (py_ints [0; 10]) (range_0_10 false false)
  = Ok (OutArray (int_array [2%nat] [0; 10]))
  /\ validate_array (py_ints [0; 10]) (range_0_10 true false) = Err ValueError
  /\ validate_array (py_ints [0; 10]) (range_0_10 false true) = Err ValueError.
Proof.
  destruct (range_bounds_inclusive_unless_strict
              (py_ints [0; 10]) (int_array [2%nat] [0; 10]) eq_refl) as (H1 & H2 & H3).
  split; [|split].
  - apply H1.
    constructor; [left; cbv; auto | constructor; [right; cbv; auto | constructor]].
  - apply H2. apply Exists_cons_hd. cbv; auto.
  - apply H3. apply Exists_cons_tl, Exists_cons_hd. cbv; auto.
Defined.

(** The same on floats, signed zeros included. *)
Example range_bounds_on_floats :
  let array := PySeq [PyNum (NFloat 0); PyNum (NFloat (-0)); PyNum (NFloat 10)] in
  validate_array array (range_0_10 false false)
  = Ok (OutArray (float_array [3%nat] [0; -0; 10]%float))
  /\ validate_array array (range_0_10 true false) = Err ValueError
  /\ validate_array array (range_0_10 false true) = Err ValueError
  /\ validate_array array (range_0_10 true true) = Err ValueError.
Proof. repeat split; vm_compute; reflexivity. Qed.

(** ** The output form *)

Lemma validate_array_output (array : pyobj) (c : config) :
  validate_array array c =
  let* a := validated_array array c in Ok (output_stage c a).
Proof.
  rewrite validate_array_stages. unfold validated_array.
  repeat (rewrite bind_assoc;
          match goal with
          | |- bind ?m _ = bind ?m _ => destruct m; [cbn [bind]|reflexivity]
          end).
  reflexivity.
Qed.

Lemma length_chunks {A : Type} (k n : nat) (l : list A) : length (chunks k n l) = n.
Proof. revert l. induction n as [|n IH]; intros l; simpl; [reflexivity | now rewrite IH]. Qed.

Lemma nest_tuple_nested (s : list nat) (d : list num) :
  nested_tuple (nest TTuple s d) = true.
Proof.
  revert d. induction s as [|n s IH]; intros d; simpl.
  - destruct d; reflexivity.
  - rewrite forallb_forall. intros t [d' [<- _]]%in_map_iff. apply IH.
Qed.

(** C7.  One output form is produced, and [to_tuple] decides first: the
    result is the validated array as a nested tuple if [to_tuple] is set,
    else as a nested list if [to_list] is set, else the array itself.
    With [to_tuple=True] it is the nested tuple whatever [to_list] says: a
    tuple of its rows for an array with at least one dimension, the bare
    scalar for a 0-dimensional one, and a list at no depth. *)
Theorem tuple_output_takes_precedence (array : pyobj) (c : config) (list_too : bool) :
  validate_array array c
  = (let* a := validated_array array c in
     Ok (if to_tuple c then OutNested (_cast_to_tuple a)
         else if to_list c then OutNested (tolist a)
         else OutArray a))
  /\ validate_array array {| c with to_list := list_too; to_tuple := true |}
     = (let* a := validated_array array c in Ok (OutNested (_cast_to_tuple a)))
  /\ forall a : ndarray,
       nested_tuple (_cast_to_tuple a) = true
       /\ match shape a with
          | n :: _ => exists rows, _cast_to_tuple a = TTuple rows /\ length rows = n
          | [] => forall x rest, data a = x :: rest -> _cast_to_tuple a = TNum x
          end.
Proof.
  split; [|split].
  - rewrite validate_array_output. unfold output_stage.
    destruct (validated_array array c); cbn [bind]; [|reflexivity].
    now destruct (to_tuple c), (to_list c).
  - rewrite validate_array_output. reflexivity.
  - intros a. split; [apply nest_tuple_nested|].
    unfold _cast_to_tuple. destruct (shape a) as [|n s]; simpl.
    + now intros x rest ->.
    + eexists. split; [reflexivity|]. now rewrite length_map, length_chunks.
Qed.

(** Both requested on [[1, 2], [3, 4]], and on a scalar. *)
Example tuple_and_list_requested :
  validate_array (PySeq [py_ints [1; 2]; py_ints [3; 4]])
    {| default_config with to_list := true; to_tuple := true |}
  = Ok (OutNested (TTuple [TTuple [TNum (NInt 1); TNum (NInt 2)];
                           TTuple [TNum (NInt 3); TNum (NInt 4)]]))
  /\ validate_array (PySeq [py_ints [1; 2]; py_ints [3; 4]])
       {| default_config with to_list := true |}
     = Ok (OutNested (TList [TList [TNum (NInt 1); TNum (NInt 2)];
                             TList [TNum (NInt 3); TNum (NInt 4)]]))
  /\ validate_array (PyNum (NInt 5))
       {| default_config with to_list := true; to_tuple := true |}
     = Ok (OutNested (TNum (NInt 5))).
Proof. repeat split; vm_compute; reflexivity. Qed.

(** ** [validate_axes]: the vectors it validates *)

(** Evaluate the computation at the head of a sequence. *)
Ltac run_head :=
  match goal with
  | |- bind ?m _ = _ => let r := eval vm_compute in m in change m with r; cbn [bind]
  end.

(** [validate_array3] with its defaults: the [name] has no part in the
    result. *)
Lemma validate_array3_named (array : pyobj) (name : string) :
  validate_array3 array true false {[ "name"%string := VStr name ]}
  = validate_array array array3_config.
Proof.
  unfold validate_array3, validate_array_kw. do 3 run_head. reflexivity.
Qed.

Lemma validate_array3_default (array : pyobj) :
  validate_array3 array true false ∅ = validate_array array array3_config.
Proof.
  unfold validate_array3, validate_array_kw. do 3 run_head. reflexivity.
Qed.

(** Without [to_list] and [to_tuple] the result is an array. *)
Lemma validate_array_returns_array (array : pyobj) (c : config) (out : output) :
  to_tuple c = false -> to_list c = false ->
  validate_array array c = Ok out ->
  exists a, out = OutArray a /\ validated_array array c = Ok a.
Proof.
  intros Ht Hl. rewrite validate_array_output.
  intros [a [Ha Hout]]%bind_eq_Ok. exists a. split; [|assumption].
  unfold output_stage in Hout. rewrite Ht, Hl in Hout. congruence.
Qed.

(** C10.  Two vectors and [must_have_orientation=None]: whenever both
    vectors are valid on their own, [validate_axes] raises [ValueError],
    since the third axis cannot be derived. *)
Theorem two_vectors_need_orientation (a0 a1 : pyobj) (normalize must_be_orthogonal : bool)
    (name : string) (v0 v1 : output) :
  validate_array3 a0 true false ∅ = Ok v0 ->
  validate_array3 a1 true false ∅ = Ok v1 ->
  validate_axes [a0; a1] normalize must_be_orthogonal None name = Err ValueError.
Proof.
  rewrite !validate_array3_default. intros H0 H1.
  destruct (validate_array_returns_array a0 array3_config v0 eq_refl eq_refl H0)
    as [w0 [-> _]].
  destruct (validate_array_returns_array a1 array3_config v1 eq_refl eq_refl H1)
    as [w1 [-> _]].
  unfold validate_axes. cbn [when_some bind length existsb Nat.eqb orb negb raise_if].
  rewrite !validate_array3_named, H0, H1. reflexivity.
Qed.

(** The instance [[1, 0, 0]], [[0, 1, 0]]. *)
Lemma two_vectors_need_orientation_witness :
  validate_axes [py_ints [1; 0; 0]; py_ints [0; 1; 0]] true true None "Axes"
  = Err ValueError.
Proof.
  apply (two_vectors_need_orientation _ _ _ _ _
           (OutArray (int_array [3%nat] [1; 0; 0]))
           (OutArray (int_array [3%nat] [0; 1; 0]))); vm_compute; reflexivity.
Defined.

(** ** Locked parameters *)

Lemma mandatory_violated (kwargs : gmap string pyval) (key : string) (dflt val : pyval) :
  kwargs !! key = Some val ->
  py_eqb val dflt = false ->
  _set_default_kwarg_mandatory kwargs key dflt = Err ValueError.
Proof.
  intros Hkey Hne. unfold _set_default_kwarg_mandatory, pop.
  rewrite Hkey; simpl. now rewrite Hne.
Qed.

Lemma mandatory_error (kwargs : gmap string pyval) (key : string) (dflt : pyval) (e : exn) :
  _set_default_kwarg_mandatory kwargs key dflt = Err e -> e = ValueError.
Proof.
  unfold _set_default_kwarg_mandatory, pop.
  destruct (py_eqb _ dflt); simpl; congruence.
Qed.

(** The default is written under [key], and no other key is touched. *)
Lemma mandatory_lookup (kwargs kwargs' : gmap string pyval) (key key' : string)
    (dflt : pyval) :
  _set_default_kwarg_mandatory kwargs key dflt = Ok kwargs' ->
  kwargs' !! key' = if decide (key = key') then Some dflt else kwargs !! key'.
Proof.
  unfold _set_default_kwarg_mandatory, pop.
  destruct (py_eqb _ dflt); simpl; [|discriminate].
  intros [= <-]. rewrite lookup_insert. destruct (decide (key = key')) as [->|Hne].
  - reflexivity.
  - now rewrite lookup_delete_ne.
Qed.

Lemma setdefault_present (kwargs : gmap string pyval) (key : string) (value old : pyval) :
  kwargs !! key = Some old -> setdefault key value kwargs = kwargs.
Proof. intros H. unfold setdefault. now rewrite H. Qed.

Lemma setdefault_absent (kwargs : gmap string pyval) (key : string) (value : pyval) :
  kwargs !! key = None -> setdefault key value kwargs = <[key := value]> kwargs.
Proof. intros H. unfold setdefault. now rewrite H. Qed.

Lemma setdefault_lookup (kwargs : gmap string pyval) (key key' : string) (value : pyval) :
  key <> key' -> setdefault key value kwargs !! key' = kwargs !! key'.
Proof.
  intros Hne. unfold setdefault. destruct (kwargs !! key); [reflexivity|].
  now rewrite lookup_insert_ne.
Qed.

(** One call of [_set_default_kwarg_mandatory] at the head of the goal:
    either it is the call on the parameter that [Hkey] and [Hne] say was
    overridden, or it raises the same [ValueError], or it leaves that
    parameter as it was. *)
Ltac mandatory_call Hkey Hne :=
  repeat first [rewrite bind_assoc | progress cbn [bind]];
  lazymatch goal with
  | |- bind (_set_default_kwarg_mandatory ?kw ?k ?d) _ = Err ValueError =>
      first
        [ assert (Hhere : kw !! k = Some _)
            by (rewrite ?setdefault_lookup by discriminate; exact Hkey);
          rewrite (mandatory_violated kw k d _ Hhere Hne); reflexivity
        | let E := fresh "E" in
          let kw' := fresh "kw" in
          let e := fresh "e" in
          destruct (_set_default_kwarg_mandatory kw k d) as [kw'|e] eqn:E;
          [ cbn [bind];
            apply (mandatory_lookup _ _ _ (ltac:(lazymatch type of Hkey with
                                                 | _ !! ?key = _ => exact key
                                                 end))) in E;
            rewrite decide_False in E by discriminate;
            rewrite ?setdefault_lookup in E by discriminate;
            rewrite Hkey in E; clear Hkey; rename E into Hkey
          | apply mandatory_error in E; subst e; reflexivity ] ]
  end.

(** C3 (as the code behaves).  Every specialised validator refuses a
    locked parameter that is passed with a value different from the one it
    is locked to: it raises, before it looks at the array, and the
    exception is a [ValueError]. *)
Theorem locked_parameter_override_raises_ValueError (v : validator) (key : string)
    (dflt val : pyval) (array : pyobj) (kwargs : gmap string pyval) :
  In (key, dflt) (locked v) ->
  kwargs !! key = Some val ->
  py_eqb val dflt = false ->
  dtype_out_accepted v kwargs ->
  call v array kwargs = Err ValueError.
Proof.
  intros Hlocked Hkey Hne Hdtype.
  destruct v as [[|]| |[|]|[|]|[|]|[|] [|]]; simpl in Hlocked;
    repeat (destruct Hlocked as [[= <- <-]|Hlocked]); try contradiction;
    unfold call, validate_number, validate_data_range, validate_arrayNx3,
      validate_arrayN_uintlike, validate_array3; cbn zeta.
  all: lazymatch goal with
       | |- context [setdefault "dtype_out"%string _ ?kw] =>
           unfold dtype_out_accepted in Hdtype;
           destruct (kw !! "dtype_out"%string) as [t|] eqn:Ht;
           [ rewrite (setdefault_present _ _ _ _ Ht), Ht; cbn [from_option id];
             rewrite Hdtype; cbn [bind]
           | rewrite (setdefault_absent _ _ _ Ht), lookup_insert_eq; cbn [from_option id];
             change (py_eqb (VType (DT Int64)) (VType (DT Int64))) with true;
             cbn [negb when bind];
             rewrite <- (lookup_insert_ne kw "dtype_out"%string _ (VType (DT Int64)))
               in Hkey by discriminate ]
       | _ => idtac
       end.
  all: unfold validate_arrayN; cbn zeta.
  all: repeat mandatory_call Hkey Hne.
Qed.

(** The instance of the specification: [validate_number] with
    [must_have_shape=(3,)]. *)
Lemma locked_parameter_override_raises_ValueError_witness :
  validate_number (PyNum (NInt 1)) true {[ "must_have_shape"%string := VTuple (ints [3]) ]}
  = Err ValueError.
Proof.
  apply (locked_parameter_override_raises_ValueError
           (Number true) "must_have_shape" (VList [VTuple []; VTuple (ints [1])])
           (VTuple (ints [3])) (PyNum (NInt 1))).
  - simpl. auto.
  - reflexivity.
  - reflexivity.
  - exact I.
Defined.

(** C3 (as stated) fails: the exception raised for an overridden locked
    parameter is a [ValueError], not a [TypeError]. *)
Lemma locked_parameter_override_is_no_TypeError :
  validate_number (PyNum (NInt 1)) true {[ "must_have_shape"%string := VTuple (ints [3]) ]}
  = Err ValueError
  /\ validate_number (PyNum (NInt 1)) true
       {[ "must_have_shape"%string := VTuple (ints [3]) ]}
     <> Err TypeError
  /\ validate_data_range (py_ints [-5; 5]) {[ "must_be_sorted"%string := VBool false ]}
     = Err ValueError
  /\ validate_array3 (py_ints [1; 2; 3]) true false
       {[ "must_have_shape"%string := VTuple (ints [3]) ]}
     = Err ValueError.
Proof. repeat split; try (vm_compute; reflexivity). vm_compute. discriminate. Qed.

(** A locked parameter passed with the value it is locked to is accepted. *)
Example locked_parameter_restated :
  validate_data_range (py_ints [-5; 5]) {[ "must_have_shape"%string := VInt 2 ]}
  = validate_data_range (py_ints [-5; 5]) ∅
  /\ validate_data_range (py_ints [-5; 5]) ∅
     = Ok (OutNested (TTuple [TNum (NInt (-5)); TNum (NInt 5)])).
Proof. split; vm_compute; reflexivity. Qed.

(** ** Validating a valid array again *)

Lemma concat_chunks {A : Type} (k n : nat) (l : list A) :
  length l = (n * k)%nat -> concat (chunks k n l) = l.
Proof.
  revert l. induction n as [|n IH]; intros l Hlen; simpl.
  - destruct l; [reflexivity | discriminate].
  - rewrite IH.
    + apply firstn_skipn.
    + rewrite length_skipn. simpl in Hlen. lia.
Qed.

Lemma shape_eqb_own (s : list nat) : shape_eqb s (ShTuple (map Z.of_nat s)) = true.
Proof.
  simpl. induction s as [|d s IH]; simpl; [reflexivity|].
  now rewrite Z.eqb_refl, IH.
Qed.

Lemma astype1_own_kind (x : num) : astype1 (kind x) x = x.
Proof. destruct x; reflexivity. Qed.

Lemma wrap_int64_small (z : Z) : int64_min <= z < 2 ^ 63 <-> wrap_int64 z = z.
Proof.
  unfold wrap_int64, int64_min. split.
  - intros Hz. rewrite Z.mod_small; lia.
  - intros Hz. pose proof (Z.mod_pos_bound (z + 2 ^ 63) (2 ^ 64)). lia.
Qed.

Lemma astype1_wrapping_own (x : num) :
  int64_valued x <-> astype1_wrapping (kind x) x = x.
Proof.
  destruct x as [b|z|f|re im]; cbn; try (split; [reflexivity|exact (fun _ => I)]).
  rewrite wrap_int64_small. split; congruence.
Qed.

Lemma astype_own_dtype (a : ndarray) :
  well_formed a -> Forall int64_valued (data a) -> astype (dtype_of a) a = a.
Proof.
  intros [_ Hkind] Hrange. destruct a as [d s l]; unfold astype; simpl in *. f_equal.
  induction Hkind as [|x l Hx _ IH]; simpl; [reflexivity|].
  inversion Hrange as [|? ? Hr Hrs]; subst. rewrite IH by assumption. f_equal.
  now apply astype1_wrapping_own.
Qed.

(** *** Reshaping to a shape the array fits *)

Lemma matches_no_low (s : list nat) (l : list Z) :
  list_eqb dim_matches s l = true -> existsb (fun d => d <? -1) l = false.
Proof.
  revert l. induction s as [|d s IH]; intros [|p l]; simpl; try discriminate; [reflexivity|].
  intros [Hd Hs]%andb_true_iff. rewrite (IH l Hs), orb_false_r. apply Z.ltb_ge.
  unfold dim_matches in Hd. apply orb_true_iff in Hd as [Hd|Hd]; apply Z.eqb_eq in Hd; lia.
Qed.

Lemma matches_no_unknown (s : list nat) (l : list Z) :
  list_eqb dim_matches s l = true -> count_unknown l = 0%nat -> l = map Z.of_nat s.
Proof.
  unfold count_unknown. revert l.
  induction s as [|d s IH]; intros [|p l]; simpl; try discriminate; [reflexivity|].
  intros [Hd Hs]%andb_true_iff. unfold dim_matches in Hd.
  destruct (p =? -1) eqn:E; simpl; [discriminate|].
  intros Hc. apply Z.eqb_eq in Hd. subst p. f_equal. now apply IH.
Qed.

Lemma known_size_own (s : list nat) :
  known_size (map Z.of_nat s) = Z.of_nat (shape_size s)
  /\ map Z.to_nat (map Z.of_nat s) = s.
Proof.
  unfold known_size. induction s as [|d s [IH1 IH2]]; simpl; [now split|].
  assert (E : (Z.of_nat d =? -1) = false) by (apply Z.eqb_neq; lia).
  rewrite E; simpl. rewrite IH1, IH2, Nat2Z.id. split; [lia|reflexivity].
Qed.

Lemma matches_one_unknown (s : list nat) (l : list Z) :
  list_eqb dim_matches s l = true -> count_unknown l = 1%nat ->
  exists w, Z.of_nat (shape_size s) = known_size l * Z.of_nat w
            /\ map (fun d => if d =? -1 then w else Z.to_nat d) l = s.
Proof.
  revert l. induction s as [|d s IH]; intros [|p l]; simpl; try discriminate.
  intros [Hd Hs]%andb_true_iff. unfold dim_matches in Hd.
  unfold count_unknown, known_size; simpl.
  destruct (p =? -1) eqn:E; simpl.
  - intros [= Hc]. exists d.
    pose proof (matches_no_unknown s l Hs Hc) as ->.
    destruct (known_size_own s) as [Hk Hid]. unfold known_size in Hk. rewrite Hk.
    split; [lia|]. f_equal. rewrite <- Hid at 2. rewrite !map_map.
    apply map_ext. intros x.
    assert (Ex : (Z.of_nat x =? -1) = false) by (apply Z.eqb_neq; lia).
    now rewrite Ex.
  - intros Hc. apply Z.eqb_eq in Hd. subst p.
    destruct (IH l Hs Hc) as [w [Hw Hmap]]. exists w.
    unfold known_size in Hw. rewrite Hmap, Nat2Z.id. split; [|reflexivity].
    rewrite Nat2Z.inj_mul, Hw. ring.
Qed.

(** [reshape] resolves a target the shape fits to that shape. *)
Lemma resolve_shape_own (s : list nat) (t : shape_like) :
  shape_matches s t = true ->
  count_unknown (dims_of t) = 0%nat
  \/ count_unknown (dims_of t) = 1%nat /\ known_size (dims_of t) <> 0 ->
  resolve_shape (shape_size s) t = Ok s.
Proof.
  unfold shape_matches, resolve_shape. intros Hm Hcount.
  rewrite (matches_no_low _ _ Hm).
  destruct Hcount as [Hc|[Hc Hk]]; rewrite Hc.
  - pose proof (matches_no_unknown _ _ Hm Hc) as ->.
    destruct (known_size_own s) as [-> ->]. now rewrite Z.eqb_refl.
  - destruct (matches_one_unknown _ _ Hm Hc) as [w [Hw Hmap]].
    apply Z.eqb_neq in Hk. rewrite Hk, Hw. apply Z.eqb_neq in Hk.
    rewrite (Z.mul_comm (known_size _)), Z_mod_mult, Z.eqb_refl; cbn [orb negb].
    rewrite Z_div_mult_full by assumption. rewrite Nat2Z.id. now rewrite Hmap.
Qed.

Section Unchanged.

Variables (c : config) (a : ndarray).
Hypothesis Hwf : well_formed a.

(** Reshaping an array to a shape it fits changes nothing. *)
Lemma reshape_stage_same : fits_reshape (reshape_to c) a -> reshape_stage c a = Ok a.
Proof.
  destruct Hwf as [Hlen _]. unfold reshape_stage, fits_reshape.
  destruct (reshape_to c) as [t|]; [|reflexivity].
  intros [Hm Hcount]. destruct (negb _); [|reflexivity].
  unfold np_reshape. rewrite Hlen, (resolve_shape_own _ _ Hm Hcount). cbn [bind].
  now destruct a.
Qed.

(** So does broadcasting it to the shape it has. *)
Lemma broadcast_stage_same : has_shape (broadcast_to c) a -> broadcast_stage c a = Ok a.
Proof.
  destruct Hwf as [Hlen _]. intros Hsame. unfold broadcast_stage, has_shape in *.
  destruct (broadcast_to c) as [[n|l]|]; [| |reflexivity].
  - destruct a as [d [|m [|? ?]] dat]; simpl in Hsame; try discriminate.
    injection Hsame as ->. simpl in Hlen. cbn [negb shape_eqb shape].
    unfold np_broadcast_to, ndim; cbn [dims_of existsb shape data dtype_of map length].
    assert (E1 : (Z.of_nat m <? 0) = false) by (apply Z.ltb_ge; lia).
    rewrite E1, Nat2Z.id. cbn [orb Nat.ltb Nat.leb Nat.sub repeat app].
    unfold broadcastable; cbn [list_eqb]. rewrite Nat.eqb_refl. cbn [orb andb].
    cbn [broadcast_data shape_size fold_right]. rewrite Nat.eqb_refl.
    do 3 f_equal.
    rewrite List.map_id. apply concat_chunks. lia.
  - simpl in Hsame. subst l. now rewrite shape_eqb_own.
Qed.

(** And casting it to the dtype it has. *)
Lemma cast_stage_same : has_dtype (dtype_out c) a -> cast_stage c a = a.
Proof.
  unfold cast_stage, has_dtype. destruct (dtype_out c); [|reflexivity].
  intros [-> Hrange]. now apply astype_own_dtype.
Qed.

End Unchanged.

(** An input whose cast passes the checks and is left as it is by the
    transforms comes back as its cast. *)
Lemma validate_array_accepts (array : pyobj) (c : config) (a : ndarray) :
  cast_of array c = Ok a ->
  dtype_accepted c a ->
  when_some (must_have_shape c) (fun shp => check_shape a shp) = Ok tt ->
  reshape_stage c a = Ok a ->
  broadcast_stage c a = Ok a ->
  length_stage c array = Ok tt ->
  value_stage c a = Ok tt ->
  cast_stage c a = a ->
  validate_array array c = Ok (output_stage c a).
Proof.
  intros Hcast Hdtype Hshape Hreshape Hbroadcast Hlength Hvalue Hout.
  rewrite validate_array_stages, Hcast; cbn [bind].
  unfold dtype_accepted in Hdtype. rewrite Hdtype, Hshape; cbn [bind].
  rewrite Hreshape; cbn [bind]. rewrite Hbroadcast; cbn [bind].
  rewrite Hlength, Hvalue; cbn [bind]. now rewrite Hout.
Qed.

(** C9 (as the code behaves).  A well-formed array that satisfies the
    constraints of a configuration and needs none of its transforms is
    returned as it is when an array is asked for: its shape fits the
    target of [reshape_to] (a dimension of -1 standing for any size), is
    the shape of [broadcast_to], and its dtype is [dtype_out], where these
    are declared. *)
Theorem valid_array_validates_to_itself (c : config) (a : ndarray) :
  well_formed a ->
  satisfies c a ->
  already_transformed c a ->
  to_list c = false ->
  to_tuple c = false ->
  validate_array (PyArray a) c = Ok (OutArray a).
Proof.
  intros Hwf (Hreal & Hdtype & Hshape & Hlength & Hvalue)
         (Hreshape & Hbroadcast & Hout) Hl Ht.
  rewrite (validate_array_accepts (PyArray a) c a); try assumption.
  - unfold output_stage. now rewrite Ht, Hl.
  - unfold cast_of; simpl. unfold real_accepted in Hreal. now rewrite Hreal.
  - now apply reshape_stage_same.
  - now apply broadcast_stage_same.
  - now apply cast_stage_same.
Qed.

(** An instance with every kind of constraint declared, and one with a
    wildcard in the target of [reshape_to]: two rows of three under
    [reshape_to=(-1, 3)]. *)
Lemma valid_array_validates_to_itself_witness :
  validate_array (PyArray (int_array [3%nat] [1; 2; 3])) sorted_triple_config
  = Ok (OutArray (int_array [3%nat] [1; 2; 3]))
  /\ validate_array (PyArray (int_array [2; 3]%nat [1; 2; 3; 4; 5; 6])) rows_of_three_config
     = Ok (OutArray (int_array [2; 3]%nat [1; 2; 3; 4; 5; 6])).
Proof.
  split.
  - apply (valid_array_validates_to_itself sorted_triple_config
             (int_array [3%nat] [1; 2; 3])).
    + split; [reflexivity | repeat constructor].
    + repeat split; vm_compute; reflexivity.
    + split; [split; [reflexivity | left; reflexivity] | split; [reflexivity|]].
      split; [reflexivity|].
      repeat (constructor; [cbn; unfold int64_min; lia|]). constructor.
    + reflexivity.
    + reflexivity.
  - apply (valid_array_validates_to_itself rows_of_three_config
             (int_array [2; 3]%nat [1; 2; 3; 4; 5; 6])).
    + split; [reflexivity | repeat constructor].
    + repeat split; vm_compute; reflexivity.
    + split; [split; [reflexivity | right; split; [reflexivity | discriminate]]
             | split; exact I].
    + reflexivity.
    + reflexivity.
Defined.

(** C9 (as stated) fails where a transform is declared: the row matrix
    [[1, 2, 3]] satisfies every constraint of [row_matrix_config], and is
    returned with another shape; the array returned, validated again, is
    refused. *)
Lemma valid_array_changed_by_reshape :
  well_formed (int_array [1; 3]%nat [1; 2; 3])
  /\ satisfies row_matrix_config (int_array [1; 3]%nat [1; 2; 3])
  /\ validate_array (PyArray (int_array [1; 3]%nat [1; 2; 3])) row_matrix_config
     = Ok (OutArray (int_array [3%nat] [1; 2; 3]))
  /\ shape (int_array [3%nat] [1; 2; 3]) <> shape (int_array [1; 3]%nat [1; 2; 3])
  /\ validate_array (PyArray (int_array [3%nat] [1; 2; 3])) row_matrix_config
     = Err ValueError.
Proof.
  split; [split; [reflexivity | repeat constructor]|].
  split; [repeat split; vm_compute; reflexivity|].
  repeat split; try (vm_compute; reflexivity). discriminate.
Qed.

(** ** [validate_transform4x4] *)

Lemma set_top_left_3x3_eye (a : ndarray) :
  set_top_left_3x3 (np_eye 4) a = embedded_in_identity a.
Proof. reflexivity. Qed.

Lemma except_never_ValueError {A : Type} (body : result A) :
  except_ValueError_raise_TypeError body <> Err ValueError.
Proof. destruct body as [|[]]; simpl; discriminate. Qed.

Lemma cast_error_to_TypeError {A : Type} (e : exn) :
  except_ValueError_raise_TypeError (@Err A e) = Err TypeError.
Proof. destruct e; reflexivity. Qed.

(** C8.  [validate_transform4x4] on an input that is no vtk object: a
    valid (real, finite) array of shape (3, 3) is embedded into the
    top-left block of the 4x4 identity; an input that is not array-like of
    shape (3, 3) or (4, 4) raises [TypeError]; and no input at all makes
    the function raise [ValueError]. *)
Theorem transform4x4_embeds_or_raises_TypeError (name : string) :
  (forall (x : pyobj) (a : ndarray),
      cast_of x default_config = Ok a ->
      shape a = [3; 3]%nat ->
      forallb num_isfinite (data a) = true ->
      validate_transform4x4 (NotVtk x) name = Ok (embedded_in_identity a))
  /\ (forall x : pyobj,
        ~ array_like_of_shape x [3; 3]%nat ->
        ~ array_like_of_shape x [4; 4]%nat ->
        validate_transform4x4 (NotVtk x) name = Err TypeError)
  /\ (forall transform : transform_like,
        validate_transform4x4 transform name <> Err ValueError).
Proof.
  split; [|split].
  - intros x a Hcast Hshape Hfinite.
    unfold validate_transform4x4; cbn [check_string bind].
    fold transform4x4_config.
    rewrite (validate_array_accepts x transform4x4_config a);
      try reflexivity; try exact Hcast.
    + cbn [bind output_stage to_tuple to_list transform4x4_config default_config
           as_ndarray]. rewrite Hshape. reflexivity.
    + cbn [must_have_shape transform4x4_config when_some]. unfold check_shape.
      now rewrite Hshape.
    + unfold value_stage, check_finite.
      cbn [must_be_nonnegative must_be_finite transform4x4_config default_config when bind].
      now rewrite Hfinite.
  - intros x H33 H44.
    unfold validate_transform4x4; cbn [check_string bind].
    fold transform4x4_config. rewrite validate_array_stages.
    change (cast_of x _) with (cast_of x default_config).
    destruct (cast_of x default_config) as [a|e] eqn:Hcast;
      [|apply cast_error_to_TypeError].
    cbn [bind must_have_dtype must_have_shape transform4x4_config default_config
         when_some].
    assert (Hno : existsb (shape_matches (shape a)) [ShTuple [3; 3]; ShTuple [4; 4]]
                  = false).
    { cbn [existsb]. rewrite orb_false_r. apply orb_false_iff. split.
      - destruct (shape_matches (shape a) (ShTuple [3; 3])) eqn:E; [|reflexivity].
        apply (shape_matches_fixed (shape a) [3; 3]%nat) in E.
        exfalso. apply H33. now exists a.
      - destruct (shape_matches (shape a) (ShTuple [4; 4])) eqn:E; [|reflexivity].
        apply (shape_matches_fixed (shape a) [4; 4]%nat) in E.
        exfalso. apply H44. now exists a. }
    unfold check_shape, alternatives. now rewrite Hno.
  - intros [m|m|m|x]; unfold validate_transform4x4; cbn [check_string bind];
      try discriminate.
    apply except_never_ValueError.
Qed.

(** The instance [[1, 2, 3], [4, 5, 6], [7, 8, 9]], and a 2x3 input. *)
Lemma transform4x4_embeds_or_raises_TypeError_witness :
  validate_transform4x4
    (NotVtk (PySeq [py_ints [1; 2; 3]; py_ints [4; 5; 6]; py_ints [7; 8; 9]])) "Transform"
  = Ok (float_array [4; 4]%nat
          [1; 2; 3; 0;
           4; 5; 6; 0;
           7; 8; 9; 0;
           0; 0; 0; 1]%float)
  /\ validate_transform4x4
       (NotVtk (PySeq [py_ints [1; 2; 3]; py_ints [4; 5; 6]])) "Transform"
     = Err TypeError.
Proof.
  destruct (transform4x4_embeds_or_raises_TypeError "Transform") as (Hembed & Hraise & _).
  split.
  - apply (Hembed _ (int_array [3; 3]%nat [1; 2; 3; 4; 5; 6; 7; 8; 9]));
      vm_compute; reflexivity.
  - apply Hraise; intros [a [Hcast Hshape]]; vm_compute in Hcast;
      injection Hcast as <-; discriminate.
Defined.

(** ** [validate_axes]: the third axis *)

(** The call with two vectors, step by step: the third vector is the
    cross product of the two, taken in the order the orientation asks. *)
Lemma validate_axes_two_vectors (a0 a1 : pyobj) (normalize must_be_orthogonal : bool)
    (o name : string) :
  validate_axes [a0; a1] normalize must_be_orthogonal (Some o) name =
  (check_contains o ["right"; "left"]%string;;
   let* vector0 := validate_vector a0 in
   let* vector1 := validate_vector a1 in
   let* vector2 :=
     if String.eqb o "right" then np_cross vector0 vector1
     else np_cross vector1 vector0 in
   let* axes_array := np_vstack [vector0; vector1; vector2] in
   frame_checks axes_array normalize must_be_orthogonal (Some o)).
Proof.
  unfold validate_axes. cbn [when_some].
  destruct (check_contains o _); [cbn [bind]|reflexivity].
  cbn [length existsb Nat.eqb orb negb raise_if bind].
  rewrite !validate_array3_named. unfold validate_vector.
  destruct (validate_array a0 array3_config) as [o0|]; [cbn [bind]|reflexivity].
  destruct (as_ndarray o0) as [v0|]; [cbn [bind]|reflexivity].
  destruct (validate_array a1 array3_config) as [o1|]; [cbn [bind]|reflexivity].
  destruct (as_ndarray o1) as [v1|]; [cbn [bind]|reflexivity].
  reflexivity.
Qed.

(** C6.  [validate_axes([1, 0, 0], [0, 1, 0])] returns the rows
    [1, 0, 0], [0, 1, 0], [0, 0, 1]; with [must_have_orientation='left']
    the third row is [0, 0, -1].  In general the third vector of a call
    with two vectors is their cross product, the operands swapped for a
    left-handed frame. *)
Theorem third_axis_is_cross_product :
  validate_axes [py_ints [1; 0; 0]; py_ints [0; 1; 0]] true true (Some "right"%string) "Axes"
  = Ok (float_array [3; 3]%nat [1; 0; 0;
                                0; 1; 0;
                                0; 0; 1]%float)
  /\ validate_axes [py_ints [1; 0; 0]; py_ints [0; 1; 0]] true true (Some "left"%string) "Axes"
     = Ok (float_array [3; 3]%nat [1; 0; 0;
                                   0; 1; 0;
                                   0; 0; -1]%float)
  /\ forall (a0 a1 : pyobj) (normalize must_be_orthogonal : bool) (o name : string),
       validate_axes [a0; a1] normalize must_be_orthogonal (Some o) name =
       (check_contains o ["right"; "left"]%string;;
        let* vector0 := validate_vector a0 in
        let* vector1 := validate_vector a1 in
        let* vector2 :=
          if String.eqb o "right" then np_cross vector0 vector1
          else np_cross vector1 vector0 in
        let* axes_array := np_vstack [vector0; vector1; vector2] in
        frame_checks axes_array normalize must_be_orthogonal (Some o)).
Proof.
  split; [vm_compute; reflexivity|].
  split; [vm_compute; reflexivity|].
  apply validate_axes_two_vectors.
Qed.

(** The third vectors of the two calls, before the frame is normalised. *)
Example third_axis_of_unit_vectors :
  np_cross (int_array [3%nat] [1; 0; 0]) (int_array [3%nat] [0; 1; 0])
  = Ok (int_array [3%nat] [0; 0; 1])
  /\ np_cross (int_array [3%nat] [0; 1; 0]) (int_array [3%nat] [1; 0; 0])
     = Ok (int_array [3%nat] [0; 0; -1])
  /\ validate_axes [py_ints [1; 0; 0]; py_ints [0; 1; 0]] false true (Some "left"%string)
       "Axes"
     = Ok (int_array [3; 3]%nat [1; 0; 0; 0; 1; 0; 0; 0; -1]).
Proof. repeat split; vm_compute; reflexivity. Qed.

Lemma wrap_int64_shift (z k : Z) : wrap_int64 (z + k * 2 ^ 64) = wrap_int64 z.
Proof.
  unfold wrap_int64. f_equal.
  replace (z + k * 2 ^ 64 + 2 ^ 63) with (z + 2 ^ 63 + k * 2 ^ 64) by ring.
  apply Z_mod_plus_full.
Qed.

Lemma wrap_int64_sub (a b : Z) : wrap_int64 (wrap_int64 a - wrap_int64 b) = wrap_int64 (a - b).
Proof.
  unfold wrap_int64 at 2 3. rewrite !Z.mod_eq by lia.
  replace (a + 2 ^ 63 - 2 ^ 64 * ((a + 2 ^ 63) / 2 ^ 64) - 2 ^ 63
           - (b + 2 ^ 63 - 2 ^ 64 * ((b + 2 ^ 63) / 2 ^ 64) - 2 ^ 63))
    with (a - b + ((b + 2 ^ 63) / 2 ^ 64 - (a + 2 ^ 63) / 2 ^ 64) * 2 ^ 64) by ring.
  apply wrap_int64_shift.
Qed.

Lemma wrap_int64_neg (a : Z) : wrap_int64 (- wrap_int64 a) = wrap_int64 (- a).
Proof.
  unfold wrap_int64 at 2. rewrite Z.mod_eq by lia.
  replace (- (a + 2 ^ 63 - 2 ^ 64 * ((a + 2 ^ 63) / 2 ^ 64) - 2 ^ 63))
    with (- a + ((a + 2 ^ 63) / 2 ^ 64) * 2 ^ 64) by ring.
  apply wrap_int64_shift.
Qed.

(** On integer vectors, swapping the operands negates the cross product:
    the third axis of a left-handed frame is the opposite of the one of
    the right-handed frame. *)
Lemma np_cross_swap_int (x0 x1 x2 y0 y1 y2 : Z) :
  np_cross (int_array [3%nat] [y0; y1; y2]) (int_array [3%nat] [x0; x1; x2])
  = (let* c := np_cross (int_array [3%nat] [x0; x1; x2]) (int_array [3%nat] [y0; y1; y2]) in
     Ok (np_negative c)).
Proof.
  cbn. unfold np_negative; cbn. do 2 f_equal.
  rewrite !wrap_int64_neg.
  assert (Hswap : forall a b,
             wrap_int64 (- (wrap_int64 a - wrap_int64 b)) = wrap_int64 (b - a)).
  { intros a b. rewrite <- wrap_int64_sub. f_equal. ring. }
  rewrite !Hswap, !wrap_int64_sub.
  repeat (f_equal; [do 2 f_equal; ring|]). do 3 f_equal. ring.
Qed.

(** ** [validate_axes]: parallel axes *)

(** C2 (as the code behaves).  The test for parallel axes compares the dot
    products of the first vector with the second and with the third to 1,
    before the vectors are normalised: the pair of the second and third
    vectors is never tested, and parallel vectors that are not unit vectors
    pass.  Where orthogonality is not required, such axes are returned. *)
Theorem parallel_axes_accepted :
  validate_axes [py_ints [1; 0; 0]; py_ints [0; 2; 0]; py_ints [0; 2; 0]]
    true false (Some "right"%string) "Axes"
  = Ok (float_array [3; 3]%nat [1; 0; 0;
                                0; 1; 0;
                                0; 1; 0]%float)
  /\ validate_axes [py_ints [2; 0; 0]; py_ints [2; 0; 0]; py_ints [0; 0; 1]]
       true false (Some "right"%string) "Axes"
     = Ok (float_array [3; 3]%nat [1; 0; 0;
                                   1; 0; 0;
                                   0; 0; 1]%float)
  /\ validate_axes [py_ints [1; 0; 0]; py_ints [1; 0; 0]; py_ints [0; 0; 1]]
       true false (Some "right"%string) "Axes"
     = Err ValueError
  /\ validate_axes [py_ints [1; 0; 0]; py_ints [0; 1; 0]; py_ints [1; 0; 0]]
       true false (Some "right"%string) "Axes"
     = Err ValueError.
Proof. repeat split; vm_compute; reflexivity. Qed.

(** With the default [must_be_orthogonal=True] the same axes are refused,
    by the orthogonality check. *)
Example parallel_axes_not_orthogonal :
  validate_axes [py_ints [1; 0; 0]; py_ints [0; 2; 0]; py_ints [0; 2; 0]]
    true true (Some "right"%string) "Axes"
  = Err ValueError
  /\ validate_axes [py_ints [2; 0; 0]; py_ints [2; 0; 0]; py_ints [0; 0; 1]]
       true true (Some "right"%string) "Axes"
     = Err ValueError.
Proof. split; vm_compute; reflexivity. Qed.

(** *** A zero vector is refused *)

Lemma zero_is_close (x : num) : is_zero x -> np_isclose x (NFloat 0) = true.
Proof.
  unfold is_zero; simpl. intros H.
  repeat (destruct H as [<-|H]; [vm_compute; reflexivity|]).
  contradiction.
Qed.

Lemma raise_if_error (cond : bool) (e e' : exn) : raise_if cond e = Err e' -> e' = e.
Proof. destruct cond; simpl; congruence. Qed.

Lemma np_dot_error (a b : ndarray) (e : exn) : np_dot a b = Err e -> e = ValueError.
Proof.
  unfold np_dot. destruct (shape a) as [|n [|? ?]]; try congruence.
  destruct (shape b) as [|m [|? ?]]; try congruence.
  destruct (negb (n =? m)%nat); simpl; congruence.
Qed.

Lemma frame_checks_zero_row (axes_array : ndarray) (normalize must_be_orthogonal : bool)
    (must_have_orientation : option string) :
  Exists (Forall is_zero) (rows axes_array) ->
  frame_checks axes_array normalize must_be_orthogonal must_have_orientation
  = Err ValueError.
Proof.
  intros Hzero. unfold frame_checks.
  destruct (check_finite axes_array) as [[]|e] eqn:Hfinite; cbn [bind];
    [|apply raise_if_error in Hfinite; now subst].
  destruct (np_dot (row axes_array 0) (row axes_array 1)) as [dot01|e] eqn:H01; cbn [bind];
    [|apply np_dot_error in H01; now subst].
  destruct (np_isclose dot01 (NInt 1)); [reflexivity|].
  destruct (np_dot (row axes_array 0) (row axes_array 2)) as [dot02|e] eqn:H02; cbn [bind];
    [|apply np_dot_error in H02; now subst].
  destruct (np_isclose dot02 (NInt 1)); [reflexivity|]. cbn [raise_if bind].
  assert (Hex : existsb (forallb (fun x => np_isclose x (NFloat 0))) (rows axes_array)
                = true).
  { apply existsb_exists. apply Exists_exists in Hzero as [r [Hin Hr]].
    exists r. split; [now apply list_elem_of_In|].
    apply (forallb_true_of is_zero); [apply zero_is_close | assumption]. }
  now rewrite Hex.
Qed.

(** The call with three vectors, step by step. *)
Lemma validate_axes_three_vectors (a0 a1 a2 : pyobj) (normalize must_be_orthogonal : bool)
    (must_have_orientation : option string) (name : string) :
  validate_axes [a0; a1; a2] normalize must_be_orthogonal must_have_orientation name =
  (when_some must_have_orientation (fun o => check_contains o ["right"; "left"]%string);;
   let* vector0 := validate_vector a0 in
   let* vector1 := validate_vector a1 in
   let* vector2 := validate_vector a2 in
   let* axes_array := np_vstack [vector0; vector1; vector2] in
   frame_checks axes_array normalize must_be_orthogonal must_have_orientation).
Proof.
  unfold validate_axes.
  destruct (when_some must_have_orientation _); [cbn [bind]|reflexivity].
  cbn [length existsb Nat.eqb orb negb raise_if bind].
  rewrite !validate_array3_named. unfold validate_vector.
  destruct (validate_array a0 array3_config) as [o0|]; [cbn [bind]|reflexivity].
  destruct (as_ndarray o0) as [v0|]; [cbn [bind]|reflexivity].
  destruct (validate_array a1 array3_config) as [o1|]; [cbn [bind]|reflexivity].
  destruct (as_ndarray o1) as [v1|]; [cbn [bind]|reflexivity].
  destruct (validate_array a2 array3_config) as [o2|]; [cbn [bind]|reflexivity].
  destruct (as_ndarray o2) as [v2|]; [cbn [bind]|reflexivity].
  reflexivity.
Qed.

(** The half of C2 that holds: three valid vectors one of which is zero
    are refused with [ValueError], whatever else is asked. *)
Lemma zero_axis_refused (a0 a1 a2 : pyobj) (v0 v1 v2 axes_array : ndarray)
    (normalize must_be_orthogonal : bool) (must_have_orientation : option string)
    (name : string) :
  validate_vector a0 = Ok v0 ->
  validate_vector a1 = Ok v1 ->
  validate_vector a2 = Ok v2 ->
  np_vstack [v0; v1; v2] = Ok axes_array ->
  Exists (Forall is_zero) (rows axes_array) ->
  validate_axes [a0; a1; a2] normalize must_be_orthogonal must_have_orientation name
  = Err ValueError.
Proof.
  intros H0 H1 H2 Hstack Hzero.
  rewrite validate_axes_three_vectors, H0, H1, H2; cbn [bind]. rewrite Hstack; cbn [bind].
  rewrite (frame_checks_zero_row _ _ _ _ Hzero).
  destruct must_have_orientation as [o|]; cbn [when_some bind]; [|reflexivity].
  unfold check_contains. destruct (negb _); reflexivity.
Qed.

(** The instance [[1, 0, 0]], [[0, 0, 0]], [[0, 0, 1]]. *)
Lemma zero_axis_refused_witness :
  validate_axes [py_ints [1; 0; 0]; py_ints [0; 0; 0]; py_ints [0; 0; 1]]
    true false None "Axes"
  = Err ValueError.
Proof.
  apply (zero_axis_refused _ _ _ (int_array [3%nat] [1; 0; 0]) (int_array [3%nat] [0; 0; 0])
           (int_array [3%nat] [0; 0; 1])
           (int_array [3; 3]%nat [1; 0; 0; 0; 0; 0; 0; 0; 1]));
    try (vm_compute; reflexivity).
  apply Exists_cons_tl, Exists_cons_hd.
  cbn. repeat (constructor; [cbv; auto|]). constructor.
Defined.

(** [validate_arrayN_uintlike] looks at [dtype_out] before it comes to its
    locked parameters: a [dtype_out] that is not integral is a [TypeError]
    whatever the locked parameters are given. *)
Example uintlike_checks_dtype_out_first :
  validate_arrayN_uintlike (py_ints [1; 2; 3]) true
    (<[ "dtype_out"%string := VType (DT Float64) ]>
       {[ "must_be_integer"%string := VBool false ]})
  = Err TypeError
  /\ validate_arrayN_uintlike (py_ints [1; 2; 3]) true
       {[ "must_be_integer"%string := VBool false ]}
     = Err ValueError.
Proof. split; vm_compute; reflexivity. Qed.

(** * Further properties of the validators *)

(** ** [_array_from_vtkmatrix] *)

(** The loop of [_array_from_vtkmatrix] on the element list alone. *)
Lemma fold_setitem2 (m : nat -> nat -> float) (r c : nat) (ps : list (nat * nat))
    (l : list num) :
  fold_left (fun array '(i, j) => setitem2 array i j (NFloat (m i j))) ps
            (mk_ndarray Float64 [r; c] l)
  = mk_ndarray Float64 [r; c]
      (fold_left (fun l q => <[(fst q * c + snd q)%nat := NFloat (m (fst q) (snd q))]> l)
                 ps l).
Proof.
  revert l. induction ps as [|[i j] ps IH]; intros l; [reflexivity|].
  cbn [fold_left fst snd]. unfold setitem2 at 2.
  cbn [shape dtype_of data nth astype1 re_part].
  apply IH.
Qed.

(** A run of assignments [l[f p] = g p]: the slot of an assignment that
    was made holds what was assigned, when no other assignment to the
    same slot disagrees. *)
Lemma fold_insert_lookup {P A : Type} (f : P -> nat) (g : P -> A) (ps : list P)
    (l : list A) (p : P) :
  In p ps \/ l !! f p = Some (g p) ->
  (forall q, In q ps -> f q = f p -> g q = g p) ->
  (f p < length l)%nat ->
  fold_left (fun l q => <[f q := g q]> l) ps l !! f p = Some (g p).
Proof.
  revert l. induction ps as [|q ps IH]; intros l Hin Hagree Hlen; cbn [fold_left].
  - destruct Hin as [[]|Hl]. exact Hl.
  - apply IH.
    + destruct (Nat.eq_dec (f q) (f p)) as [E|E].
      * right. rewrite E, list_lookup_insert_eq by assumption.
        f_equal. apply Hagree; [now left | assumption].
      * destruct Hin as [[->|Hin]|Hl]; [congruence | now left |].
        right. now rewrite list_lookup_insert_ne.
    + intros q' Hq'. apply Hagree. now right.
    + now rewrite length_insert.
Qed.

Lemma in_product_range (r c i j : nat) :
  In (i, j) (product_range r c) <-> (i < r)%nat /\ (j < c)%nat.
Proof.
  unfold product_range. rewrite in_flat_map. split.
  - intros [i' [Hi [j' [[= <- <-] Hj]]%in_map_iff]].
    apply in_seq in Hi, Hj. lia.
  - intros [Hi Hj]. exists i. split; [apply in_seq; lia|].
    apply in_map_iff. exists j. split; [reflexivity | apply in_seq; lia].
Qed.

Lemma length_fold_insert {P A : Type} (f : P -> nat) (g : P -> A) (ps : list P)
    (l : list A) :
  length (fold_left (fun l q => <[f q := g q]> l) ps l) = length l.
Proof.
  revert l. induction ps as [|q ps IH]; intros l; cbn [fold_left]; [reflexivity|].
  now rewrite IH, length_insert.
Qed.

Lemma array_from_vtkmatrix_spec (GetElement : nat -> nat -> float) (r c : nat) :
  dtype_of (_array_from_vtkmatrix GetElement r c) = Float64
  /\ shape (_array_from_vtkmatrix GetElement r c) = [r; c]
  /\ length (data (_array_from_vtkmatrix GetElement r c)) = (r * c)%nat
  /\ forall i j, (i < r)%nat -> (j < c)%nat ->
       getitem2 (_array_from_vtkmatrix GetElement r c) i j = NFloat (GetElement i j).
Proof.
  unfold _array_from_vtkmatrix, np_zeros. rewrite fold_setitem2.
  cbn [dtype_of shape data].
  repeat split.
  - now rewrite length_fold_insert, repeat_length.
  - intros i j Hi Hj. unfold getitem2; cbn [shape data nth].
    apply nth_lookup_Some with (d := NFloat 0).
    apply (fold_insert_lookup (fun q => (fst q * c + snd q)%nat)
             (fun q => NFloat (GetElement (fst q) (snd q))) _ _ (i, j)).
    + left. now apply in_product_range.
    + intros [i' j'] [Hi' Hj']%in_product_range E. cbn [fst snd] in *.
      assert (i' = i) by nia. subst. assert (j' = j) by lia. now subst.
    + cbn [fst snd]. rewrite repeat_length. nia.
Qed.

(** [_array_from_vtkmatrix(matrix, shape)] is a float64 array of the
    given shape whose element at (i, j) is [matrix.GetElement(i, j)], for
    every position of the shape. *)
Theorem array_from_vtkmatrix_elements (GetElement : nat -> nat -> float) (r c : nat) :
  dtype_of (_array_from_vtkmatrix GetElement r c) = Float64
  /\ shape (_array_from_vtkmatrix GetElement r c) = [r; c]
  /\ length (data (_array_from_vtkmatrix GetElement r c)) = (r * c)%nat
  /\ forall i j, (i < r)%nat -> (j < c)%nat ->
       getitem2 (_array_from_vtkmatrix GetElement r c) i j = NFloat (GetElement i j).
Proof. apply array_from_vtkmatrix_spec. Qed.

(** ** What [validate_array] has checked when it returns *)

Lemma validated_array_inv (array : pyobj) (c : config) (v : ndarray) :
  validated_array array c = Ok v ->
  exists a ar ab,
    cast_of array c = Ok a
    /\ dtype_accepted c a
    /\ when_some (must_have_shape c) (fun shp => check_shape a shp) = Ok tt
    /\ reshape_stage c a = Ok ar
    /\ broadcast_stage c ar = Ok ab
    /\ length_stage c array = Ok tt
    /\ value_stage c ab = Ok tt
    /\ v = cast_stage c ab.
Proof.
  unfold validated_array, dtype_accepted.
  intros [a [Hcast H]]%bind_eq_Ok.
  apply bind_eq_Ok in H as [[] [Hdtype H]].
  apply bind_eq_Ok in H as [[] [Hshape H]].
  apply bind_eq_Ok in H as [ar [Hreshape H]].
  apply bind_eq_Ok in H as [ab [Hbroadcast H]].
  apply bind_eq_Ok in H as [[] [Hlength H]].
  apply bind_eq_Ok in H as [[] [Hvalue H]].
  injection H as <-. exists a, ar, ab. auto 10.
Qed.

Lemma validate_array_inv (array : pyobj) (c : config) (out : output) :
  validate_array array c = Ok out ->
  exists v, validated_array array c = Ok v /\ out = output_stage c v.
Proof.
  rewrite validate_array_output. intros [v [Hv [= <-]]]%bind_eq_Ok. eauto.
Qed.

Lemma check_shape_Ok (a : ndarray) (shp : shape_arg) :
  check_shape a shp = Ok tt ->
  exists p, In p (alternatives shp) /\ shape_matches (shape a) p = true.
Proof.
  unfold check_shape. destruct (existsb _ _) eqn:E; [|discriminate].
  intros _. now apply existsb_exists in E.
Qed.

Lemma check_finite_Ok (a : ndarray) :
  check_finite a = Ok tt <-> forallb num_isfinite (data a) = true.
Proof.
  unfold check_finite. destruct (forallb _ _); simpl; split; congruence.
Qed.

(** ** The transform validators on each kind of input *)

(** What [validate_array] accepts under the configuration of
    [validate_transform4x4]. *)
Lemma transform4x4_config_inv (x : pyobj) (out : output) :
  validate_array x transform4x4_config = Ok out ->
  exists a, out = OutArray a
            /\ cast_of x default_config = Ok a
            /\ (shape a = [3; 3]%nat \/ shape a = [4; 4]%nat)
            /\ forallb num_isfinite (data a) = true.
Proof.
  intros [v [Hv ->]]%validate_array_inv.
  apply validated_array_inv in Hv
    as (a & ar & ab & Hcast & _ & Hshape & [= <-] & [= <-] & _ & Hvalue & ->).
  exists a. split; [reflexivity|]. split; [exact Hcast|].
  apply check_shape_Ok in Hshape as [p [Hp Hmatch]]. split.
  - destruct Hp as [<-|[<-|[]]].
    + left. now apply (shape_matches_fixed (shape a) [3; 3]%nat).
    + right. now apply (shape_matches_fixed (shape a) [4; 4]%nat).
  - unfold value_stage in Hvalue. cbn [must_be_nonnegative must_be_finite
      transform4x4_config default_config when bind] in Hvalue.
    destruct (check_finite a) as [[]|] eqn:E; [|discriminate].
    now apply check_finite_Ok.
Qed.

(** [validate_transform4x4] reads a [vtkMatrix4x4], and the matrix of a
    [vtkTransform], element by element into a float64 array of shape
    (4, 4); a [vtkMatrix3x3] is read into the top-left block of the 4x4
    identity. *)
Theorem transform4x4_reads_vtk_matrices (m : nat -> nat -> float) (name : string) :
  (forall transform, transform = VtkMatrix4x4 m \/ transform = VtkTransform m ->
     exists r, validate_transform4x4 transform name = Ok r
               /\ dtype_of r = Float64 /\ shape r = [4; 4]%nat
               /\ forall i j, (i < 4)%nat -> (j < 4)%nat -> getitem2 r i j = NFloat (m i j))
  /\ exists r, validate_transform4x4 (VtkMatrix3x3 m) name = Ok r
               /\ dtype_of r = Float64 /\ shape r = [4; 4]%nat
               /\ forall i j, (i < 4)%nat -> (j < 4)%nat ->
                    getitem2 r i j =
                    if (i <? 3)%nat && (j <? 3)%nat then NFloat (m i j)
                    else NFloat (if (i =? j)%nat then 1 else 0).
Proof.
  destruct (array_from_vtkmatrix_spec m 4 4) as (Hd4 & Hs4 & _ & He4).
  destruct (array_from_vtkmatrix_spec m 3 3) as (_ & _ & _ & He3).
  split.
  - intros transform [-> | ->]; eexists; (split; [reflexivity|]); auto.
  - eexists. split; [reflexivity|]. rewrite set_top_left_3x3_eye.
    split; [reflexivity|]. split; [reflexivity|].
    intros i j Hi Hj.
    destruct i as [|[|[|[|i]]]]; [| | | |lia];
      (destruct j as [|[|[|[|j]]]]; [| | | |lia]);
      cbn [Nat.ltb Nat.leb andb Nat.eqb];
      try reflexivity;
      (change (getitem2 (embedded_in_identity ?a) ?i ?j)
         with (astype1 Float64 (getitem2 a i j)) ||
       match goal with
       | |- getitem2 (embedded_in_identity ?a) ?i ?j = _ =>
           change (getitem2 (embedded_in_identity a) i j)
             with (astype1 Float64 (getitem2 a i j))
       end);
      rewrite He3 by lia; reflexivity.
Qed.

Lemma transform4x4_config_run (x : pyobj) :
  validate_array x transform4x4_config =
  let* a := cast_of x default_config in
  check_shape a (ShapeList [ShTuple [3; 3]; ShTuple [4; 4]]);;
  check_finite a;;
  Ok (OutArray a).
Proof.
  rewrite validate_array_stages.
  change (cast_of x transform4x4_config) with (cast_of x default_config).
  destruct (cast_of x default_config) as [a|]; [|reflexivity].
  cbn [bind must_have_dtype must_have_shape transform4x4_config default_config when_some].
  destruct (check_shape a _) as [[]|]; [|reflexivity].
  unfold value_stage.
  cbn [bind reshape_stage broadcast_stage length_stage reshape_to broadcast_to
       must_have_length must_have_min_length must_have_max_length is_not_None orb when
       must_be_nonnegative must_be_finite transform4x4_config default_config].
  destruct (check_finite a) as [[]|]; reflexivity.
Qed.

Lemma transform3x3_config_run (x : pyobj) :
  validate_array x transform3x3_config =
  let* a := cast_of x default_config in
  check_shape a (OneShape (ShTuple [3; 3]));;
  Ok (OutArray a).
Proof.
  rewrite validate_array_stages.
  change (cast_of x transform3x3_config) with (cast_of x default_config).
  destruct (cast_of x default_config) as [a|]; [|reflexivity].
  cbn [bind must_have_dtype must_have_shape transform3x3_config default_config when_some].
  destruct (check_shape a _) as [[]|]; reflexivity.
Qed.

Lemma check_shape_3x3 (a : ndarray) :
  check_shape a (OneShape (ShTuple [3; 3])) = Ok tt <-> shape a = [3; 3]%nat.
Proof.
  split.
  - intros [p [[<-|[]] Hp]]%check_shape_Ok.
    now apply (shape_matches_fixed (shape a) [3; 3]%nat).
  - intros H. unfold check_shape. now rewrite H.
Qed.

(** [validate_transform4x4] hands back an array-like input of shape
    (4, 4) as the array it was cast to, elements and dtype untouched, when
    every element is finite; an input of shape (3, 3) or (4, 4) with an
    infinite or NaN element raises [TypeError] (the [ValueError] of the
    finiteness check is caught and replaced). *)
Theorem transform4x4_keeps_4x4_and_refuses_nonfinite
    (x : pyobj) (a : ndarray) (name : string) :
  cast_of x default_config = Ok a ->
  (shape a = [4; 4]%nat -> forallb num_isfinite (data a) = true ->
   validate_transform4x4 (NotVtk x) name = Ok a)
  /\ (forallb num_isfinite (data a) = false ->
      validate_transform4x4 (NotVtk x) name = Err TypeError).
Proof.
  intros Hcast. unfold validate_transform4x4; cbn [check_string bind].
  fold transform4x4_config. rewrite transform4x4_config_run, Hcast; cbn [bind].
  split.
  - intros Hshape Hfinite.
    unfold check_shape, check_finite. rewrite Hshape, Hfinite.
    cbn [alternatives existsb]. change (shape_matches _ (ShTuple [3; 3])) with false.
    change (shape_matches _ (ShTuple [4; 4])) with true.
    cbn [orb negb raise_if bind as_ndarray]. rewrite Hshape. reflexivity.
  - intros Hfinite.
    destruct (check_shape a _) as [[]|e]; cbn [bind];
      [|apply cast_error_to_TypeError].
    unfold check_finite. rewrite Hfinite. reflexivity.
Qed.

Lemma transform4x4_keeps_4x4_and_refuses_nonfinite_witness :
  validate_transform4x4
    (NotVtk (PyArray (int_array [4; 4]%nat [1; 0; 0; 5; 0; 1; 0; 6; 0; 0; 1; 7; 0; 0; 0; 1])))
    "transform"
  = Ok (int_array [4; 4]%nat [1; 0; 0; 5; 0; 1; 0; 6; 0; 0; 1; 7; 0; 0; 0; 1]).
Proof.
  apply (transform4x4_keeps_4x4_and_refuses_nonfinite
           (PyArray (int_array [4; 4]%nat [1; 0; 0; 5; 0; 1; 0; 6; 0; 0; 1; 7; 0; 0; 0; 1])));
    reflexivity.
Defined.

(** Whatever [validate_transform4x4] returns has shape (4, 4). *)
Theorem transform4x4_result_shape (transform : transform_like) (name : string) (r : ndarray) :
  validate_transform4x4 transform name = Ok r -> shape r = [4; 4]%nat.
Proof.
  destruct (array_from_vtkmatrix_spec
              match transform with
              | VtkMatrix4x4 m | VtkTransform m => m
              | _ => fun _ _ => 0%float
              end 4 4) as (_ & Hs4 & _).
  destruct transform as [m|m|m|x];
    unfold validate_transform4x4; cbn [check_string bind].
  - now intros [= <-].
  - now intros [= <-].
  - now intros [= <-].
  - fold transform4x4_config. rewrite transform4x4_config_run.
    destruct (cast_of x default_config) as [a|[]]; cbn [bind]; try discriminate.
    destruct (check_shape a _) as [[]|[]] eqn:Hshape; cbn [bind]; try discriminate.
    destruct (check_finite a) as [[]|[]]; cbn [bind as_ndarray]; try discriminate.
    destruct (shape_eqb (shape a) (ShTuple [3; 3])) eqn:E.
    + now intros [= <-].
    + intros [= <-].
      apply check_shape_Ok in Hshape as [p [[<-|[<-|[]]] Hp]].
      * apply (shape_matches_fixed (shape a) [3; 3]%nat) in Hp.
        rewrite Hp in E. discriminate.
      * now apply (shape_matches_fixed (shape a) [4; 4]%nat).
Qed.

Lemma transform4x4_result_shape_witness :
  shape (embedded_in_identity (int_array [3; 3]%nat [0; -1; 0; 1; 0; 0; 0; 0; 1])) = [4; 4]%nat.
Proof.
  apply (transform4x4_result_shape
           (NotVtk (PyArray (int_array [3; 3]%nat [0; -1; 0; 1; 0; 0; 0; 0; 1]))) "transform").
  reflexivity.
Defined.

(** ** [validate_transform3x3] *)

(** [validate_transform3x3] reads a [vtkMatrix3x3] element by element into
    a float64 array of shape (3, 3). *)
Theorem transform3x3_reads_vtkMatrix3x3 (m : nat -> nat -> float) (name : string) :
  exists r, validate_transform3x3 (VtkMatrix3x3 m) name = Ok r
            /\ dtype_of r = Float64 /\ shape r = [3; 3]%nat
            /\ forall i j, (i < 3)%nat -> (j < 3)%nat -> getitem2 r i j = NFloat (m i j).
Proof.
  destruct (array_from_vtkmatrix_spec m 3 3) as (_ & _ & _ & He3).
  eexists. split; [reflexivity|]. split; [reflexivity|]. split; [reflexivity|].
  intros i j Hi Hj.
  destruct i as [|[|[|i]]]; [| | |lia];
    (destruct j as [|[|[|j]]]; [| | |lia]);
    match goal with
    | |- getitem2 (set_top_left_3x3 (np_eye 3) ?a) ?i ?j = _ =>
        change (getitem2 (set_top_left_3x3 (np_eye 3) a) i j)
          with (astype1 Float64 (getitem2 a i j))
    end;
    rewrite He3 by lia; reflexivity.
Qed.

(** [validate_transform3x3] hands back an array-like input of shape (3, 3)
    as the array it was cast to, whether or not its elements are finite:
    unlike [validate_transform4x4] it asks for no finiteness check.  Any
    other input that is no [vtkMatrix3x3] raises [TypeError]. *)
Theorem transform3x3_array_like (transform : transform_like) (name : string) :
  (forall m, transform <> VtkMatrix3x3 m) ->
  (forall a, cast_of (as_pyobj transform) default_config = Ok a ->
             shape a = [3; 3]%nat ->
             validate_transform3x3 transform name = Ok a)
  /\ (~ array_like_of_shape (as_pyobj transform) [3; 3]%nat ->
      validate_transform3x3 transform name = Err TypeError).
Proof.
  intros Hvtk.
  assert (Hrun : validate_transform3x3 transform name
                 = except_ValueError_raise_TypeError
                     (let* out := validate_array (as_pyobj transform) transform3x3_config in
                      as_ndarray out)).
  { destruct transform as [m|m|m|x]; try reflexivity. now destruct (Hvtk m). }
  rewrite Hrun, transform3x3_config_run. split.
  - intros a Hcast Hshape. rewrite Hcast; cbn [bind].
    apply check_shape_3x3 in Hshape. now rewrite Hshape.
  - intros Hnot.
    destruct (cast_of (as_pyobj transform) default_config) as [a|e] eqn:Hcast;
      cbn [bind]; [|apply cast_error_to_TypeError].
    destruct (check_shape a _) as [[]|e] eqn:Hshape; cbn [bind];
      [|apply cast_error_to_TypeError].
    exfalso. apply Hnot. exists a. split; [exact Hcast|]. now apply check_shape_3x3.
Qed.

Lemma transform3x3_array_like_witness :
  validate_transform3x3
    (NotVtk (PyArray (float_array [3; 3]%nat [1; 0; 0; 0; infinity; 0; 0; 0; nan]%float)))
    "transform"
  = Ok (float_array [3; 3]%nat [1; 0; 0; 0; infinity; 0; 0; 0; nan]%float)
  /\ validate_transform3x3 (VtkMatrix4x4 (fun _ _ => 1%float)) "transform" = Err TypeError.
Proof.
  split.
  - apply (transform3x3_array_like
             (NotVtk (PyArray (float_array [3; 3]%nat [1; 0; 0; 0; infinity; 0; 0; 0; nan]%float)))
             "transform"); [discriminate|reflexivity|reflexivity].
  - apply (transform3x3_array_like (VtkMatrix4x4 (fun _ _ => 1%float)) "transform");
      [discriminate|].
    intros [a [Hcast _]]. discriminate Hcast.
Defined.

(** Whatever [validate_transform3x3] returns has shape (3, 3), and the
    function never raises [ValueError]. *)
Theorem transform3x3_result_shape (transform : transform_like) (name : string) :
  validate_transform3x3 transform name <> Err ValueError
  /\ forall r, validate_transform3x3 transform name = Ok r -> shape r = [3; 3]%nat.
Proof.
  split.
  - destruct transform; try apply except_never_ValueError. discriminate.
  - assert (Hother : forall r,
               except_ValueError_raise_TypeError
                 (let* out := validate_array (as_pyobj transform) transform3x3_config in
                  as_ndarray out) = Ok r -> shape r = [3; 3]%nat).
    { intros r. rewrite transform3x3_config_run.
      destruct (cast_of (as_pyobj transform) default_config) as [a|[]]; cbn [bind];
        try discriminate.
      destruct (check_shape a _) as [[]|[]] eqn:Hshape; cbn [bind]; try discriminate.
      intros [= <-]. now apply check_shape_3x3. }
    destruct transform; try exact Hother.
    intros r [= <-]. reflexivity.
Qed.

(** ** [validate_axes] *)

(** A successful call has stacked three vectors and run the frame checks
    on the stack. *)
Lemma validate_axes_frame (axes : list pyobj) (normalize must_be_orthogonal : bool)
    (must_have_orientation : option string) (name : string) (r : ndarray) :
  validate_axes axes normalize must_be_orthogonal must_have_orientation name = Ok r ->
  exists axes_array,
    frame_checks axes_array normalize must_be_orthogonal must_have_orientation = Ok r.
Proof.
  unfold validate_axes. intros H.
  apply bind_eq_Ok in H as [[] [_ H]].
  apply bind_eq_Ok in H as [[] [_ H]].
  apply bind_eq_Ok in H as [[[vector0 vector1] vector2] [_ H]].
  apply bind_eq_Ok in H as [v2 [_ H]].
  apply bind_eq_Ok in H as [axes_array [_ H]].
  exists axes_array. exact H.
Qed.

(** [validate_axes] takes one, two or three arguments: called with none,
    or with more than three, it raises [ValueError], whatever the arguments
    and the options are. *)
Theorem axes_wrong_number_of_arguments (axes : list pyobj)
    (normalize must_be_orthogonal : bool) (must_have_orientation : option string)
    (name : string) :
  axes = [] \/ (3 < length axes)%nat ->
  validate_axes axes normalize must_be_orthogonal must_have_orientation name
  = Err ValueError.
Proof.
  intros Hn. unfold validate_axes.
  assert (E : existsb (Nat.eqb (length axes)) [1; 2; 3]%nat = false).
  { destruct Hn as [->|Hn]; [reflexivity|].
    destruct axes as [|? [|? [|? [|? ?]]]]; cbn [length] in *; try lia. reflexivity. }
  rewrite E.
  destruct must_have_orientation as [o|]; cbn [when_some bind]; [|reflexivity].
  unfold check_contains. destruct (negb _); reflexivity.
Qed.

Lemma axes_wrong_number_of_arguments_witness :
  validate_axes [py_ints [1; 0; 0]; py_ints [0; 1; 0]; py_ints [0; 0; 1]; py_ints [1; 1; 1]]
                true true None "axes"
  = Err ValueError.
Proof.
  apply axes_wrong_number_of_arguments. right. cbn [length]. lia.
Defined.

(** What the frame checks have established when they return. *)
Lemma frame_checks_inv (axes_array : ndarray) (normalize must_be_orthogonal : bool)
    (must_have_orientation : option string) (r : ndarray) :
  frame_checks axes_array normalize must_be_orthogonal must_have_orientation = Ok r ->
  forallb num_isfinite (data axes_array) = true
  /\ existsb (forallb (fun x => np_isclose x (NFloat 0))) (rows axes_array) = false
  /\ exists norms axes_norm cross_0_1 cross_1_2,
       np_reshape (np_linalg_norm_axis1 axes_array) (ShTuple [3; 1]) = Ok norms
       /\ np_true_divide axes_array norms = Ok axes_norm
       /\ np_cross (row axes_norm 0) (row axes_norm 1) = Ok cross_0_1
       /\ np_cross (row axes_norm 1) (row axes_norm 2) = Ok cross_1_2
       /\ must_be_orthogonal
          && negb ((np_allclose cross_0_1 (row axes_norm 2)
                    || np_allclose cross_0_1 (np_negative (row axes_norm 2)))
                   && (np_allclose cross_1_2 (row axes_norm 0)
                       || np_allclose cross_1_2 (np_negative (row axes_norm 0)))) = false
       /\ match must_have_orientation with
          | Some o =>
              when (negb (String.eqb o ""))
                (let* dot := np_dot cross_0_1 (row axes_norm 2) in
                 raise_if (String.eqb o "right" && num_ltb dot (NInt 0)) ValueError;;
                 raise_if (String.eqb o "left" && num_ltb (NInt 0) dot) ValueError)
          | None => Ok tt
          end = Ok tt
       /\ r = if normalize then axes_norm else axes_array.
Proof.
  unfold frame_checks. intros H.
  apply bind_eq_Ok in H as [[] [Hfinite H]]. apply check_finite_Ok in Hfinite.
  apply bind_eq_Ok in H as [dot01 [_ H]].
  apply bind_eq_Ok in H as [[] [_ H]].
  apply bind_eq_Ok in H as [[] [Hzero H]].
  apply bind_eq_Ok in H as [norms [Hnorms H]].
  apply bind_eq_Ok in H as [axes_norm [Hdiv H]].
  apply bind_eq_Ok in H as [cross_0_1 [H01 H]].
  apply bind_eq_Ok in H as [cross_1_2 [H12 H]].
  apply bind_eq_Ok in H as [[] [Horth H]].
  apply bind_eq_Ok in H as [[] [Hori H]].
  split; [exact Hfinite|]. split.
  { unfold raise_if in Hzero. now destruct (existsb _ _). }
  exists norms, axes_norm, cross_0_1, cross_1_2.
  repeat (split; [assumption|]).
  split; [|split; [exact Hori|]].
  - unfold raise_if in Horth.
    now destruct (must_be_orthogonal && _).
  - destruct normalize; congruence.
Qed.

(** Without normalisation, whatever [validate_axes] returns has only
    finite elements and no row whose three elements are all close to
    zero. *)
Theorem axes_returned_finite_and_nonzero (axes : list pyobj) (must_be_orthogonal : bool)
    (must_have_orientation : option string) (name : string) (r : ndarray) :
  validate_axes axes false must_be_orthogonal must_have_orientation name = Ok r ->
  forallb num_isfinite (data r) = true
  /\ existsb (forallb (fun x => np_isclose x (NFloat 0))) (rows r) = false.
Proof.
  intros [axes_array H]%validate_axes_frame.
  apply frame_checks_inv in H as (Hfinite & Hzero & _ & _ & _ & _ & _ & _ & _ & _ & _ & _ & ->).
  now split.
Qed.

Lemma axes_returned_finite_and_nonzero_witness :
  forallb num_isfinite (data (int_array [3; 3]%nat [2; 0; 0; 0; 3; 0; 0; 0; 6])) = true
  /\ existsb (forallb (fun x => np_isclose x (NFloat 0)))
             (rows (int_array [3; 3]%nat [2; 0; 0; 0; 3; 0; 0; 0; 6])) = false.
Proof.
  apply (axes_returned_finite_and_nonzero
           [py_ints [2; 0; 0]; py_ints [0; 3; 0]] true (Some "right"%string) "axes").
  vm_compute. reflexivity.
Defined.

(** With [normalize=True] and [must_be_orthogonal=True], the rows of the
    array [validate_axes] returns pass the orthogonality test themselves:
    the cross product of rows 0 and 1 is close to row 2 or to its
    negative, and that of rows 1 and 2 is close to row 0 or to its
    negative.  When an orientation was asked for, their triple product has
    the sign of that orientation: not negative for ['right'], not positive
    for ['left']. *)
Theorem axes_returned_orthogonal_and_oriented (axes : list pyobj)
    (must_have_orientation : option string) (name : string) (r : ndarray) :
  validate_axes axes true true must_have_orientation name = Ok r ->
  exists cross_0_1 cross_1_2,
    np_cross (row r 0) (row r 1) = Ok cross_0_1
    /\ np_cross (row r 1) (row r 2) = Ok cross_1_2
    /\ np_allclose cross_0_1 (row r 2) || np_allclose cross_0_1 (np_negative (row r 2)) = true
    /\ np_allclose cross_1_2 (row r 0) || np_allclose cross_1_2 (np_negative (row r 0)) = true
    /\ (must_have_orientation = Some "right"%string ->
        exists dot, np_dot cross_0_1 (row r 2) = Ok dot /\ num_ltb dot (NInt 0) = false)
    /\ (must_have_orientation = Some "left"%string ->
        exists dot, np_dot cross_0_1 (row r 2) = Ok dot /\ num_ltb (NInt 0) dot = false).
Proof.
  intros [axes_array H]%validate_axes_frame.
  apply frame_checks_inv in H
    as (_ & _ & norms & axes_norm & cross_0_1 & cross_1_2 & _ & _ & H01 & H12 & Horth & Hori & ->).
  exists cross_0_1, cross_1_2.
  cbn [andb] in Horth. apply negb_false_iff, andb_true_iff in Horth as [Ha Hb].
  repeat (split; [assumption|]).
  split; intros ->; cbn [String.eqb Ascii.eqb Bool.eqb negb when andb] in Hori.
  - apply bind_eq_Ok in Hori as [dot [Hdot Hori]]. exists dot. split; [exact Hdot|].
    change (String.eqb "right" "right") with true in Hori.
    cbn [andb] in Hori. unfold raise_if at 1 in Hori.
    now destruct (num_ltb dot (NInt 0)).
  - apply bind_eq_Ok in Hori as [dot [Hdot Hori]]. exists dot. split; [exact Hdot|].
    change (String.eqb "left" "right") with false in Hori.
    change (String.eqb "left" "left") with true in Hori.
    cbn [andb raise_if bind] in Hori.
    now destruct (num_ltb (NInt 0) dot).
Qed.

Lemma axes_returned_orthogonal_and_oriented_witness :
  exists cross_0_1 cross_1_2,
    np_cross (row (float_array [3; 3]%nat [1; 0; 0; 0; 1; 0; 0; 0; -1]%float) 0)
             (row (float_array [3; 3]%nat [1; 0; 0; 0; 1; 0; 0; 0; -1]%float) 1)
    = Ok cross_0_1
    /\ np_cross (row (float_array [3; 3]%nat [1; 0; 0; 0; 1; 0; 0; 0; -1]%float) 1)
                (row (float_array [3; 3]%nat [1; 0; 0; 0; 1; 0; 0; 0; -1]%float) 2)
       = Ok cross_1_2
    /\ np_allclose cross_0_1 (row (float_array [3; 3]%nat [1; 0; 0; 0; 1; 0; 0; 0; -1]%float) 2)
       || np_allclose cross_0_1
            (np_negative (row (float_array [3; 3]%nat [1; 0; 0; 0; 1; 0; 0; 0; -1]%float) 2))
       = true
    /\ np_allclose cross_1_2 (row (float_array [3; 3]%nat [1; 0; 0; 0; 1; 0; 0; 0; -1]%float) 0)
       || np_allclose cross_1_2
            (np_negative (row (float_array [3; 3]%nat [1; 0; 0; 0; 1; 0; 0; 0; -1]%float) 0))
       = true
    /\ (Some "left"%string = Some "right"%string ->
        exists dot,
          np_dot cross_0_1 (row (float_array [3; 3]%nat [1; 0; 0; 0; 1; 0; 0; 0; -1]%float) 2)
          = Ok dot /\ num_ltb dot (NInt 0) = false)
    /\ (Some "left"%string = Some "left"%string ->
        exists dot,
          np_dot cross_0_1 (row (float_array [3; 3]%nat [1; 0; 0; 0; 1; 0; 0; 0; -1]%float) 2)
          = Ok dot /\ num_ltb (NInt 0) dot = false).
Proof.
  apply (axes_returned_orthogonal_and_oriented
           [py_ints [3; 0; 0]; py_ints [0; 2; 0]] (Some "left"%string) "axes").
  vm_compute. reflexivity.
Defined.

Lemma axes_array_config_run (x : pyobj) :
  validate_array x axes_array_config =
  let* a := cast_of x default_config in
  check_shape a (ShapeList [ShTuple [2; 3]; ShTuple [3; 3]]);;
  Ok (OutArray (astype Float64 a)).
Proof.
  rewrite validate_array_stages.
  change (cast_of x axes_array_config) with (cast_of x default_config).
  destruct (cast_of x default_config) as [a|]; [|reflexivity].
  cbn [bind must_have_dtype must_have_shape axes_array_config default_config when_some].
  destruct (check_shape a _) as [[]|]; reflexivity.
Qed.

(** A single array argument of two rows, that is of shape (2, 3), leaves
    the third axis to be derived: with [must_have_orientation=None]
    [validate_axes] raises [ValueError], as it does for two separate
    vectors. *)
Theorem two_rows_need_orientation (x : pyobj) (a : ndarray)
    (normalize must_be_orthogonal : bool) (name : string) :
  cast_of x default_config = Ok a ->
  shape a = [2; 3]%nat ->
  validate_axes [x] normalize must_be_orthogonal None name = Err ValueError.
Proof.
  intros Hcast Hshape. unfold validate_axes.
  cbn [when_some bind length existsb Nat.eqb orb negb raise_if].
  fold axes_array_config. rewrite axes_array_config_run, Hcast; cbn [bind].
  unfold check_shape. rewrite Hshape.
  cbn [alternatives existsb]. change (shape_matches _ (ShTuple [2; 3])) with true.
  cbn [orb negb raise_if bind as_ndarray].
  unfold first_dim, astype; cbn [shape]. rewrite Hshape; cbn [head].
  rewrite bool_decide_eq_false_2 by discriminate. reflexivity.
Qed.

Lemma two_rows_need_orientation_witness :
  validate_axes [PySeq [py_ints [1; 0; 0]; py_ints [0; 1; 0]]] true true None "axes"
  = Err ValueError.
Proof.
  apply (two_rows_need_orientation _ (int_array [2; 3]%nat [1; 0; 0; 0; 1; 0]));
    reflexivity.
Defined.

(** * Arrays stay well formed *)

Lemma kind_astype1 (d : dtype) (x : num) : kind (astype1 d x) = d.
Proof. destruct d; reflexivity. Qed.

Lemma Forall_kind_astype1 (d : dtype) (l : list num) :
  Forall (fun x => kind x = d) (map (astype1 d) l).
Proof. induction l; simpl; constructor; auto using kind_astype1. Qed.

Lemma astype_well_formed (d : dtype) (a : ndarray) :
  length (data a) = shape_size (shape a) -> well_formed (astype d a).
Proof.
  intros H. split; simpl.
  - now rewrite length_map.
  - clear H. generalize (data a) as l.
    induction l as [|x l IH]; simpl; [constructor|].
    constructor; [destruct d, x; reflexivity | exact IH].
Qed.

(** ** [reshape] *)

Lemma shape_size_nonneg (l : list Z) :
  existsb (fun d => d <? -1) l = false ->
  count_unknown l = 0%nat ->
  Z.of_nat (shape_size (map Z.to_nat l)) = known_size l.
Proof.
  unfold count_unknown, known_size.
  induction l as [|d l IH]; simpl; [reflexivity|].
  intros [Hd Hl]%orb_false_iff. apply Z.ltb_ge in Hd.
  destruct (d =? -1) eqn:E; simpl; [discriminate|].
  intros Hc. apply Z.eqb_neq in E. rewrite Nat2Z.inj_mul, IH by assumption.
  now rewrite Z2Nat.id by lia.
Qed.

Lemma shape_size_one_unknown (l : list Z) (u : nat) :
  existsb (fun d => d <? -1) l = false ->
  count_unknown l = 1%nat ->
  Z.of_nat (shape_size (map (fun d => if d =? -1 then u else Z.to_nat d) l))
  = known_size l * Z.of_nat u.
Proof.
  unfold count_unknown, known_size.
  induction l as [|d l IH]; simpl; [discriminate|].
  intros [Hd Hl]%orb_false_iff. apply Z.ltb_ge in Hd.
  destruct (d =? -1) eqn:E; simpl.
  - intros [= Hc]. rewrite Nat2Z.inj_mul.
    assert (Hsame : map (fun d => if d =? -1 then u else Z.to_nat d) l = map Z.to_nat l).
    { clear IH Hl. induction l as [|e l IHl]; simpl in *; [reflexivity|].
      destruct (e =? -1); simpl in *; [discriminate|]. now rewrite IHl. }
    rewrite Hsame. fold (count_unknown l) in Hc.
    rewrite (shape_size_nonneg l Hl Hc). unfold known_size. lia.
  - intros Hc. apply Z.eqb_neq in E. rewrite Nat2Z.inj_mul, IH by assumption.
    rewrite Z2Nat.id by lia. ring.
Qed.

(** The shape [reshape] settles on has as many places as the array has
    elements. *)
Lemma resolve_shape_size (n : nat) (t : shape_like) (s : list nat) :
  resolve_shape n t = Ok s -> shape_size s = n.
Proof.
  unfold resolve_shape.
  destruct (existsb _ (dims_of t)) eqn:Hlow; [discriminate|].
  destruct (count_unknown (dims_of t)) as [|[|k]] eqn:Hc; [| |discriminate].
  - destruct (known_size (dims_of t) =? Z.of_nat n) eqn:E; [|discriminate].
    intros [= <-]. apply Z.eqb_eq in E.
    apply Nat2Z.inj. now rewrite shape_size_nonneg.
  - destruct (_ || _) eqn:E; [discriminate|].
    apply orb_false_iff in E as [Hk Hmod].
    apply Z.eqb_neq in Hk. apply negb_false_iff, Z.eqb_eq in Hmod.
    intros [= <-]. apply Nat2Z.inj.
    rewrite shape_size_one_unknown by assumption.
    assert (Hpos : 0 <= known_size (dims_of t)).
    { clear -Hlow. unfold known_size.
      induction (dims_of t) as [|d l IH]; simpl in *; [lia|].
      apply orb_false_iff in Hlow as [Hd Hl]. apply Z.ltb_ge in Hd.
      destruct (d =? -1) eqn:E; simpl; [auto|].
      apply Z.eqb_neq in E. specialize (IH Hl). nia. }
    rewrite Z2Nat.id by (apply Z.div_pos; lia).
    apply Z.div_exact in Hmod; lia.
Qed.

Lemma np_reshape_well_formed (a r : ndarray) (t : shape_like) :
  well_formed a -> np_reshape a t = Ok r -> well_formed r.
Proof.
  intros [Hlen Hkind]. unfold np_reshape.
  intros [s [Hs [= <-]]]%bind_eq_Ok. split; simpl; [|exact Hkind].
  symmetry. exact (resolve_shape_size _ _ _ Hs).
Qed.

(** ** [broadcast_to] *)

Lemma chunks_lengths {A : Type} (k n : nat) (l : list A) :
  length l = (n * k)%nat -> Forall (fun c => length c = k) (chunks k n l).
Proof.
  revert l. induction n as [|n IH]; intros l Hlen; simpl; constructor.
  - rewrite length_firstn. simpl in Hlen. lia.
  - apply IH. rewrite length_skipn. simpl in Hlen. lia.
Qed.

Lemma chunks_Forall {A : Type} (P : A -> Prop) (k n : nat) (l : list A) :
  Forall P l -> Forall (Forall P) (chunks k n l).
Proof.
  revert l. induction n as [|n IH]; intros l Hl; simpl; constructor.
  - now apply Forall_take.
  - apply IH. now apply Forall_drop.
Qed.

Lemma length_concat_uniform {A : Type} (k : nat) (ls : list (list A)) :
  Forall (fun c => length c = k) ls -> length (concat ls) = (length ls * k)%nat.
Proof.
  induction 1 as [|c ls Hc _ IH]; simpl; [reflexivity|].
  rewrite length_app, IH, Hc. reflexivity.
Qed.

Lemma broadcastable_length (s t : list nat) :
  broadcastable s t = true -> length s = length t.
Proof.
  unfold broadcastable. revert t.
  induction s as [|sd s IH]; intros [|td t]; simpl; try discriminate; [reflexivity|].
  intros [_ H]%andb_true_iff. f_equal. now apply IH.
Qed.

Lemma length_broadcast_data (s t : list nat) (d : list num) :
  broadcastable s t = true ->
  length d = shape_size s ->
  length (broadcast_data s t d) = shape_size t.
Proof.
  unfold broadcastable. revert t d.
  induction s as [|sd s IH]; intros [|td t] d; simpl; try discriminate; [auto|].
  intros [Hd Hs]%andb_true_iff Hlen.
  assert (Hblocks : Forall (fun c => length c = shape_size t)
                      (map (broadcast_data s t) (chunks (shape_size s) sd d))).
  { apply Forall_map.
    eapply Forall_impl; [apply chunks_lengths; exact Hlen|].
    intros c Hc. now apply IH. }
  apply length_concat_uniform in Hblocks.
  rewrite length_map, length_chunks in Hblocks.
  destruct (sd =? td)%nat eqn:E.
  - apply Nat.eqb_eq in E. now subst.
  - cbn [orb] in Hd. apply Nat.eqb_eq in Hd. subst sd.
    rewrite (length_concat_uniform (shape_size t)).
    + rewrite repeat_length. reflexivity.
    + apply List.Forall_forall. intros c ->%repeat_spec. lia.
Qed.

Lemma broadcast_data_Forall (P : num -> Prop) (s t : list nat) (d : list num) :
  Forall P d -> Forall P (broadcast_data s t d).
Proof.
  revert t d. induction s as [|sd s IH]; intros [|td t] d Hd; simpl; auto.
  assert (Hblocks : Forall P (concat (map (broadcast_data s t) (chunks (shape_size s) sd d)))).
  { apply Forall_concat, Forall_map.
    eapply Forall_impl; [apply chunks_Forall; exact Hd|].
    intros c Hc. now apply IH. }
  destruct (sd =? td)%nat; [exact Hblocks|].
  apply Forall_concat, List.Forall_forall. now intros c ->%repeat_spec.
Qed.

Lemma shape_size_ones (n : nat) (s : list nat) :
  shape_size (repeat 1%nat n ++ s) = shape_size s.
Proof. induction n as [|n IH]; simpl; [reflexivity|]. rewrite IH. lia. Qed.

Lemma np_broadcast_to_well_formed (a r : ndarray) (t : shape_like) :
  well_formed a -> np_broadcast_to a t = Ok r -> well_formed r.
Proof.
  intros [Hlen Hkind]. unfold np_broadcast_to.
  destruct (existsb _ _); [discriminate|].
  destruct (_ <? _)%nat; [discriminate|].
  destruct (broadcastable _ _) eqn:Hb; [|discriminate].
  intros [= <-]. split; simpl.
  - apply length_broadcast_data; [exact Hb|]. now rewrite shape_size_ones.
  - now apply broadcast_data_Forall.
Qed.

(** The shape [broadcast_to] returns is the one asked for. *)
Lemma np_broadcast_to_shape (a r : ndarray) (t : shape_like) :
  np_broadcast_to a t = Ok r -> shape r = map Z.to_nat (dims_of t).
Proof.
  unfold np_broadcast_to.
  destruct (existsb _ _); [discriminate|].
  destruct (_ <? _)%nat; [discriminate|].
  destruct (broadcastable _ _); [|discriminate].
  now intros [= <-].
Qed.

(** ** The cast of the input *)

Lemma nat_list_eqb_eq (s t : list nat) : nat_list_eqb s t = true -> s = t.
Proof.
  unfold nat_list_eqb. revert t.
  induction s as [|x s IH]; intros [|y t]; simpl; try discriminate; [reflexivity|].
  intros [->%Nat.eqb_eq H]%andb_true_iff. f_equal. now apply IH.
Qed.

Lemma stack_fits (parts : list found) (f : found) :
  Forall (fun p => f_numeric p = true -> length (f_data p) = shape_size (f_shape p)) parts ->
  stack parts = Ok f ->
  f_numeric f = true ->
  length (f_data f) = shape_size (f_shape f).
Proof.
  intros Hall. unfold stack. destruct parts as [|p ps]; [now intros [= <-]|].
  set (parts := p :: ps) in *. clearbody parts.
  destruct (forallb _ parts) eqn:Hshapes; [|discriminate].
  intros [= <-]; cbn [f_numeric f_data f_shape]. intros Hnum.
  rewrite (length_concat_uniform (shape_size (f_shape p))).
  - rewrite length_map. reflexivity.
  - apply Forall_map, List.Forall_forall. intros q Hq. cbn.
    rewrite forallb_forall in Hshapes, Hnum.
    rewrite List.Forall_forall in Hall.
    rewrite (Hall q Hq (Hnum q Hq)).
    now rewrite (nat_list_eqb_eq _ _ (Hshapes q Hq)).
Qed.

(** What numpy finds in a well-formed numeric input fits its shape. *)
Lemma discover_fits :
  forall (x : pyobj) (f : found),
    wf_input x -> discover x = Ok f -> f_numeric f = true ->
    length (f_data f) = shape_size (f_shape f).
Proof.
  fix IH 1. intros [v| |xs|a] f Hwf; cbn [discover].
  - now intros [= <-].
  - now intros [= <-].
  - intros [parts [Hparts Hstack]]%bind_eq_Ok. apply (stack_fits parts); [|exact Hstack].
    clear Hstack. revert parts Hparts. cbn [wf_input] in Hwf.
    induction xs as [|y l IHl]; intros parts.
    + intros [= <-]. constructor.
    + destruct Hwf as [Hy Hl]. intros [p [Hp H]]%bind_eq_Ok.
      apply bind_eq_Ok in H as [ps [Hps [= <-]]].
      constructor; [exact (IH y p Hy Hp) | exact (IHl Hl ps Hps)].
  - intros [= <-] _. exact (proj1 Hwf).
Qed.

Lemma cast_well_formed (x : pyobj) (as_any copy must_be_real : bool) (a : ndarray) :
  wf_input x -> _cast_to_numpy x as_any copy must_be_real = Ok a -> well_formed a.
Proof.
  intros Hwf.
  assert (Hseq : (let* f := discover x in
                  raise_if (negb (f_numeric f)) TypeError;;
                  let d := match f_dtype f with Some d => d | None => Float64 end in
                  raise_if (must_be_real && dtype_eqb d Complex128) TypeError;;
                  Ok (mk_ndarray d (f_shape f) (map (astype1 d) (f_data f)))) = Ok a ->
                 well_formed a).
  { intros [f [Hf H]]%bind_eq_Ok.
    apply bind_eq_Ok in H as [[] [Hnum H]].
    apply bind_eq_Ok in H as [[] [_ [= <-]]].
    unfold raise_if in Hnum. destruct (f_numeric f) eqn:E; [|discriminate].
    split; cbn [data shape dtype_of].
    - rewrite length_map. now apply (discover_fits x).
    - apply Forall_kind_astype1. }
  destruct x; try exact Hseq.
  unfold _cast_to_numpy. intros [[] [_ [= <-]]]%bind_eq_Ok. exact Hwf.
Qed.

(** ** [validate_array] *)

Lemma reshape_stage_well_formed (c : config) (a r : ndarray) :
  well_formed a -> reshape_stage c a = Ok r -> well_formed r.
Proof.
  intros Hwf. unfold reshape_stage.
  destruct (reshape_to c) as [t|]; [|now intros [= <-]].
  destruct (negb _); [|now intros [= <-]].
  now apply np_reshape_well_formed.
Qed.

Lemma broadcast_stage_well_formed (c : config) (a r : ndarray) :
  well_formed a -> broadcast_stage c a = Ok r -> well_formed r.
Proof.
  intros Hwf. unfold broadcast_stage.
  destruct (broadcast_to c) as [t|]; [|now intros [= <-]].
  destruct (negb _); [|now intros [= <-]].
  now apply np_broadcast_to_well_formed.
Qed.

Lemma cast_stage_well_formed (c : config) (a : ndarray) :
  well_formed a -> well_formed (cast_stage c a).
Proof.
  intros Hwf. unfold cast_stage. destruct (dtype_out c); [|exact Hwf].
  apply astype_well_formed, Hwf.
Qed.

Lemma validated_array_well_formed (array : pyobj) (c : config) (v : ndarray) :
  wf_input array -> validated_array array c = Ok v -> well_formed v.
Proof.
  intros Hwf H.
  apply validated_array_inv in H
    as (a & ar & ab & Hcast & _ & _ & Hreshape & Hbroadcast & _ & _ & ->).
  apply cast_stage_well_formed.
  apply (broadcast_stage_well_formed c ar); [|exact Hbroadcast].
  apply (reshape_stage_well_formed c a); [|exact Hreshape].
  exact (cast_well_formed _ _ _ _ _ Hwf Hcast).
Qed.

(** * The specialised validators called with no keyword *)

Lemma call_default (v : validator) (array : pyobj) :
  call v array ∅ = validate_array array (default_call_config v).
Proof.
  destruct v as [[]| |[]|[]|[]|[] []];
    cbn [call]; unfold validate_number, validate_data_range, validate_arrayNx3,
      validate_arrayN_uintlike, validate_arrayN, validate_array3, validate_array_kw;
    repeat run_head; reflexivity.
Qed.

(** * The shape [validate_array] returns *)

Lemma shape_eqb_eq (s : list nat) (l : list Z) :
  shape_eqb s (ShTuple l) = true -> s = map Z.to_nat l.
Proof.
  simpl. revert l.
  induction s as [|d s IH]; intros [|p l]; simpl; try discriminate; [reflexivity|].
  intros [Hd Hs]%andb_true_iff. apply Z.eqb_eq in Hd. subst p.
  rewrite Nat2Z.id. f_equal. now apply IH.
Qed.

Lemma shape_eqb_matches (s : list nat) (t : shape_like) :
  shape_eqb s t = true -> shape_matches s t = true.
Proof.
  destruct t as [n|l]; [discriminate|]. unfold shape_matches; simpl. revert l.
  induction s as [|d s IH]; intros [|p l]; simpl; try discriminate; [reflexivity|].
  intros [Hd Hs]%andb_true_iff. apply andb_true_iff. split; [|now apply IH].
  unfold dim_matches. apply Z.eqb_eq in Hd. subst p. rewrite Z.eqb_refl. apply orb_true_r.
Qed.

Lemma resolved_dims_match (f : Z -> nat) (l : list Z) :
  existsb (fun d => d <? -1) l = false ->
  (forall d, d <> -1 -> f d = Z.to_nat d) ->
  list_eqb dim_matches (map f l) l = true.
Proof.
  intros Hlow Hf. induction l as [|d l IH]; simpl in *; [reflexivity|].
  apply orb_false_iff in Hlow as [Hd Hl]. apply Z.ltb_ge in Hd.
  rewrite IH by assumption. rewrite andb_true_r. unfold dim_matches.
  destruct (d =? -1) eqn:E; [reflexivity|]. apply Z.eqb_neq in E.
  rewrite Hf by assumption. rewrite Z2Nat.id by lia. now rewrite Z.eqb_refl.
Qed.

(** The shape [reshape] settles on matches the shape asked for, a
    dimension of -1 matching any size. *)
Lemma resolve_shape_matches (n : nat) (t : shape_like) (s : list nat) :
  resolve_shape n t = Ok s -> shape_matches s t = true.
Proof.
  unfold resolve_shape, shape_matches.
  destruct (existsb _ (dims_of t)) eqn:Hlow; [discriminate|].
  destruct (count_unknown (dims_of t)) as [|[|k]]; [| |discriminate].
  - destruct (_ =? _); [|discriminate]. intros [= <-].
    now apply resolved_dims_match.
  - destruct (_ || _); [discriminate|]. intros [= <-].
    apply resolved_dims_match; [assumption|].
    intros d Hd. apply Z.eqb_neq in Hd. now rewrite Hd.
Qed.

Lemma reshape_stage_shape (c : config) (a r : ndarray) (t : shape_like) :
  reshape_to c = Some t -> reshape_stage c a = Ok r ->
  shape_matches (shape r) t = true /\ data r = data a /\ dtype_of r = dtype_of a.
Proof.
  intros Ht. unfold reshape_stage. rewrite Ht.
  destruct (shape_eqb (shape a) t) eqn:E; cbn [negb].
  - intros [= <-]. auto using shape_eqb_matches.
  - unfold np_reshape. intros [s [Hs [= <-]]]%bind_eq_Ok.
    cbn [shape data dtype_of]. eauto using resolve_shape_matches.
Qed.

Lemma broadcast_stage_shape (c : config) (a r : ndarray) (t : shape_like) :
  broadcast_to c = Some t -> broadcast_stage c a = Ok r ->
  shape r = map Z.to_nat (dims_of t).
Proof.
  intros Ht. unfold broadcast_stage. rewrite Ht.
  destruct (shape_eqb (shape a) t) eqn:E; cbn [negb].
  - intros [= <-]. destruct t as [n|l]; [discriminate|]. now apply shape_eqb_eq.
  - apply np_broadcast_to_shape.
Qed.

(** Whatever array [validate_array] returns has the shape its transforms
    lead to: the shape [broadcast_to] names if there is one; else a shape
    that matches the pattern [reshape_to] if there is one (a dimension of
    -1 matching any size); else the shape the input was cast to, which
    passed the shape check.  A change of dtype leaves the shape alone. *)
Theorem validate_array_result_shape (array : pyobj) (c : config) (r : ndarray) :
  validate_array array c = Ok (OutArray r) ->
  to_tuple c = false -> to_list c = false ->
  match broadcast_to c, reshape_to c with
  | Some t, _ => shape r = map Z.to_nat (dims_of t)
  | None, Some t => shape_matches (shape r) t = true
  | None, None =>
      when_some (must_have_shape c) (fun shp => check_shape r shp) = Ok tt
      /\ exists a, cast_of array c = Ok a /\ shape r = shape a
  end.
Proof.
  intros H Htuple Hlist.
  apply validate_array_returns_array in H as [v [[= <-] H]]; [|assumption..].
  apply validated_array_inv in H
    as (a & ar & ab & Hcast & _ & Hshape & Hreshape & Hbroadcast & _ & _ & ->).
  assert (Hout : shape (cast_stage c ab) = shape ab).
  { unfold cast_stage. now destruct (dtype_out c). }
  rewrite Hout.
  destruct (broadcast_to c) as [t|] eqn:Hb.
  - now apply (broadcast_stage_shape c ar).
  - assert (ab = ar) as ->.
    { unfold broadcast_stage in Hbroadcast. rewrite Hb in Hbroadcast. congruence. }
    destruct (reshape_to c) as [t|] eqn:Hr.
    + now apply (reshape_stage_shape c a).
    + assert (ar = a) as ->.
      { unfold reshape_stage in Hreshape. rewrite Hr in Hreshape. congruence. }
      split; [|eauto].
      destruct (must_have_shape c); [|reflexivity].
      cbn [when_some] in *. unfold check_shape in *. now rewrite Hout.
Qed.

Lemma validate_array_result_shape_witness :
  shape (int_array [2; 3]%nat [1; 2; 3; 1; 2; 3]) = map Z.to_nat (dims_of (ShTuple [2; 3])).
Proof.
  apply (validate_array_result_shape (py_ints [1; 2; 3])
           {| default_config with broadcast_to := Some (ShTuple [2; 3]) |});
    reflexivity.
Defined.

(** Without a change of dtype, the array [validate_array] returns passes
    the value checks that were asked for (it is the array they were run
    on): in particular it is finite under [must_be_finite] and has no
    negative element under [must_be_nonnegative].  If it was not broadcast
    either, its elements and dtype are those the input was cast to, in the
    same order. *)
Theorem validate_array_result_checked (array : pyobj) (c : config) (r : ndarray) :
  validate_array array c = Ok (OutArray r) ->
  to_tuple c = false -> to_list c = false -> dtype_out c = None ->
  value_stage c r = Ok tt
  /\ (must_be_finite c = true -> forallb num_isfinite (data r) = true)
  /\ (must_be_nonnegative c = true -> forallb (num_leb (NInt 0)) (data r) = true)
  /\ (broadcast_to c = None ->
      exists a, cast_of array c = Ok a /\ data r = data a /\ dtype_of r = dtype_of a).
Proof.
  intros H Htuple Hlist Hdtype.
  apply validate_array_returns_array in H as [v [[= <-] H]]; [|assumption..].
  apply validated_array_inv in H
    as (a & ar & ab & Hcast & _ & _ & Hreshape & Hbroadcast & _ & Hvalue & ->).
  unfold cast_stage. rewrite Hdtype.
  split; [exact Hvalue|].
  unfold value_stage in Hvalue.
  apply bind_eq_Ok in Hvalue as [[] [Hnonneg Hvalue]].
  apply bind_eq_Ok in Hvalue as [[] [Hfinite _]].
  split; [|split].
  - intros E. rewrite E in Hfinite. now apply check_finite_Ok.
  - intros E. rewrite E in Hnonneg. cbn [when] in Hnonneg.
    unfold check_nonnegative, raise_if in Hnonneg.
    now destruct (forallb _ (data ab)).
  - intros Hb. exists a. split; [exact Hcast|].
    assert (ab = ar) as ->.
    { unfold broadcast_stage in Hbroadcast. rewrite Hb in Hbroadcast. congruence. }
    destruct (reshape_to c) as [t|] eqn:Hr.
    + now destruct (reshape_stage_shape c a ar t Hr Hreshape) as (_ & ? & ?).
    + unfold reshape_stage in Hreshape. rewrite Hr in Hreshape.
      injection Hreshape as <-. now split.
Qed.

Lemma validate_array_result_checked_witness :
  value_stage (range_0_10 false false) (int_array [3]%nat [0; 5; 10]) = Ok tt
  /\ (must_be_finite (range_0_10 false false) = true ->
      forallb num_isfinite (data (int_array [3]%nat [0; 5; 10])) = true)
  /\ (must_be_nonnegative (range_0_10 false false) = true ->
      forallb (num_leb (NInt 0)) (data (int_array [3]%nat [0; 5; 10])) = true)
  /\ (broadcast_to (range_0_10 false false) = None ->
      exists a, cast_of (py_ints [0; 5; 10]) (range_0_10 false false) = Ok a
                /\ data (int_array [3]%nat [0; 5; 10]) = data a
                /\ dtype_of (int_array [3]%nat [0; 5; 10]) = dtype_of a).
Proof.
  apply (validate_array_result_checked (py_ints [0; 5; 10]) (range_0_10 false false));
    reflexivity.
Defined.

(** * What the specialised validators return *)

(** A specialised validator called with no keyword has cast the input,
    checked its shape, and run the stages of [validate_array] under its
    own configuration. *)
Lemma default_call_inv (v : validator) (array : pyobj) (out : output) :
  call v array ∅ = Ok out ->
  exists shp a ar ab,
    must_have_shape (default_call_config v) = Some shp
    /\ cast_of array default_config = Ok a
    /\ check_shape a shp = Ok tt
    /\ reshape_stage (default_call_config v) a = Ok ar
    /\ broadcast_stage (default_call_config v) ar = Ok ab
    /\ value_stage (default_call_config v) ab = Ok tt
    /\ out = output_stage (default_call_config v) (cast_stage (default_call_config v) ab).
Proof.
  rewrite call_default. intros [r [H ->]]%validate_array_inv.
  apply validated_array_inv in H
    as (a & ar & ab & Hcast & _ & Hshape & Hreshape & Hbroadcast & _ & Hvalue & ->).
  assert (Hsome : exists shp, must_have_shape (default_call_config v) = Some shp).
  { destruct v as [[]| |[]|[]|[]|[] []]; eexists; reflexivity. }
  destruct Hsome as [shp Hsome]. rewrite Hsome in Hshape.
  exists shp, a, ar, ab. split; [exact Hsome|]. split.
  { rewrite <- Hcast. now destruct v as [[]| |[]|[]|[]|[] []]. }
  auto 10.
Qed.

Lemma cast_real (x : pyobj) (as_any copy : bool) (a : ndarray) :
  _cast_to_numpy x as_any copy true = Ok a -> dtype_of a <> Complex128.
Proof.
  assert (Hseq : (let* f := discover x in
                  raise_if (negb (f_numeric f)) TypeError;;
                  let d := match f_dtype f with Some d => d | None => Float64 end in
                  raise_if (true && dtype_eqb d Complex128) TypeError;;
                  Ok (mk_ndarray d (f_shape f) (map (astype1 d) (f_data f)))) = Ok a ->
                 dtype_of a <> Complex128).
  { intros [f [_ H]]%bind_eq_Ok.
    apply bind_eq_Ok in H as [[] [_ H]].
    apply bind_eq_Ok in H as [[] [Hreal [= <-]]]. cbn [dtype_of].
    intros E. rewrite E in Hreal. discriminate. }
  destruct x; try exact Hseq.
  unfold _cast_to_numpy. intros [[] [Hreal [= <-]]]%bind_eq_Ok.
  intros E. rewrite E in Hreal. discriminate.
Qed.

Lemma shape_matches_flat (s : list nat) :
  shape_matches s (ShInt (-1)) = true -> exists n, s = [n].
Proof.
  unfold shape_matches; simpl. destruct s as [|n [|m s]]; simpl; try discriminate; eauto.
Qed.

Lemma shape_matches_Nx3 (s : list nat) :
  shape_matches s (ShTuple [-1; 3]) = true -> exists n, s = [n; 3%nat].
Proof.
  unfold shape_matches; simpl.
  destruct s as [|n [|m [|k s]]]; cbn [list_eqb]; try discriminate;
    rewrite ?andb_false_r; try discriminate.
  intros [_ H]%andb_true_iff. rewrite andb_true_r in H.
  unfold dim_matches in H. apply orb_true_iff in H as [H|H]; [discriminate|].
  apply Z.eqb_eq in H. exists n. do 2 f_equal. lia.
Qed.

Lemma shape_matches_exact (s : list nat) (t : shape_like) :
  Forall (fun p => 0 <= p) (dims_of t) ->
  shape_matches s t = true -> s = map Z.to_nat (dims_of t).
Proof.
  unfold shape_matches. generalize (dims_of t) as l. intros l Hl. revert s.
  induction Hl as [|p l Hp _ IH]; intros [|d s]; simpl; try discriminate; [reflexivity|].
  intros [Hd Hs]%andb_true_iff. rewrite <- (IH s Hs). f_equal.
  unfold dim_matches in Hd. apply orb_true_iff in Hd as [Hd|Hd]; apply Z.eqb_eq in Hd; lia.
Qed.

(** The shape of an array that passed [check_shape] on patterns without
    wildcard is one of the patterns. *)
Ltac shape_cases H :=
  let p := fresh "p" in
  let Hp := fresh "Hp" in
  let Hm := fresh "Hm" in
  apply check_shape_Ok in H as [p [Hp Hm]];
  cbn [alternatives app] in Hp;
  repeat (destruct Hp as [<-|Hp];
          [apply shape_matches_exact in Hm;
           [cbv [map dims_of Z.to_nat Pos.to_nat Pos.iter_op Nat.add] in Hm
           |repeat constructor; lia]|]);
  try contradiction.

Lemma reshape_stage_dtype (c : config) (a r : ndarray) :
  reshape_stage c a = Ok r -> dtype_of r = dtype_of a /\ data r = data a.
Proof.
  unfold reshape_stage. destruct (reshape_to c); [|now intros [= <-]].
  destruct (negb _); [|now intros [= <-]].
  unfold np_reshape. now intros [s' [_ [= <-]]]%bind_eq_Ok.
Qed.

Lemma broadcast_stage_dtype (c : config) (a r : ndarray) :
  broadcast_stage c a = Ok r -> dtype_of r = dtype_of a.
Proof.
  unfold broadcast_stage. destruct (broadcast_to c); [|now intros [= <-]].
  destruct (negb _); [|now intros [= <-]].
  unfold np_broadcast_to.
  destruct (existsb _ _); [discriminate|].
  destruct (_ <? _)%nat; [discriminate|].
  destruct (broadcastable _ _); [|discriminate].
  now intros [= <-].
Qed.

(** ** Validating a result again *)

Lemma array3_fixed_point (d : dtype) (e0 e1 e2 : num) (reshape broadcast : bool) :
  d <> Complex128 ->
  validate_array3 (PyArray (mk_ndarray d [3%nat] [e0; e1; e2])) reshape broadcast ∅
  = Ok (OutArray (mk_ndarray d [3%nat] [e0; e1; e2])).
Proof.
  intros Hd. change (validate_array3 ?x reshape broadcast ∅)
    with (call (Array3 reshape broadcast) x ∅).
  rewrite call_default.
  destruct d; try contradiction; destruct reshape, broadcast; reflexivity.
Qed.

Lemma arrayN_fixed_point (d : dtype) (l : list num) (reshape : bool) :
  d <> Complex128 ->
  validate_arrayN (PyArray (mk_ndarray d [length l] l)) reshape ∅
  = Ok (OutArray (mk_ndarray d [length l] l)).
Proof.
  intros Hd. change (validate_arrayN ?x reshape ∅) with (call (ArrayN reshape) x ∅).
  rewrite call_default.
  destruct reshape;
    [apply (validate_array_accepts _ (default_call_config (ArrayN true))
              (mk_ndarray d [length l] l))
    |apply (validate_array_accepts _ (default_call_config (ArrayN false))
              (mk_ndarray d [length l] l))];
    try reflexivity; try (destruct d; try contradiction; reflexivity).
  unfold reshape_stage; cbn [reshape_to default_call_config arrayN_config shape_eqb negb].
  now rewrite np_reshape_flatten.
Qed.

Lemma arrayNx3_fixed_point (d : dtype) (n : nat) (l : list num) (reshape : bool) :
  d <> Complex128 ->
  length l = (n * 3)%nat ->
  validate_arrayNx3 (PyArray (mk_ndarray d [n; 3%nat] l)) reshape ∅
  = Ok (OutArray (mk_ndarray d [n; 3%nat] l)).
Proof.
  intros Hd Hlen.
  change (validate_arrayNx3 ?x reshape ∅) with (call (ArrayNx3 reshape) x ∅).
  rewrite call_default.
  assert (Hdim : forall p, dim_matches n (-1) && (dim_matches 3 3 && p) = p).
  { intros p. unfold dim_matches. now rewrite Z.eqb_refl, orb_true_r. }
  assert (Hshape : forall reshape,
             when_some (must_have_shape (default_call_config (ArrayNx3 reshape)))
               (fun shp => check_shape (mk_ndarray d [n; 3%nat] l) shp) = Ok tt).
  { intros []; cbn [must_have_shape default_call_config when_some];
      unfold check_shape, shape_matches;
      cbn [alternatives existsb shape dims_of list_eqb]; rewrite Hdim;
      now rewrite ?andb_false_r. }
  destruct reshape;
    [apply (validate_array_accepts _ (default_call_config (ArrayNx3 true))
              (mk_ndarray d [n; 3%nat] l))
    |apply (validate_array_accepts _ (default_call_config (ArrayNx3 false))
              (mk_ndarray d [n; 3%nat] l))];
    try apply Hshape; try reflexivity; try (destruct d; try contradiction; reflexivity).
  - unfold reshape_stage; cbn [reshape_to default_call_config shape shape_eqb list_eqb].
    assert (E : (Z.of_nat n =? -1) = false) by (apply Z.eqb_neq; lia).
    rewrite E; cbn [andb negb]. unfold np_reshape, resolve_shape; cbn [data dims_of].
    rewrite Hlen.
    change (existsb _ [-1; 3]) with false. change (count_unknown [-1; 3]) with 1%nat.
    change (known_size [-1; 3]) with 3. cbn [Z.eqb orb].
    assert (Hmod : Z.of_nat (n * 3) mod 3 = 0) by (rewrite Nat2Z.inj_mul; apply Z_mod_mult).
    assert (Hdiv : Z.of_nat (n * 3) / 3 = Z.of_nat n)
      by (rewrite Nat2Z.inj_mul; apply Z_div_mult; lia).
    rewrite Hmod, Hdiv; cbn [Z.eqb negb bind map]. rewrite Nat2Z.id. reflexivity.
Qed.

(** [validate_array3], called with no keyword, returns a real array of
    shape (3,) with exactly three elements, whichever of [reshape] and
    [broadcast] are set; validated again in the same way, the result comes
    back unchanged. *)
Theorem array3_returns_three_elements (array : pyobj) (reshape broadcast : bool)
    (out : output) :
  wf_input array ->
  validate_array3 array reshape broadcast ∅ = Ok out ->
  exists d e0 e1 e2,
    out = OutArray (mk_ndarray d [3%nat] [e0; e1; e2])
    /\ d <> Complex128
    /\ validate_array3 (PyArray (mk_ndarray d [3%nat] [e0; e1; e2])) reshape broadcast ∅
       = Ok out.
Proof.
  intros Hwf H. change (call (Array3 reshape broadcast) array ∅ = Ok out) in H.
  apply default_call_inv in H
    as (shp & a & ar & ab & [= <-] & Hcast & Hshape & Hreshape & Hbroadcast & _ & ->).
  pose proof (cast_well_formed _ _ _ _ _ Hwf Hcast) as Hwa.
  pose proof (reshape_stage_well_formed _ _ _ Hwa Hreshape) as Hwr.
  pose proof (broadcast_stage_well_formed _ _ _ Hwr Hbroadcast) as [Hlen _].
  apply (cast_real array true false) in Hcast.
  destruct (reshape_stage_dtype _ _ _ Hreshape) as [Hdr Hdata].
  pose proof (broadcast_stage_dtype _ _ _ Hbroadcast) as Hdb.
  change (output_stage _ _) with (OutArray ab).
  assert (Hs : shape ab = [3%nat]).
  { destruct broadcast.
    - exact (broadcast_stage_shape (default_call_config (Array3 reshape true)) ar ab
               (ShTuple [3]) eq_refl Hbroadcast).
    - injection Hbroadcast as <-. destruct reshape.
      + destruct (reshape_stage_shape (default_call_config (Array3 true false)) a ar
                    (ShInt (-1)) eq_refl Hreshape)
          as ([n Hn]%shape_matches_flat & _ & _).
        destruct Hwa as [Hla _]. rewrite Hn in Hlen. cbn in Hlen.
        rewrite Hdata, Hla in Hlen.
        shape_cases Hshape; rewrite Hm in Hlen; cbn in Hlen;
          rewrite Hn; f_equal; lia.
      + injection Hreshape as <-. now shape_cases Hshape. }
  destruct ab as [d s l]; cbn [shape data dtype_of] in *. subst s.
  destruct l as [|e0 [|e1 [|e2 [|e3 l]]]]; try discriminate Hlen.
  assert (Hd : d <> Complex128) by congruence.
  exists d, e0, e1, e2. split; [reflexivity|]. split; [exact Hd|].
  now apply array3_fixed_point.
Qed.

Lemma array3_returns_three_elements_witness :
  exists d e0 e1 e2,
    OutArray (int_array [3]%nat [7; 7; 7]) = OutArray (mk_ndarray d [3%nat] [e0; e1; e2])
    /\ d <> Complex128
    /\ validate_array3 (PyArray (mk_ndarray d [3%nat] [e0; e1; e2])) true true ∅
       = Ok (OutArray (int_array [3]%nat [7; 7; 7])).
Proof.
  apply (array3_returns_three_elements (PyNum (NInt 7)) true true).
  - exact I.
  - vm_compute. reflexivity.
Defined.

(** The call of a specialised validator with no keyword, taken apart, with
    the well-formedness of the array at each stage. *)
Ltac default_call v array H Hwf :=
  lazymatch type of H with _ = ?r => change (call v array ∅ = r) in H end;
  apply default_call_inv in H
    as (?shp & ?a & ?ar & ?ab & Hshp & Hcast & Hshape & Hreshape & Hbroadcast
        & Hvalue & ->);
  pose proof (cast_well_formed _ _ _ _ _ Hwf Hcast) as Hwa;
  pose proof (reshape_stage_well_formed _ _ _ Hwa Hreshape) as Hwr;
  pose proof (broadcast_stage_well_formed _ _ _ Hwr Hbroadcast) as Hwb;
  pose proof (cast_real _ true false _ Hcast) as Hreal.

Lemma kind_real (x : num) : kind x <> Complex128 -> is_complex x = false.
Proof. destruct x; simpl; congruence. Qed.

(** [validate_number], called with no keyword, returns a bare scalar (no
    list around it, although it asks [validate_array] for a list) that is
    finite and real, with [reshape] set or not. *)
Theorem number_returns_finite_scalar (num : pyobj) (reshape : bool) (out : output) :
  wf_input num ->
  validate_number num reshape ∅ = Ok out ->
  exists x, out = OutNested (TNum x) /\ num_isfinite x = true /\ is_complex x = false.
Proof.
  intros Hwf H. default_call (Number reshape) num H Hwf.
  assert (ab = ar) as ->.
  { destruct reshape; now injection Hbroadcast as <-. }
  destruct (reshape_stage_dtype _ _ _ Hreshape) as [Hdr _].
  assert (Hs : shape ar = []).
  { destruct reshape; injection Hshp as <-.
    - destruct (reshape_stage_shape (default_call_config (Number true)) a ar
                  (ShTuple []) eq_refl Hreshape) as (Hm & _ & _).
      now apply shape_matches_exact in Hm; [|constructor].
    - injection Hreshape as <-. now shape_cases Hshape. }
  assert (Hfinite : forallb num_isfinite (data ar) = true).
  { unfold value_stage in Hvalue.
    apply bind_eq_Ok in Hvalue as [[] [_ Hvalue]].
    apply bind_eq_Ok in Hvalue as [[] [Hfinite _]].
    apply check_finite_Ok. now destruct reshape. }
  assert (Hout : output_stage (default_call_config (Number reshape))
                   (cast_stage (default_call_config (Number reshape)) ar)
                 = OutNested (tolist ar)) by now destruct reshape.
  rewrite Hout. clear Hout Hvalue Hreshape Hbroadcast Hshape.
  destruct Hwr as [Hlen Hkind]. unfold tolist.
  destruct ar as [d s l]; cbn [shape data dtype_of] in *. subst s.
  destruct l as [|x [|y l]]; try discriminate Hlen.
  exists x. split; [reflexivity|]. split.
  - cbn in Hfinite. now rewrite andb_true_r in Hfinite.
  - apply kind_real. inversion Hkind; subst. congruence.
Qed.

Lemma number_returns_finite_scalar_witness :
  exists x, OutNested (TNum (NFloat 2.5)) = OutNested (TNum x)
            /\ num_isfinite x = true /\ is_complex x = false.
Proof.
  apply (number_returns_finite_scalar (PySeq [PyNum (NFloat 2.5)]) true).
  - cbn. auto.
  - vm_compute. reflexivity.
Defined.

Lemma check_sorted_pair (d : dtype) (lo hi : num) :
  check_sorted (mk_ndarray d [2%nat] [lo; hi]) true false (-1)
  = raise_if (negb (num_leb lo hi)) ValueError.
Proof.
  unfold check_sorted, lanes, raise_if.
  change (forallb _ _) with (num_leb lo hi && true && true).
  now rewrite !andb_true_r.
Qed.

(** [validate_data_range], called with no keyword, returns a tuple of
    exactly two numbers, the first not greater than the second. *)
Theorem data_range_returns_sorted_pair (rng : pyobj) (out : output) :
  wf_input rng ->
  validate_data_range rng ∅ = Ok out ->
  exists lo hi, out = OutNested (TTuple [TNum lo; TNum hi]) /\ num_leb lo hi = true.
Proof.
  intros Hwf H. default_call DataRange rng H Hwf.
  injection Hshp as <-. injection Hreshape as <-. injection Hbroadcast as <-.
  shape_cases Hshape.
  change (output_stage _ _) with (OutNested (_cast_to_tuple a)).
  destruct Hwa as [Hlen _]. unfold _cast_to_tuple.
  destruct a as [d s l]; cbn [shape data dtype_of] in *. subst s.
  destruct l as [|lo [|hi [|z l]]]; try discriminate Hlen.
  exists lo, hi. split; [reflexivity|].
  destruct (num_leb lo hi) eqn:E; [reflexivity|].
  unfold value_stage in Hvalue. cbn in Hvalue.
  rewrite check_sorted_pair, E in Hvalue. discriminate.
Qed.

Lemma data_range_returns_sorted_pair_witness :
  exists lo hi,
    OutNested (TTuple [TNum (NInt (-5)); TNum (NInt 5)]) = OutNested (TTuple [TNum lo; TNum hi])
    /\ num_leb lo hi = true.
Proof.
  apply (data_range_returns_sorted_pair (py_ints [-5; 5])).
  - cbn. auto.
  - vm_compute. reflexivity.
Defined.

(** [validate_arrayN], called with no keyword, returns a real
    one-dimensional array that holds the elements the input was cast to,
    in their order; validated again in the same way, the result comes back
    unchanged. *)
Theorem arrayN_returns_one_dimension (array : pyobj) (reshape : bool) (out : output) :
  wf_input array ->
  validate_arrayN array reshape ∅ = Ok out ->
  exists a,
    cast_of array default_config = Ok a
    /\ out = OutArray (mk_ndarray (dtype_of a) [length (data a)] (data a))
    /\ dtype_of a <> Complex128
    /\ validate_arrayN (PyArray (mk_ndarray (dtype_of a) [length (data a)] (data a)))
         reshape ∅
       = Ok (OutArray (mk_ndarray (dtype_of a) [length (data a)] (data a))).
Proof.
  intros Hwf H. default_call (ArrayN reshape) array H Hwf.
  exists a. split; [exact Hcast|].
  split; [|split; [exact Hreal|now apply arrayN_fixed_point]].
  assert (ab = ar) as ->.
  { destruct reshape; now injection Hbroadcast as <-. }
  destruct (reshape_stage_dtype _ _ _ Hreshape) as [Hdr Hdata].
  assert (Hs : exists n, shape ar = [n]).
  { destruct reshape; injection Hshp as <-.
    - destruct (reshape_stage_shape (default_call_config (ArrayN true)) a ar
                  (ShInt (-1)) eq_refl Hreshape) as (Hm & _ & _).
      now apply shape_matches_flat.
    - injection Hreshape as <-.
      apply check_shape_Ok in Hshape as [p [[<-|[]] Hm]]. now apply shape_matches_flat. }
  destruct Hs as [n Hn]. destruct Hwr as [Hlen _]. rewrite Hn in Hlen. cbn in Hlen.
  assert (Hout : output_stage (default_call_config (ArrayN reshape))
                   (cast_stage (default_call_config (ArrayN reshape)) ar)
                 = OutArray ar) by now destruct reshape.
  rewrite Hout. f_equal. destruct ar as [d s l]; cbn [shape data dtype_of] in *.
  subst. f_equal. f_equal. lia.
Qed.

Lemma arrayN_returns_one_dimension_witness :
  exists a,
    cast_of (PySeq [py_ints [1; 2; 3]]) default_config = Ok a
    /\ OutArray (int_array [3]%nat [1; 2; 3])
       = OutArray (mk_ndarray (dtype_of a) [length (data a)] (data a))
    /\ dtype_of a <> Complex128
    /\ validate_arrayN (PyArray (mk_ndarray (dtype_of a) [length (data a)] (data a)))
         true ∅
       = Ok (OutArray (mk_ndarray (dtype_of a) [length (data a)] (data a))).
Proof.
  apply (arrayN_returns_one_dimension (PySeq [py_ints [1; 2; 3]]) true).
  - cbn. auto.
  - vm_compute. reflexivity.
Defined.

(** [validate_arrayNx3], called with no keyword, returns a real array of
    shape (N, 3) that holds the elements the input was cast to, in their
    order: N rows of three; validated again in the same way, the result
    comes back unchanged. *)
Theorem arrayNx3_returns_rows_of_three (array : pyobj) (reshape : bool) (out : output) :
  wf_input array ->
  validate_arrayNx3 array reshape ∅ = Ok out ->
  exists a n,
    cast_of array default_config = Ok a
    /\ out = OutArray (mk_ndarray (dtype_of a) [n; 3%nat] (data a))
    /\ length (data a) = (n * 3)%nat
    /\ dtype_of a <> Complex128
    /\ validate_arrayNx3 (PyArray (mk_ndarray (dtype_of a) [n; 3%nat] (data a))) reshape ∅
       = Ok (OutArray (mk_ndarray (dtype_of a) [n; 3%nat] (data a))).
Proof.
  intros Hwf H. default_call (ArrayNx3 reshape) array H Hwf.
  assert (ab = ar) as ->.
  { destruct reshape; now injection Hbroadcast as <-. }
  destruct (reshape_stage_dtype _ _ _ Hreshape) as [Hdr Hdata].
  assert (Hs : exists n, shape ar = [n; 3%nat]).
  { destruct reshape; injection Hshp as <-.
    - destruct (reshape_stage_shape (default_call_config (ArrayNx3 true)) a ar
                  (ShTuple [-1; 3]) eq_refl Hreshape) as (Hm & _ & _).
      now apply shape_matches_Nx3.
    - injection Hreshape as <-.
      apply check_shape_Ok in Hshape as [p [[<-|[]] Hm]]. now apply shape_matches_Nx3. }
  destruct Hs as [n Hn]. destruct Hwr as [Hlen _]. rewrite Hn in Hlen. cbn in Hlen.
  exists a, n. split; [exact Hcast|].
  assert (Hout : output_stage (default_call_config (ArrayNx3 reshape))
                   (cast_stage (default_call_config (ArrayNx3 reshape)) ar)
                 = OutArray ar) by now destruct reshape.
  assert (Hl : length (data a) = (n * 3)%nat) by (rewrite <- Hdata; lia).
  rewrite Hout.
  split; [|split; [exact Hl|split; [exact Hreal|now apply arrayNx3_fixed_point]]].
  f_equal. destruct ar as [d s l]; cbn [shape data dtype_of] in *. now subst.
Qed.

Lemma arrayNx3_returns_rows_of_three_witness :
  exists a n,
    cast_of (py_ints [1; 2; 3]) default_config = Ok a
    /\ OutArray (int_array [1; 3]%nat [1; 2; 3])
       = OutArray (mk_ndarray (dtype_of a) [n; 3%nat] (data a))
    /\ length (data a) = (n * 3)%nat
    /\ dtype_of a <> Complex128
    /\ validate_arrayNx3 (PyArray (mk_ndarray (dtype_of a) [n; 3%nat] (data a))) true ∅
       = Ok (OutArray (mk_ndarray (dtype_of a) [n; 3%nat] (data a))).
Proof.
  apply (arrayNx3_returns_rows_of_three (py_ints [1; 2; 3]) true).
  - cbn. auto.
  - vm_compute. reflexivity.
Defined.

Lemma astype_int64 (l : list num) :
  map (astype1_wrapping Int64) l
  = map NInt (map (fun x => match astype1_wrapping Int64 x with NInt z => z | _ => 0 end) l).
Proof. rewrite map_map. apply map_ext. intros x. now destruct x. Qed.

(** [validate_arrayN_uintlike], called with no keyword, returns a
    one-dimensional int64 array, with as many elements as the input; when
    the input was cast to booleans or to int64 integers (every integer
    below 2^63: numpy stores a greater one as uint64, and the cast to
    int64 wraps it around), no element of the result is negative. *)
Theorem uintlike_returns_int64_vector (array : pyobj) (reshape : bool) (out : output) :
  wf_input array ->
  validate_arrayN_uintlike array reshape ∅ = Ok out ->
  exists a zs,
    cast_of array default_config = Ok a
    /\ out = OutArray (int_array [length zs] zs)
    /\ length zs = length (data a)
    /\ (dtype_of a <> Float64 ->
        Forall (fun x => forall z, as_Z x = Some z -> z < 2 ^ 63) (data a) ->
        Forall (fun z => 0 <= z < 2 ^ 63) zs).
Proof.
  intros Hwf H. default_call (ArrayN_uintlike reshape) array H Hwf.
  assert (ab = ar) as ->.
  { destruct reshape; now injection Hbroadcast as <-. }
  destruct (reshape_stage_dtype _ _ _ Hreshape) as [Hdr Hdata].
  assert (Hs : exists n, shape ar = [n]).
  { destruct reshape; injection Hshp as <-.
    - destruct (reshape_stage_shape (default_call_config (ArrayN_uintlike true)) a ar
                  (ShInt (-1)) eq_refl Hreshape) as (Hm & _ & _).
      now apply shape_matches_flat.
    - injection Hreshape as <-.
      apply check_shape_Ok in Hshape as [p [[<-|[]] Hm]]. now apply shape_matches_flat. }
  destruct Hs as [n Hn]. destruct Hwr as [Hlen Hkind]. rewrite Hn in Hlen. cbn in Hlen.
  assert (Hnonneg : forallb (num_leb (NInt 0)) (data ar) = true).
  { unfold value_stage in Hvalue.
    apply bind_eq_Ok in Hvalue as [[] [Hnonneg _]].
    assert (E : must_be_nonnegative (default_call_config (ArrayN_uintlike reshape)) = true)
      by now destruct reshape.
    rewrite E in Hnonneg. cbn [when] in Hnonneg.
    unfold check_nonnegative, raise_if in Hnonneg. now destruct (forallb _ (data ar)). }
  exists a, (map (fun x => match astype1_wrapping Int64 x with NInt z => z | _ => 0 end)
                 (data ar)).
  split; [exact Hcast|].
  assert (Hout : output_stage (default_call_config (ArrayN_uintlike reshape))
                   (cast_stage (default_call_config (ArrayN_uintlike reshape)) ar)
                 = OutArray (astype Int64 ar)) by now destruct reshape.
  rewrite Hout. unfold astype, int_array. rewrite <- astype_int64, length_map, Hn.
  split; [do 3 f_equal; lia|]. split; [now rewrite Hdata|].
  intros Hint Hrange. rewrite <- Hdr in Hint, Hreal. rewrite <- Hdata in Hrange.
  rewrite forallb_forall in Hnonneg.
  rewrite List.Forall_forall in Hkind, Hrange.
  apply List.Forall_forall. intros z [x [<- Hx]]%in_map_iff.
  specialize (Hnonneg x Hx). specialize (Hkind x Hx). specialize (Hrange x Hx).
  destruct x as [b|z|f|re im]; cbn in Hkind; try congruence.
  - destruct b; cbn; lia.
  - cbn. apply Z.leb_le in Hnonneg. specialize (Hrange z eq_refl).
    rewrite (proj1 (wrap_int64_small z)); unfold int64_min; lia.
Qed.

Lemma uintlike_returns_int64_vector_witness :
  exists a zs,
    cast_of (py_ints [1; 2]) default_config = Ok a
    /\ OutArray (int_array [2]%nat [1; 2]) = OutArray (int_array [length zs] zs)
    /\ length zs = length (data a)
    /\ (dtype_of a <> Float64 ->
        Forall (fun x => forall z, as_Z x = Some z -> z < 2 ^ 63) (data a) ->
        Forall (fun z => 0 <= z < 2 ^ 63) zs).
Proof.
  apply (uintlike_returns_int64_vector (py_ints [1; 2]) true).
  - cbn. auto.
  - vm_compute. reflexivity.
Defined.

(** ** Scalars *)

(** With [broadcast=True], [validate_array3] turns a real scalar, and a
    sequence holding one real scalar, into the array of three copies of
    it; without, it refuses both with [ValueError]. *)
Theorem array3_broadcasts_scalar (x : num) (reshape : bool) :
  is_complex x = false ->
  validate_array3 (PyNum x) reshape true ∅
  = Ok (OutArray (mk_ndarray (kind x) [3%nat] [x; x; x]))
  /\ validate_array3 (PySeq [PyNum x]) reshape true ∅
     = Ok (OutArray (mk_ndarray (kind x) [3%nat] [x; x; x]))
  /\ validate_array3 (PyNum x) reshape false ∅ = Err ValueError
  /\ validate_array3 (PySeq [PyNum x]) reshape false ∅ = Err ValueError.
Proof.
  intros Hreal.
  change (validate_array3 ?a reshape ?b ∅) with (call (Array3 reshape b) a ∅).
  rewrite !call_default.
  destruct x; try discriminate; destruct reshape; repeat split; reflexivity.
Qed.

Lemma array3_broadcasts_scalar_witness :
  validate_array3 (PyNum (NFloat 0.5)) true true ∅
  = Ok (OutArray (mk_ndarray (kind (NFloat 0.5)) [3%nat] [NFloat 0.5; NFloat 0.5; NFloat 0.5]))
  /\ validate_array3 (PySeq [PyNum (NFloat 0.5)]) true true ∅
     = Ok (OutArray (mk_ndarray (kind (NFloat 0.5)) [3%nat]
                       [NFloat 0.5; NFloat 0.5; NFloat 0.5]))
  /\ validate_array3 (PyNum (NFloat 0.5)) true false ∅ = Err ValueError
  /\ validate_array3 (PySeq [PyNum (NFloat 0.5)]) true false ∅ = Err ValueError.
Proof. apply array3_broadcasts_scalar. reflexivity. Defined.

Lemma finite_scalar_checked (d : dtype) (s : list nat) (x : num) :
  check_finite (mk_ndarray d s [x]) = raise_if (negb (num_isfinite x)) ValueError.
Proof. unfold check_finite; cbn [data forallb]. now rewrite andb_true_r. Qed.

(** [validate_number] returns a real scalar as it is when it is finite
    and raises [ValueError] when it is not; a sequence holding one finite
    real number is unwrapped with [reshape=True] and refused with
    [ValueError] with [reshape=False]. *)
Theorem number_scalar_and_singleton (x : num) (reshape : bool) :
  is_complex x = false ->
  validate_number (PyNum x) reshape ∅
  = (if num_isfinite x then Ok (OutNested (TNum x)) else Err ValueError)
  /\ validate_number (PySeq [PyNum x]) true ∅
     = (if num_isfinite x then Ok (OutNested (TNum x)) else Err ValueError)
  /\ validate_number (PySeq [PyNum x]) false ∅ = Err ValueError.
Proof.
  intros Hreal.
  change (validate_number ?a ?r ∅) with (call (Number r) a ∅).
  rewrite !call_default, !validate_array_stages.
  assert (Hcast : forall c, must_be_real c = true ->
            cast_of (PyNum x) c = Ok (mk_ndarray (kind x) [] [x])
            /\ cast_of (PySeq [PyNum x]) c = Ok (mk_ndarray (kind x) [1%nat] [x])).
  { intros c Hc. unfold cast_of. rewrite Hc. destruct x; try discriminate; now split. }
  assert (Hvalue : forall reshape s,
            value_stage (default_call_config (Number reshape)) (mk_ndarray (kind x) s [x])
            = raise_if (negb (num_isfinite x)) ValueError).
  { intros r s. unfold value_stage.
    replace (must_be_finite (default_call_config (Number r))) with true by now destruct r.
    cbn [when]. rewrite finite_scalar_checked.
    destruct r, (num_isfinite x); reflexivity. }
  split; [|split].
  - destruct (Hcast (default_call_config (Number reshape))) as [-> _];
      [now destruct reshape|].
    destruct reshape;
      match goal with
      | |- ?l = _ =>
          change l with (value_stage (default_call_config (Number true))
                           (mk_ndarray (kind x) [] [x]);;
                         Ok (OutNested (TNum x)))
          || change l with (value_stage (default_call_config (Number false))
                              (mk_ndarray (kind x) [] [x]);;
                            Ok (OutNested (TNum x)))
      end;
      rewrite Hvalue; destruct (num_isfinite x); reflexivity.
  - destruct (Hcast (default_call_config (Number true))) as [_ ->]; [reflexivity|].
    match goal with
    | |- ?l = _ =>
        change l with (value_stage (default_call_config (Number true))
                         (mk_ndarray (kind x) [] [x]);;
                       Ok (OutNested (TNum x)))
    end.
    rewrite Hvalue. destruct (num_isfinite x); reflexivity.
  - destruct (Hcast (default_call_config (Number false))) as [_ ->]; [reflexivity|].
    reflexivity.
Qed.

Lemma number_scalar_and_singleton_witness :
  validate_number (PyNum (NFloat infinity)) true ∅
  = (if num_isfinite (NFloat infinity) then Ok (OutNested (TNum (NFloat infinity)))
     else Err ValueError)
  /\ validate_number (PySeq [PyNum (NFloat infinity)]) true ∅
     = (if num_isfinite (NFloat infinity) then Ok (OutNested (TNum (NFloat infinity)))
        else Err ValueError)
  /\ validate_number (PySeq [PyNum (NFloat infinity)]) false ∅ = Err ValueError.
Proof. apply number_scalar_and_singleton. reflexivity. Defined.

(** * The two transform validators together *)

(** On a finite input, [validate_transform4x4] is [validate_transform3x3]
    followed by the embedding into the 4x4 identity: whenever the 3x3
    validator accepts a transform with a finite result, the 4x4 validator
    accepts it as well and returns that result in the top-left block of
    the identity. *)
Theorem transform4x4_embeds_transform3x3 (transform : transform_like) (name : string)
    (r3 : ndarray) :
  validate_transform3x3 transform name = Ok r3 ->
  forallb num_isfinite (data r3) = true ->
  validate_transform4x4 transform name = Ok (embedded_in_identity r3).
Proof.
  destruct transform as [m|m|m|x]; intros H Hfinite.
  - discriminate H.
  - injection H as <-. reflexivity.
  - discriminate H.
  - unfold validate_transform3x3 in H; cbn [check_string bind as_pyobj] in H.
    fold transform3x3_config in H. rewrite transform3x3_config_run in H.
    destruct (cast_of x default_config) as [a|[]] eqn:Hcast; cbn [bind] in H;
      try discriminate H.
    destruct (check_shape a _) as [[]|[]] eqn:Hshape; cbn [bind] in H;
      try discriminate H.
    injection H as <-. apply check_shape_3x3 in Hshape.
    unfold validate_transform4x4; cbn [check_string bind].
    fold transform4x4_config. rewrite transform4x4_config_run, Hcast; cbn [bind].
    unfold check_shape, check_finite. rewrite Hshape, Hfinite.
    cbn [alternatives existsb]. change (shape_matches _ (ShTuple [3; 3])) with true.
    cbn [orb negb raise_if bind as_ndarray]. rewrite Hshape. reflexivity.
Qed.

Lemma transform4x4_embeds_transform3x3_witness :
  validate_transform4x4
    (NotVtk (PySeq [py_ints [0; -1; 0]; py_ints [1; 0; 0]; py_ints [0; 0; 1]])) "transform"
  = Ok (embedded_in_identity (int_array [3; 3]%nat [0; -1; 0; 1; 0; 0; 0; 0; 1])).
Proof.
  apply transform4x4_embeds_transform3x3; reflexivity.
Defined.

(** * [validate_axes]: one array or its rows *)

(** The call with a single array, step by step. *)
Lemma validate_axes_one_array (x : pyobj) (normalize must_be_orthogonal : bool)
    (must_have_orientation : option string) (name : string) :
  validate_axes [x] normalize must_be_orthogonal must_have_orientation name =
  (when_some must_have_orientation (fun o => check_contains o ["right"; "left"]%string);;
   let* out := validate_array x axes_array_config in
   let* A := as_ndarray out in
   let* vector2 :=
     if bool_decide (first_dim A = Some 3%nat) then Ok (row A 2)
     else match must_have_orientation with
          | None => Err ValueError
          | Some o =>
              if String.eqb o "right" then np_cross (row A 0) (row A 1)
              else np_cross (row A 1) (row A 0)
          end in
   let* axes_array := np_vstack [row A 0; row A 1; vector2] in
   frame_checks axes_array normalize must_be_orthogonal must_have_orientation).
Proof.
  unfold validate_axes.
  destruct (when_some must_have_orientation _); [cbn [bind]|reflexivity].
  cbn [length existsb Nat.eqb orb negb raise_if bind]. fold axes_array_config.
  destruct (validate_array x axes_array_config) as [out|]; [cbn [bind]|reflexivity].
  destruct (as_ndarray out) as [A|]; [cbn [bind]|reflexivity].
  destruct (bool_decide (first_dim A = Some 3%nat)); reflexivity.
Qed.

Lemma astype1_float (x : num) : kind x = Float64 -> exists f, x = NFloat f.
Proof. destruct x; try discriminate. eauto. Qed.

(** For a float64 array of shape (2, 3) or (3, 3), [validate_axes] called
    with the array is [validate_axes] called with its rows as separate
    vectors: the two forms of the call agree, in the result and in the
    error. *)
Theorem axes_array_is_its_rows (m : ndarray) (normalize must_be_orthogonal : bool)
    (must_have_orientation : option string) (name : string) :
  well_formed m ->
  dtype_of m = Float64 ->
  shape m = [2; 3]%nat \/ shape m = [3; 3]%nat ->
  validate_axes [PyArray m] normalize must_be_orthogonal must_have_orientation name
  = validate_axes (row_arrays m) normalize must_be_orthogonal must_have_orientation name.
Proof.
  intros [Hlen Hkind] Hd Hs. destruct m as [d s l]; cbn [dtype_of shape data] in *.
  subst d. unfold row_arrays; cbn [shape].
  assert (Hvec : forall e0 e1 e2,
             validate_vector (PyArray (mk_ndarray Float64 [3%nat] [e0; e1; e2]))
             = Ok (mk_ndarray Float64 [3%nat] [e0; e1; e2])).
  { intros e0 e1 e2. unfold validate_vector.
    rewrite <- validate_array3_default, array3_fixed_point by discriminate. reflexivity. }
  destruct Hs as [-> | ->]; cbn in Hlen.
  - destruct l as [|e0 [|e1 [|e2 [|e3 [|e4 [|e5 [|e6 l]]]]]]]; try discriminate Hlen.
    repeat match goal with
           | H : Forall _ (_ :: _) |- _ =>
               inversion H as [|? ? [? ->]%astype1_float ?]; clear H; subst
           end.
    cbn [hd seq map].
    destruct must_have_orientation as [o|]; [|vm_compute; reflexivity].
    symmetry. rewrite validate_axes_two_vectors.
    unfold row.
    cbn [shape data dtype_of tail shape_size fold_right Nat.mul Nat.add firstn skipn].
    rewrite !Hvec. reflexivity.
  - destruct l as [|e0 [|e1 [|e2 [|e3 [|e4 [|e5 [|e6 [|e7 [|e8 [|e9 l]]]]]]]]]];
      try discriminate Hlen.
    repeat match goal with
           | H : Forall _ (_ :: _) |- _ =>
               inversion H as [|? ? [? ->]%astype1_float ?]; clear H; subst
           end.
    cbn [hd seq map].
    symmetry. rewrite validate_axes_three_vectors.
    unfold row.
    cbn [shape data dtype_of tail shape_size fold_right Nat.mul Nat.add firstn skipn].
    rewrite !Hvec. reflexivity.
Qed.

Lemma axes_array_is_its_rows_witness :
  validate_axes [PyArray (float_array [3; 3]%nat [0; 2; 0; -1; 0; 0; 0; 0; 1]%float)]
                true true (Some "right"%string) "axes"
  = validate_axes (row_arrays (float_array [3; 3]%nat [0; 2; 0; -1; 0; 0; 0; 0; 1]%float))
                  true true (Some "right"%string) "axes".
Proof.
  apply axes_array_is_its_rows.
  - split; [reflexivity|]. repeat constructor.
  - reflexivity.
  - right. reflexivity.
Defined.

(** * Locked parameters restated *)

Lemma setdefault_insert_ne (kwargs : gmap string pyval) (k key : string) (d val : pyval) :
  k <> key ->
  setdefault k d (<[key := val]> kwargs) = <[key := val]> (setdefault k d kwargs).
Proof.
  intros Hne. unfold setdefault. rewrite lookup_insert_ne by congruence.
  destruct (kwargs !! k); [reflexivity|]. apply insert_insert_ne. congruence.
Qed.

Lemma mandatory_insert_ne (kwargs : gmap string pyval) (k key : string) (d val : pyval) :
  k <> key ->
  _set_default_kwarg_mandatory (<[key := val]> kwargs) k d
  = let* kwargs' := _set_default_kwarg_mandatory kwargs k d in
    Ok (<[key := val]> kwargs').
Proof.
  intros Hne. unfold _set_default_kwarg_mandatory, pop.
  rewrite lookup_insert_ne by congruence.
  destruct (py_eqb _ d); cbn [negb raise_if bind]; [|reflexivity].
  f_equal. rewrite delete_insert_ne by congruence. apply insert_insert_ne. congruence.
Qed.

Lemma mandatory_restated (kwargs : gmap string pyval) (key : string) (d val : pyval) :
  kwargs !! key = None ->
  py_eqb val d = true ->
  py_eqb d d = true ->
  _set_default_kwarg_mandatory (<[key := val]> kwargs) key d
  = _set_default_kwarg_mandatory kwargs key d.
Proof.
  intros Hkey Hval Hd. unfold _set_default_kwarg_mandatory, pop.
  rewrite lookup_insert_eq, Hkey. cbn [from_option id]. rewrite Hval, Hd.
  cbn [negb raise_if bind]. f_equal.
  now rewrite delete_insert_eq.
Qed.

(** One step of a specialised validator on keywords that carry the
    restated parameter: the insertion moves out of a [setdefault] and out
    of the locking of another parameter, and disappears in the locking of
    the parameter itself. *)
Ltac restated_step Hkey Hval :=
  first
    [ rewrite setdefault_insert_ne by discriminate
    | rewrite lookup_insert_ne by discriminate
    | rewrite mandatory_restated;
      [ reflexivity
      | rewrite ?setdefault_lookup by discriminate; exact Hkey
      | exact Hval
      | reflexivity ]
    | rewrite mandatory_insert_ne by discriminate;
      lazymatch goal with
      | |- context [_set_default_kwarg_mandatory ?kw ?k ?d] =>
          let E := fresh "E" in
          let kw' := fresh "kw" in
          destruct (_set_default_kwarg_mandatory kw k d) as [kw'|] eqn:E;
          [ cbn [bind];
            apply (mandatory_lookup _ _ _ (ltac:(lazymatch type of Hkey with
                                                 | _ !! ?key = _ => exact key
                                                 end))) in E;
            rewrite decide_False in E by discriminate;
            rewrite ?setdefault_lookup in E by discriminate;
            rewrite Hkey in E; clear Hkey; rename E into Hkey
          | reflexivity ]
      end ].

(** A locked parameter may be restated: passing it with a value equal to
    the one it is locked to is the same as not passing it, for every
    specialised validator, every input and every other keyword. *)
Theorem locked_parameter_restated_changes_nothing (v : validator) (key : string)
    (dflt val : pyval) (array : pyobj) (kwargs : gmap string pyval) :
  In (key, dflt) (locked v) ->
  kwargs !! key = None ->
  py_eqb val dflt = true ->
  call v array (<[key := val]> kwargs) = call v array kwargs.
Proof.
  intros Hlocked Hkey Hval.
  destruct v as [[|]| |[|]|[|]|[|]|[|] [|]]; simpl in Hlocked;
    repeat (destruct Hlocked as [[= <- <-]|Hlocked]); try contradiction;
    unfold call, validate_number, validate_data_range, validate_arrayNx3,
      validate_arrayN_uintlike, validate_array3, validate_arrayN; cbn zeta;
    repeat first [rewrite bind_assoc | progress cbn [bind]].
  all: repeat restated_step Hkey Hval.
Qed.

Lemma locked_parameter_restated_changes_nothing_witness :
  validate_data_range (py_ints [-5; 5])
    (<[ "must_be_sorted"%string := VInt 1 ]> {[ "must_be_finite"%string := VBool true ]})
  = validate_data_range (py_ints [-5; 5]) {[ "must_be_finite"%string := VBool true ]}.
Proof.
  apply (locked_parameter_restated_changes_nothing DataRange "must_be_sorted" (VBool true)).
  - simpl. auto.
  - reflexivity.
  - reflexivity.
Defined.

(** * [_set_default_kwarg_mandatory] *)

(** When [_set_default_kwarg_mandatory] returns, the keywords are the
    ones it was given with the parameter bound to its default: a value
    that was passed compared equal to the default and has been replaced by
    it.  Locking the same parameter again changes nothing. *)
Theorem mandatory_default_settles (kwargs kwargs' : gmap string pyval) (key : string)
    (dflt : pyval) :
  _set_default_kwarg_mandatory kwargs key dflt = Ok kwargs' ->
  py_eqb dflt dflt = true ->
  kwargs' = <[key := dflt]> kwargs
  /\ (forall val, kwargs !! key = Some val -> py_eqb val dflt = true)
  /\ _set_default_kwarg_mandatory kwargs' key dflt = Ok kwargs'.
Proof.
  unfold _set_default_kwarg_mandatory, pop. intros H Hd.
  destruct (py_eqb (default dflt (kwargs !! key)) dflt) eqn:E; [|discriminate H].
  injection H as <-. rewrite insert_delete_eq. split; [reflexivity|]. split.
  - intros val Hval. now rewrite Hval in E.
  - rewrite lookup_insert_eq. cbn [from_option id]. rewrite Hd.
    cbn [negb raise_if bind]. now rewrite insert_delete_eq, insert_insert_eq.
Qed.

Lemma mandatory_default_settles_witness :
  ({[ "must_be_sorted"%string := VBool true ]} : gmap string pyval)
  = <[ "must_be_sorted"%string := VBool true ]> {[ "must_be_sorted"%string := VInt 1 ]}
  /\ (forall val,
         ({[ "must_be_sorted"%string := VInt 1 ]} : gmap string pyval)
           !! "must_be_sorted"%string = Some val ->
         py_eqb val (VBool true) = true)
  /\ _set_default_kwarg_mandatory {[ "must_be_sorted"%string := VBool true ]}
       "must_be_sorted" (VBool true)
     = Ok {[ "must_be_sorted"%string := VBool true ]}.
Proof.
  apply (mandatory_default_settles {[ "must_be_sorted"%string := VInt 1 ]}).
  - vm_compute. reflexivity.
  - reflexivity.
Defined.

(** * [validate_data_range] and [to_list] *)

Lemma data_range_with_to_list (rng : pyobj) (v : pyval) :
  validate_data_range rng {[ "to_list"%string := v ]}
  = validate_array rng
      (let c := default_call_config DataRange in
       {| c with to_tuple := false; to_list := py_truthy v |}).
Proof.
  unfold validate_data_range, validate_array_kw. repeat run_head. reflexivity.
Qed.

(** [validate_data_range] asks for a tuple only when the caller has not
    passed [to_list]: the array is validated in the same way with and
    without it, and what is returned for the validated array is its tuple
    when no keyword is given, its list when [to_list] is given and true,
    and the validated array itself, no tuple, when [to_list] is given and
    false.  The call fails with [to_list] exactly when it fails without,
    and with the same exception. *)
Theorem data_range_to_list_suppresses_tuple (rng : pyobj) (v : pyval) :
  validate_data_range rng ∅
  = (let* a := validated_array rng (default_call_config DataRange) in
     Ok (OutNested (_cast_to_tuple a)))
  /\ validate_data_range rng {[ "to_list"%string := v ]}
     = (let* a := validated_array rng (default_call_config DataRange) in
        Ok (if py_truthy v then OutNested (tolist a) else OutArray a)).
Proof.
  split.
  - change (validate_data_range rng ∅) with (call DataRange rng ∅).
    rewrite call_default, validate_array_output. reflexivity.
  - rewrite data_range_with_to_list, validate_array_output.
    change (validated_array rng _)
      with (validated_array rng (default_call_config DataRange)).
    destruct (validated_array rng (default_call_config DataRange)) as [a|];
      [cbn [bind]|reflexivity].
    unfold output_stage; cbn [to_tuple to_list]. now destruct (py_truthy v).
Qed.

(** For a well-formed input, [to_list=False] makes [validate_data_range]
    return an array of shape (2,), where no keyword makes it return the
    tuple of the same two numbers. *)
Example data_range_as_array :
  validate_data_range (py_ints [-5; 5]) {[ "to_list"%string := VBool false ]}
  = Ok (OutArray (int_array [2]%nat [-5; 5]))
  /\ validate_data_range (py_ints [-5; 5]) {[ "to_list"%string := VBool true ]}
     = Ok (OutNested (TList [TNum (NInt (-5)); TNum (NInt 5)]))
  /\ validate_data_range (py_ints [-5; 5]) ∅
     = Ok (OutNested (TTuple [TNum (NInt (-5)); TNum (NInt 5)])).
Proof. repeat split; vm_compute; reflexivity. Qed.

(** * [validate_arrayN_uintlike] and [dtype_out] *)

(** [validate_arrayN_uintlike] looks at [dtype_out] first: a dtype that is
    neither [int] nor a subtype of [np.integer] raises [TypeError],
    whatever the array and the other keywords are, a locked parameter that
    is overridden included. *)
Theorem uintlike_refuses_other_dtype_out (array : pyobj) (reshape : bool)
    (kwargs : gmap string pyval) (t : dtype_like) :
  kwargs !! "dtype_out"%string = Some (VType t) ->
  issubdtype t DTInteger = false ->
  validate_arrayN_uintlike array reshape kwargs = Err TypeError.
Proof.
  intros Hkey Hsub. unfold validate_arrayN_uintlike; cbn zeta.
  rewrite (setdefault_present _ _ _ _ Hkey), Hkey; cbn [from_option id].
  assert (Hne : py_eqb (VType t) (VType (DT Int64)) = false).
  { destruct t as [[]| | | | |]; try reflexivity; discriminate Hsub. }
  rewrite Hne; cbn [negb when read_dtype bind].
  unfold check_subdtype; cbn [existsb]. rewrite Hsub. reflexivity.
Qed.

Lemma uintlike_refuses_other_dtype_out_witness :
  validate_arrayN_uintlike (py_ints [1; 2; 3]) true
    (<[ "dtype_out"%string := VType DTFloating ]>
       {[ "must_be_nonnegative"%string := VBool false ]})
  = Err TypeError.
Proof.
  apply (uintlike_refuses_other_dtype_out _ _ _ DTFloating); reflexivity.
Defined.

(** * Arrays that need no transform *)

Lemma shape_eqb_dims (s : list nat) (l : list Z) :
  shape_eqb s (ShTuple l) = true -> l = map Z.of_nat s.
Proof.
  simpl. revert l.
  induction s as [|d s IH]; intros [|p l]; simpl; try discriminate; [reflexivity|].
  intros [Hd Hs]%andb_true_iff. apply Z.eqb_eq in Hd. subst p. f_equal. now apply IH.
Qed.

Lemma count_unknown_own (s : list nat) : count_unknown (map Z.of_nat s) = 0%nat.
Proof.
  unfold count_unknown. induction s as [|d s IH]; simpl; [reflexivity|].
  assert (E : (Z.of_nat d =? -1) = false) by (apply Z.eqb_neq; lia).
  now rewrite E.
Qed.

Lemma nonneg_dims_own (l : list Z) :
  existsb (fun d => d <? 0) l = false -> l = map Z.of_nat (map Z.to_nat l).
Proof.
  induction l as [|d l IH]; simpl; [reflexivity|].
  intros [Hd Hl]%orb_false_iff. apply Z.ltb_ge in Hd.
  rewrite Z2Nat.id by assumption. f_equal. now apply IH.
Qed.

(** The condition of C9 is exact: a well-formed array is left as it is by
    the reshape, by the broadcast and by the change of dtype of a
    configuration if, and only if, it fits the target of [reshape_to], has
    the shape of [broadcast_to] and has the dtype [dtype_out]. *)
Lemma already_transformed_exactly (c : config) (a : ndarray) :
  well_formed a ->
  already_transformed c a
  <-> reshape_stage c a = Ok a /\ broadcast_stage c a = Ok a /\ cast_stage c a = a.
Proof.
  intros Hwf. split.
  - intros (Hreshape & Hbroadcast & Hout).
    auto using reshape_stage_same, broadcast_stage_same, cast_stage_same.
  - intros (Hreshape & Hbroadcast & Hout). split; [|split].
    + unfold reshape_stage in Hreshape. unfold fits_reshape.
      destruct (reshape_to c) as [t|]; [|exact I].
      destruct (shape_eqb (shape a) t) eqn:E; cbn [negb] in Hreshape.
      * split; [now apply shape_eqb_matches|]. left.
        destruct t as [n|l]; [discriminate E|].
        rewrite (shape_eqb_dims _ _ E). apply count_unknown_own.
      * unfold np_reshape in Hreshape.
        apply bind_eq_Ok in Hreshape as [s [Hs Ha]].
        assert (s = shape a) as ->.
        { injection Ha as Ha. now rewrite <- Ha. }
        split; [exact (resolve_shape_matches _ _ _ Hs)|].
        unfold resolve_shape in Hs.
        destruct (existsb _ (dims_of t)); [discriminate|].
        destruct (count_unknown (dims_of t)) as [|[|k]]; [now left| |discriminate].
        right. split; [reflexivity|].
        destruct (known_size (dims_of t) =? 0) eqn:Hk; [discriminate|].
        now apply Z.eqb_neq.
    + unfold broadcast_stage in Hbroadcast. unfold has_shape.
      destruct (broadcast_to c) as [t|]; [|exact I].
      destruct (shape_eqb (shape a) t) eqn:E; cbn [negb] in Hbroadcast.
      * destruct t as [n|l]; [discriminate E|]. exact (shape_eqb_dims _ _ E).
      * rewrite (np_broadcast_to_shape _ _ _ Hbroadcast) at 1.
        unfold np_broadcast_to in Hbroadcast.
        destruct (existsb _ (dims_of t)) eqn:Hneg; [discriminate|].
        now apply nonneg_dims_own.
    + unfold cast_stage in Hout. unfold has_dtype.
      destruct (dtype_out c) as [t|]; [|exact I].
      pose proof (f_equal dtype_of Hout) as Hd. cbn [astype dtype_of] in Hd.
      split; [exact Hd|].
      apply (f_equal data) in Hout. cbn [astype data] in Hout. rewrite Hd in Hout.
      destruct Hwf as [_ Hkind]. revert Hout Hkind.
      induction (data a) as [|x l IH]; cbn [map]; [constructor|].
      intros [= Hx Hl] Hkind. inversion Hkind as [|? ? Hk Hks]; subst.
      constructor; [|now apply IH].
      apply astype1_wrapping_own. now rewrite Hk.
Qed.
